(** * Locker reservation backend: reserve / extend / release and OTP verification

    A shallow embedding of [src/controllers/lockerController.ts]
    ([reserveLocker], [extendReservation], [releaseLocker]) and of
    [src/services/twilioService.ts] ([verifyOTP]) over a model of the
    PostgreSQL tables declared in [src/config/database.sql].

    Conventions of the embedding

    - a table is the list of its rows; the place of a row in the list is
      not the place at which PostgreSQL returns it (an [UPDATE] may move a
      row): the statements below use the lists to pair a row with its
      updated version, and say in no other way where a row is;
    - a [TIMESTAMP] value is the wall-clock reading it stores, in
      milliseconds, in [Z]; a JavaScript [Date] is the reading it is stored
      as, and where the code subtracts [getTime()] values (the hours of a
      release) its time value, which depends on the time zone of the
      server; an invalid [Date] is [None];
    - [DECIMAL(10,2)] amounts are counted in hundredths, in [Z]; the range
      check of the column is kept ([fits_decimal_10_2]);
    - every [await]ed statement outside a transaction is one atomic step of
      the handler; a [BEGIN] ... [COMMIT] block is one atomic step that either
      applies all its writes or, after [ROLLBACK], none;
    - the values a handler draws from its environment (clock readings, the
      random access code, fresh UUIDs, statements that the server refuses)
      are fields of an explicit [env]. *)

From Stdlib Require Import ZArith List String Ascii Bool Lia Permutation.
Import ListNotations.
Open Scope string_scope.
Open Scope Z_scope.

(* ------------------------------------------------------------------ *)
(** ** The JavaScript values read from a request body *)

Module JS.

(** A number is kept as its shortest decimal [m * 10^-e], the digits that
    Number::toString prints for it (arrays and objects do not occur in
    these request fields). *)
Inductive jsval : Type :=
| JUndefined
| JNull
| JBool (b : bool)
| JNum (m : Z) (e : nat)
| JStr (s : string).

(** [!v] is [negb (truthy v)]. *)
Definition truthy (v : jsval) : bool :=
  match v with
  | JUndefined | JNull => false
  | JBool b => b
  | JNum m _ => negb (m =? 0)
  | JStr s => negb (String.eqb s "")
  end.

(** The mathematical value of a number, rounded up and truncated. *)
Definition num_ceil (m : Z) (e : nat) : Z := - ((- m) / 10 ^ Z.of_nat e).
Definition num_trunc (m : Z) (e : nat) : Z := Z.quot m (10 ^ Z.of_nat e).
Definition is_whole (m : Z) (e : nat) : bool := m mod 10 ^ Z.of_nat e =? 0.

(** *** Decimal digits *)

Definition digit_char (d : Z) : ascii := ascii_of_nat (48 + Z.to_nat d).

Fixpoint digits_aux (fuel : nat) (n : Z) (acc : list Z) : list Z :=
  match fuel with
  | O => acc
  | S f => if n <? 10 then n :: acc
           else digits_aux f (n / 10) (n mod 10 :: acc)
  end.

(** Most significant digit first; [log2 n + 1] bounds the number of digits. *)
Definition digits (n : Z) : list Z :=
  digits_aux (S (Z.to_nat (Z.log2 n))) n [].

(** The number that a list of digits writes, continuing from [acc]. *)
Definition value_from (acc : Z) (ds : list Z) : Z :=
  fold_left (fun a d => 10 * a + d) ds acc.

Definition is_digit (d : Z) : Prop := 0 <= d <= 9.

Fixpoint string_of_digits (ds : list Z) : string :=
  match ds with
  | [] => ""
  | d :: r => String (digit_char d) (string_of_digits r)
  end.

Fixpoint drop_zeros (ds : list Z) : list Z :=
  match ds with
  | 0 :: r => drop_zeros r
  | _ => ds
  end.

Definition drop_trailing_zeros (ds : list Z) : list Z :=
  rev (drop_zeros (rev ds)).

Fixpoint zeros (n : nat) : string :=
  match n with
  | O => ""
  | S k => String "0" (zeros k)
  end.

(** *** Number::toString (radix 10) *)

(** Drop the decimals that are zero: [2.50] is [2.5], [3.0] is [3]. *)
Fixpoint canon (m : Z) (e : nat) : Z * nat :=
  match e with
  | O => (m, O)
  | S e' => if m mod 10 =? 0 then canon (m / 10) e' else (m, e)
  end.

(** [d.ddde+x]: the digits [ds] of [s] and the exponent [n - 1]. *)
Definition exponential (ds : list Z) (n : Z) : string :=
  let ex := (if 0 <=? n - 1 then "+" else "-")
            ++ string_of_digits (digits (Z.abs (n - 1))) in
  match ds with
  | [] => ""
  | [d] => string_of_digits [d] ++ "e" ++ ex
  | d :: r => string_of_digits [d] ++ "." ++ string_of_digits r ++ "e" ++ ex
  end.

(** With [s] the digits without trailing zeros, [k] their number and
    [s * 10^(n-k)] the value: the cases [k <= n <= 21], [0 < n <= 21],
    [-6 < n <= 0] and the two exponential ones.  For a whole number of at
    most 21 digits, "the digits of [s] followed by [n-k] zeros" are the
    digits of the number itself. *)
Definition pos_toString (a : Z) (e : nat) : string :=
  let '(a', e') := canon a e in
  let ds := digits a' in
  let n := Z.of_nat (List.length ds) - Z.of_nat e' in
  match e' with
  | O => if n <=? 21 then string_of_digits ds
         else exponential (drop_trailing_zeros ds) n
  | S _ =>
      if 0 <? n then
        if n <=? 21
        then string_of_digits (firstn (Z.to_nat n) ds) ++ "."
             ++ string_of_digits (skipn (Z.to_nat n) ds)
        else exponential ds n
      else if -6 <? n
      then "0." ++ zeros (Z.to_nat (- n)) ++ string_of_digits ds
      else exponential ds n
  end.

Definition Number_toString (m : Z) (e : nat) : string :=
  if m =? 0 then "0"
  else if m <? 0 then "-" ++ pos_toString (- m) e
  else pos_toString m e.

Definition ToString (v : jsval) : string :=
  match v with
  | JUndefined => "undefined"
  | JNull => "null"
  | JBool true => "true"
  | JBool false => "false"
  | JNum m e => Number_toString m e
  | JStr s => s
  end.

(** *** parseInt (no radix argument) *)

(** The text of a request is kept as its UTF-8 bytes.  White space and
    line terminators of one byte: TAB, LF, VT, FF, CR and SPACE. *)
Definition is_white (c : ascii) : bool :=
  let n := nat_of_ascii c in
  ((9 <=? n) && (n <=? 13))%nat || (n =? 32)%nat.

(** U+00A0 (no-break space), in two bytes. *)
Definition is_white2 (c1 c2 : ascii) : bool :=
  ((nat_of_ascii c1 =? 194) && (nat_of_ascii c2 =? 160))%nat.

(** In three bytes: U+1680, U+2000 to U+200A, U+2028, U+2029, U+202F,
    U+205F, U+3000 and U+FEFF. *)
Definition is_white3 (c1 c2 c3 : ascii) : bool :=
  let a := nat_of_ascii c1 in
  let b := nat_of_ascii c2 in
  let c := nat_of_ascii c3 in
  ((a =? 225) && (b =? 154) && (c =? 128)
   || (a =? 226) && (b =? 128)
      && ((128 <=? c) && (c <=? 138) || (c =? 168) || (c =? 169) || (c =? 175))
   || (a =? 226) && (b =? 129) && (c =? 159)
   || (a =? 227) && (b =? 128) && (c =? 128)
   || (a =? 239) && (b =? 187) && (c =? 191))%nat.

(** TrimString(start): every leading WhiteSpace and LineTerminator. *)
Fixpoint trim_start (s : string) : string :=
  match s with
  | EmptyString => s
  | String c1 r1 =>
      if is_white c1 then trim_start r1
      else
        match r1 with
        | EmptyString => s
        | String c2 r2 =>
            if is_white2 c1 c2 then trim_start r2
            else
              match r2 with
              | EmptyString => s
              | String c3 r3 =>
                  if is_white3 c1 c2 c3 then trim_start r3 else s
              end
        end
  end.

Definition digit_val (radix : Z) (c : ascii) : option Z :=
  let n := Z.of_nat (nat_of_ascii c) in
  let v := if (48 <=? n) && (n <=? 57) then n - 48
           else if (97 <=? n) && (n <=? 122) then n - 87
           else if (65 <=? n) && (n <=? 90) then n - 55
           else radix in
  if v <? radix then Some v else None.

(** The longest prefix of radix digits, as a number; [acc] is [None] until
    a digit has been read. *)
Fixpoint scan_digits (radix : Z) (s : string) (acc : option Z) : option Z :=
  match s with
  | EmptyString => acc
  | String c r =>
      match digit_val radix c with
      | Some d =>
          scan_digits radix r
            (Some (radix * match acc with Some a => a | None => 0 end + d))
      | None => acc
      end
  end.

(** A leading [0x] or [0X] selects radix 16. *)
Definition strip_prefix_scan (s1 : string) : option Z :=
  let '(radix, s2) :=
    match s1 with
    | String "0" (String "x" r) => (16, r)
    | String "0" (String "X" r) => (16, r)
    | _ => (10, s1)
    end in
  scan_digits radix s2 None.

(** [None] is [NaN]. *)
Definition parseInt_string (input : string) : option Z :=
  let s := trim_start input in
  let '(sign, s1) :=
    match s with
    | String "-" r => (-1, r)
    | String "+" r => (1, r)
    | _ => (1, s)
    end in
  option_map (Z.mul sign) (strip_prefix_scan s1).

Definition parseInt (v : jsval) : option Z := parseInt_string (ToString v).

End JS.

Import JS.

(* ------------------------------------------------------------------ *)
(** ** Dates *)

Definition hour_ms : Z := 1000 * 60 * 60.

(** A [Date] holds a time value of at most 8.64e15 ms in absolute value,
    or is invalid. *)
Definition jsdate : Type := option Z.

Definition max_time : Z := 8640000000000000.

Definition TimeClip (t : Z) : jsdate :=
  if Z.abs t <=? max_time then Some t else None.

(** [d.setHours(d.getHours() + n)], on the wall clock; [n = None] is [NaN]. *)
Definition addHours (d : jsdate) (n : option Z) : jsdate :=
  match d, n with
  | Some t, Some h => TimeClip (t + h * hour_ms)
  | _, _ => None
  end.

(** [Math.ceil((endTime.getTime() - startTime.getTime()) / (1000*60*60))] *)
Definition ceil_hours (endTime startTime : Z) : Z :=
  - ((- (endTime - startTime)) / hour_ms).

(* ------------------------------------------------------------------ *)
(** ** Tables (database.sql) *)

Inductive locker_status : Type := AVAILABLE | OCCUPIED | MAINTENANCE.
Inductive reservation_status : Type := ACTIVE | COMPLETED | CANCELLED.

Definition locker_status_eqb (a b : locker_status) : bool :=
  match a, b with
  | AVAILABLE, AVAILABLE | OCCUPIED, OCCUPIED | MAINTENANCE, MAINTENANCE => true
  | _, _ => false
  end.

Definition reservation_status_eqb (a b : reservation_status) : bool :=
  match a, b with
  | ACTIVE, ACTIVE | COMPLETED, COMPLETED | CANCELLED, CANCELLED => true
  | _, _ => false
  end.

(** Columns that no handler reads or writes are left out; UUIDs are
    strings. *)
Record locker_size : Type := mkSize {
  ls_size_id : string;
  base_price : Z
}.

Record locker : Type := mkLocker {
  locker_id : string;
  l_size_id : string;
  l_status : locker_status
}.

(** [reserveLocker] always writes [start_time], [expected_end_time] and
    [total_cost], and [extension_count] has [DEFAULT 0]: these columns are
    taken as set.  The three columns later filled by extend and release are
    nullable. *)
Record reservation : Type := mkReservation {
  reservation_id : string;
  user_id : string;
  r_locker_id : string;
  start_time : Z;
  expected_end_time : Z;
  actual_end_time : option Z;
  status : reservation_status;
  total_cost : Z;
  access_code : string;
  extension_count : Z;
  extended_end_time : option Z;
  extension_cost : option Z
}.

Record history : Type := mkHistory {
  history_id : string;
  h_reservation_id : string;
  h_start_time : Z;
  h_end_time : Z;
  total_hours : Z;
  h_total_cost : Z
}.

Record verification_code : Type := mkCode {
  code_id : string;
  vc_user_id : option string;
  phone : string;
  code : string;
  purpose : string;
  expires_at : Z;
  is_used : bool
}.

Record store : Type := mkStore {
  locker_sizes : list locker_size;
  lockers : list locker;
  reservations : list reservation;
  reservation_history : list history;
  verification_codes : list verification_code
}.

(** Column ranges. *)
Definition fits_decimal_10_2 (c : Z) : bool := Z.abs c <? 10 ^ 10.
Definition fits_int4 (n : Z) : bool := (- 2 ^ 31 <=? n) && (n <? 2 ^ 31).

(** A [TIMESTAMP] runs from Julian day 0 (24 November 4714 BC) to the end
    of the year 294276; here in milliseconds from 1 January 1970, which is
    Julian day 2440588 (294277-01-01 is Julian day 109203528). *)
Definition timestamp_min : Z := - (2440588 * 86400000).
Definition timestamp_end : Z := (109203528 - 2440588) * 86400000.
Definition fits_timestamp (t : Z) : bool :=
  (timestamp_min <=? t) && (t <? timestamp_end).

(* ------------------------------------------------------------------ *)
(** ** Handlers as sequences of atomic steps *)

(** What a handler takes from outside the store. *)
Record env : Type := mkEnv {
  app_clock : nat -> Z;   (* the successive [new Date()] of the handler, as
                             the readings that a TIMESTAMP column stores *)
  db_now : Z;             (* [NOW()] as the database evaluates it *)
  random_code : string;   (* [Math.floor(100000 + Math.random() * 900000).toString()] *)
  uuid : string;          (* [generateUUID()] *)
  refused : nat -> bool;  (* the statements that throw for a reason outside
                             the model: connection lost, foreign key, ... *)
  app_time : nat -> Z;    (* [getTime()] of the same [new Date()] *)
  time_of_local : Z -> Z  (* [getTime()] of the [Date] that node-postgres
                             builds from a TIMESTAMP value, which it reads
                             as local time in the time zone of the server *)
}.

(** A handler either has answered or performs one more atomic step on the
    store. *)
#[warnings="-register-all"]
Inductive proc (R : Type) : Type :=
| Done (r : R)
| Step (k : store -> proc R * store).
Arguments Done {R} r.
Arguments Step {R} k.

(** Running a handler alone. *)
Fixpoint exec {R} (p : proc R) (st : store) : R * store :=
  match p with
  | Done r => (r, st)
  | Step k => let '(p', st') := k st in exec p' st'
  end.

(** Running two handlers concurrently: the schedule says whose step is
    next ([true] the first, [false] the second); a handler that has
    answered ignores its turn. *)
Definition turn {R} (p : proc R) (st : store) : proc R * store :=
  match p with
  | Done r => (Done r, st)
  | Step k => k st
  end.

Fixpoint interleave {R} (sched : list bool) (p q : proc R) (st : store)
  : proc R * proc R * store :=
  match sched with
  | [] => (p, q, st)
  | true :: s => let '(p', st') := turn p st in interleave s p' q st'
  | false :: s => let '(q', st') := turn q st in interleave s p q' st'
  end.

(** *** Transactions *)

(** The body of a transaction works on the client's view of the store and
    may throw ([None]). *)
Definition tx (A : Type) : Type := store -> option (A * store).

Definition tx_ret {A} (a : A) : tx A := fun st => Some (a, st).

Definition tx_bind {A B} (m : tx A) (f : A -> tx B) : tx B :=
  fun st => match m st with
            | Some (a, st') => f a st'
            | None => None
            end.

Notation "x <- m ;; k" := (tx_bind m (fun x => k))
  (at level 61, m at next level, right associativity).
Notation "m ;;; k" := (tx_bind m (fun _ => k))
  (at level 61, right associativity).

(** A statement that the server may refuse. *)
Definition stmt {A} (refuse : bool) (q : tx A) : tx A :=
  fun st => if refuse then None else q st.

(** A write that cannot fail by itself. *)
Definition write (f : store -> store) : tx unit :=
  fun st => Some (tt, f st).

(** [BEGIN]; body; [COMMIT], and [ROLLBACK] in the [catch]: the writes of a
    body that throws are dropped. *)
Definition transaction {A} (body : tx A) (st : store) : option A * store :=
  match body st with
  | Some (a, st') => (Some a, st')
  | None => (None, st)
  end.

(** *** Responses *)

Inductive payload : Type :=
| NoData
| Reserved (r : reservation) (accessCode : string) (expiresAt : Z)
| Extended (r : option reservation) (additionalCost : Z) (newEndTime : Z).

Record response : Type := mkResponse {
  http_status : Z;
  success : bool;
  message : string;
  data : payload
}.

Definition fail (c : Z) (msg : string) : response := mkResponse c false msg NoData.
Definition ok (msg : string) (d : payload) : response := mkResponse 200 true msg d.

(* ------------------------------------------------------------------ *)
(** ** Statements *)

Definition set_lockers (f : list locker -> list locker) (st : store) : store :=
  mkStore (locker_sizes st) (f (lockers st)) (reservations st)
          (reservation_history st) (verification_codes st).

Definition set_reservations (rs : list reservation) (st : store) : store :=
  mkStore (locker_sizes st) (lockers st) rs
          (reservation_history st) (verification_codes st).

Definition set_history (hs : list history) (st : store) : store :=
  mkStore (locker_sizes st) (lockers st) (reservations st)
          hs (verification_codes st).

Definition set_codes (cs : list verification_code) (st : store) : store :=
  mkStore (locker_sizes st) (lockers st) (reservations st)
          (reservation_history st) cs.

(** [JOIN locker_sizes ls ON l.size_id = ls.size_id]: the base prices of a
    locker's size. *)
Definition prices_of (st : store) (size : string) : list Z :=
  map base_price
      (filter (fun ls => String.eqb (ls_size_id ls) size) (locker_sizes st)).

(** [SELECT l.*, ls.base_price FROM lockers l JOIN locker_sizes ls ...
     WHERE l.locker_id = $1 AND l.status = 'AVAILABLE'] *)
Definition select_available_locker (lockerId : string) (st : store)
  : list (locker * Z) :=
  flat_map (fun l => map (fun p => (l, p)) (prices_of st (l_size_id l)))
    (filter (fun l => String.eqb (locker_id l) lockerId
                      && locker_status_eqb (l_status l) AVAILABLE)
            (lockers st)).

(** [UPDATE lockers SET status = $1 WHERE locker_id = $2] *)
Definition with_status (s : locker_status) (l : locker) : locker :=
  mkLocker (locker_id l) (l_size_id l) s.

Definition update_locker_status (s : locker_status) (lockerId : string)
  : store -> store :=
  set_lockers
    (map (fun l => if String.eqb (locker_id l) lockerId
                   then with_status s l else l)).

(** [INSERT INTO reservations (...) VALUES (...) RETURNING *]: refused for
    an invalid date, a date or an amount out of the range of its column, or
    a primary key in use. *)
Definition insert_reservation (reservationId userId lockerId : string)
    (startTime : Z) (endTime : jsdate) (totalCost : option Z)
    (accessCode : string) : tx reservation :=
  fun st =>
    match endTime, totalCost with
    | Some t, Some c =>
        if fits_timestamp startTime && fits_timestamp t
           && fits_decimal_10_2 c
           && negb (existsb (fun r => String.eqb (reservation_id r) reservationId)
                            (reservations st))
        then
          let r := mkReservation reservationId userId lockerId startTime t None
                                 ACTIVE c accessCode 0 None None in
          Some (r, set_reservations (reservations st ++ [r]) st)
        else None
    | _, _ => None
    end.

(** [SELECT r.*, l.size_id, ls.base_price FROM reservations r
     JOIN lockers l ON r.locker_id = l.locker_id
     JOIN locker_sizes ls ON l.size_id = ls.size_id
     WHERE r.reservation_id = $1 AND r.user_id = $2 AND r.status = 'ACTIVE'] *)
Definition is_active_of (reservationId userId : string) (r : reservation) : bool :=
  String.eqb (reservation_id r) reservationId
  && String.eqb (user_id r) userId
  && reservation_status_eqb (status r) ACTIVE.

(** The prices joined to a reservation through its locker. *)
Definition prices_for_locker (st : store) (lockerId : string) : list Z :=
  flat_map (fun l => prices_of st (l_size_id l))
    (filter (fun l => String.eqb (locker_id l) lockerId) (lockers st)).

Definition select_active_priced (reservationId userId : string) (st : store)
  : list (reservation * Z) :=
  flat_map
    (fun r => map (fun p => (r, p)) (prices_for_locker st (r_locker_id r)))
    (filter (is_active_of reservationId userId) (reservations st)).

(** [SELECT * FROM reservations
     WHERE reservation_id = $1 AND user_id = $2 AND status = 'ACTIVE'] *)
Definition select_active (reservationId userId : string) (st : store)
  : list reservation :=
  filter (is_active_of reservationId userId) (reservations st).

(** One row of
    [UPDATE reservations SET extended_end_time = $1,
       extension_count = extension_count + 1,
       extension_cost = COALESCE(extension_cost, 0) + $2,
       total_cost = $3 ...]; [None] when a new value is out of the range of
    its column. *)
Definition extend_row (newEndTime additionalCost newTotalCost : Z)
    (r : reservation) : option reservation :=
  let count := extension_count r + 1 in
  let cost := match extension_cost r with Some c => c | None => 0 end
              + additionalCost in
  if fits_int4 count && fits_decimal_10_2 cost && fits_decimal_10_2 newTotalCost
  then Some (mkReservation (reservation_id r) (user_id r) (r_locker_id r)
               (start_time r) (expected_end_time r) (actual_end_time r)
               (status r) newTotalCost (access_code r) count
               (Some newEndTime) (Some cost))
  else None.

(** [UPDATE ... WHERE p RETURNING *] with a row update that may be refused:
    the new table and the rows returned. *)
Fixpoint update_where {A} (p : A -> bool) (f : A -> option A) (rows : list A)
  : option (list A * list A) :=
  match rows with
  | [] => Some ([], [])
  | r :: rest =>
      match update_where p f rest with
      | None => None
      | Some (rest', ret) =>
          if p r then
            match f r with
            | Some r' => Some (r' :: rest', r' :: ret)
            | None => None
            end
          else Some (r :: rest', ret)
      end
  end.

(** The extension [UPDATE ... WHERE reservation_id = $4 RETURNING *]; an
    invalid date, a date out of the range of a TIMESTAMP or a [NaN] amount
    is refused. *)
Definition update_extension (newEndTime : jsdate)
    (additionalCost newTotalCost : option Z) (reservationId : string)
  : tx (list reservation * Z * Z) :=
  fun st =>
    match newEndTime, additionalCost, newTotalCost with
    | Some t, Some ac, Some tc =>
        if fits_timestamp t then
          match update_where
                  (fun r => String.eqb (reservation_id r) reservationId)
                  (extend_row t ac tc) (reservations st) with
          | Some (rs, ret) => Some ((ret, ac, t), set_reservations rs st)
          | None => None
          end
        else None
    | _, _, _ => None
    end.

(** [UPDATE reservations SET status = 'COMPLETED', actual_end_time = NOW()
     WHERE reservation_id = $2] *)
Definition completed (now : Z) (r : reservation) : reservation :=
  mkReservation (reservation_id r) (user_id r) (r_locker_id r) (start_time r)
    (expected_end_time r) (Some now) COMPLETED (total_cost r) (access_code r)
    (extension_count r) (extended_end_time r) (extension_cost r).

Definition complete_reservation (now : Z) (reservationId : string)
  : store -> store :=
  fun st =>
    set_reservations
      (map (fun r => if String.eqb (reservation_id r) reservationId
                     then completed now r else r)
           (reservations st)) st.

(** [INSERT INTO reservation_history (...) VALUES (...)] *)
Definition insert_history (h : history) : tx unit :=
  fun st =>
    if fits_timestamp (h_start_time h) && fits_timestamp (h_end_time h)
       && fits_int4 (total_hours h) && fits_decimal_10_2 (h_total_cost h)
       && negb (existsb (fun x => String.eqb (history_id x) (history_id h))
                        (reservation_history st))
    then Some (tt, set_history (reservation_history st ++ [h]) st)
    else None.

(** [SELECT * FROM verification_codes
     WHERE phone = $1 AND code = $2 AND purpose = $3
     AND expires_at > NOW() AND is_used = false] *)
Definition usable (now : Z) (ph otp purp : string) (c : verification_code)
  : bool :=
  String.eqb (phone c) ph && String.eqb (code c) otp
  && String.eqb (purpose c) purp
  && (now <? expires_at c) && negb (is_used c).

Definition select_usable_codes (now : Z) (ph otp purp : string) (st : store)
  : list verification_code :=
  filter (usable now ph otp purp) (verification_codes st).

(** [UPDATE verification_codes SET is_used = true WHERE code_id = $1] *)
Definition mark_used (codeId : string) : store -> store :=
  fun st =>
    set_codes
      (map (fun c =>
              if String.eqb (code_id c) codeId
              then mkCode (code_id c) (vc_user_id c) (phone c) (code c)
                          (purpose c) (expires_at c) true
              else c)
           (verification_codes st)) st.

(* ------------------------------------------------------------------ *)
(** ** lockerController.ts *)

Definition present (id : string) : bool := negb (String.eqb id "").

(** *** reserveLocker *)

Definition reserve_failed : response := fail 500 "Failed to reserve locker".

(** The [BEGIN] ... [COMMIT] block of [reserveLocker]. *)
Definition reserve_body (e : env) (userId lockerId : string)
    (durationHours totalCost : option Z) : tx response :=
  stmt (refused e 2) (write (fun st => st)) ;;;
  stmt (refused e 3) (write (update_locker_status OCCUPIED lockerId)) ;;;
  let accessCode := random_code e in
  let startTime := app_clock e 0%nat in
  let endTime := addHours (Some (app_clock e 1%nat)) durationHours in
  let reservationId := uuid e in
  row <- stmt (refused e 4)
           (insert_reservation reservationId userId lockerId startTime endTime
                               totalCost accessCode) ;;
  stmt (refused e 5) (write (fun st => st)) ;;;
  tx_ret (ok "Locker reserved successfully"
             (Reserved row accessCode (expected_end_time row))).

Definition reserveLocker (e : env) (userId lockerId : string) (duration : jsval)
  : proc response :=
  if negb (present lockerId) || negb (truthy duration)
  then Done (fail 400 "Locker ID and duration are required")
  else
    Step (fun st =>
      if refused e 0 then (Done reserve_failed, st) else
      match select_available_locker lockerId st with
      | [] => (Done (fail 400 "Locker not available"), st)
      | (locker, price) :: _ =>
          let durationHours := parseInt duration in
          let totalCost := option_map (Z.mul price) durationHours in
          (Step (fun st =>
             if refused e 1 then (Done reserve_failed, st) else
             match transaction
                     (reserve_body e userId lockerId durationHours totalCost)
                     st with
             | (Some r, st') => (Done r, st')
             | (None, st') => (Done reserve_failed, st')
             end), st)
      end).

(** *** extendReservation *)

(** [reservation.extended_end_time || reservation.expected_end_time] *)
Definition current_end (r : reservation) : Z :=
  match extended_end_time r with
  | Some t => t
  | None => expected_end_time r
  end.

Definition extend_failed : response := fail 500 "Failed to extend reservation".

Definition extendReservation (e : env) (userId reservationId : string)
    (additionalHours : jsval) : proc response :=
  if negb (present reservationId) || negb (truthy additionalHours)
  then Done (fail 400 "Reservation ID and additional hours are required")
  else
    Step (fun st =>
      if refused e 0 then (Done extend_failed, st) else
      match select_active_priced reservationId userId st with
      | [] => (Done (fail 404 "Active reservation not found"), st)
      | (reservation, price) :: _ =>
          let additionalHoursNum := parseInt additionalHours in
          let newEndTime :=
            addHours (Some (current_end reservation)) additionalHoursNum in
          let additionalCost := option_map (Z.mul price) additionalHoursNum in
          let newTotalCost :=
            option_map (Z.add (total_cost reservation)) additionalCost in
          (Step (fun st =>
             match stmt (refused e 1)
                     (update_extension newEndTime additionalCost newTotalCost
                                       reservationId) st with
             | Some ((rows, ac, t), st') =>
                 (Done (ok "Reservation extended successfully"
                           (Extended (hd_error rows) ac t)), st')
             | None => (Done extend_failed, st)
             end), st)
      end).

(** *** releaseLocker *)

Definition release_failed : response := fail 500 "Failed to release locker".

(** The [BEGIN] ... [COMMIT] block of [releaseLocker].  The hours are
    counted between the [getTime()] of [new Date(reservation.start_time)]
    and of [new Date()]; the same [new Date()] is stored as [end_time]. *)
Definition release_body (e : env) (reservationId : string)
    (reservation : reservation) : tx response :=
  stmt (refused e 2) (write (fun st => st)) ;;;
  stmt (refused e 3)
       (write (complete_reservation (db_now e) reservationId)) ;;;
  stmt (refused e 4)
       (write (update_locker_status AVAILABLE (r_locker_id reservation))) ;;;
  let startTime := time_of_local e (start_time reservation) in
  let endTime := app_time e 0%nat in
  let totalHours := ceil_hours endTime startTime in
  stmt (refused e 5)
       (insert_history
          (mkHistory (uuid e) reservationId (start_time reservation)
                     (app_clock e 0%nat) totalHours
                     (total_cost reservation))) ;;;
  stmt (refused e 6) (write (fun st => st)) ;;;
  tx_ret (ok "Locker released successfully" NoData).

Definition releaseLocker (e : env) (userId reservationId : string)
  : proc response :=
  Step (fun st =>
    if refused e 0 then (Done release_failed, st) else
    match select_active reservationId userId st with
    | [] => (Done (fail 404 "Active reservation not found"), st)
    | reservation :: _ =>
        (Step (fun st =>
           if refused e 1 then (Done release_failed, st) else
           match transaction (release_body e reservationId reservation) st with
           | (Some r, st') => (Done r, st')
           | (None, st') => (Done release_failed, st')
           end), st)
    end).

(* ------------------------------------------------------------------ *)
(** ** twilioService.ts *)

(** [verifyOTP]: any exception is caught and answered [false]. *)
Definition verifyOTP (e : env) (ph otp purp : string) : proc bool :=
  Step (fun st =>
    if refused e 0 then (Done false, st) else
    match select_usable_codes (db_now e) ph otp purp st with
    | [] => (Done false, st)
    | row :: _ =>
        (Step (fun st =>
           if refused e 1 then (Done false, st)
           else (Done true, mark_used (code_id row) st)), st)
    end).

(* ------------------------------------------------------------------ *)
(** ** The failures of the specification, read off a response *)

Inductive failure : Type :=
| InvalidInput | ResourceUnavailable | NotFound | Forbidden | Conflict
| Internal.

(** Both 400 answers of [reserveLocker] are told apart by their message. *)
Definition failure_of (r : response) : option failure :=
  if http_status r =? 200 then None
  else if http_status r =? 400 then
    if String.eqb (message r) "Locker not available"
    then Some ResourceUnavailable else Some InvalidInput
  else if http_status r =? 404 then Some NotFound
  else if http_status r =? 403 then Some Forbidden
  else if http_status r =? 409 then Some Conflict
  else Some Internal.

(** An environment in which no statement is refused. *)
Definition calm (e : env) : Prop := forall i, refused e i = false.

(* ------------------------------------------------------------------ *)
(** ** Vocabulary of the statements below *)

(** The reservation row that [reserveLocker] inserts, and the store it
    commits. *)
Definition new_reservation (e : env) (userId lockerId : string) (t c : Z)
  : reservation :=
  mkReservation (uuid e) userId lockerId (app_clock e 0%nat) t None ACTIVE c
                (random_code e) 0 None None.

Definition reserved_store (e : env) (userId lockerId : string) (t c : Z)
    (st : store) : store :=
  set_reservations
    (reservations st ++ [new_reservation e userId lockerId t c])
    (update_locker_status OCCUPIED lockerId st).

Definition fresh_reservation_id (e : env) (st : store) : bool :=
  negb (existsb (fun r => String.eqb (reservation_id r) (uuid e))
                (reservations st)).


(** The columns that [extendReservation] does not write. *)
Definition same_frame (r r' : reservation) : Prop :=
  reservation_id r' = reservation_id r /\ user_id r' = user_id r /\
  r_locker_id r' = r_locker_id r /\ start_time r' = start_time r /\
  expected_end_time r' = expected_end_time r /\
  actual_end_time r' = actual_end_time r /\ status r' = status r /\
  access_code r' = access_code r.

(** One row before and after the extension [UPDATE] of [reservationId]. *)
Definition extended_to (reservationId : string) (t ac tc : Z)
    (r r' : reservation) : Prop :=
  if String.eqb (reservation_id r) reservationId
  then extend_row t ac tc r = Some r'
  else r' = r.

(** The history row that [releaseLocker] inserts for the reservation it
    selected, and the store it commits. *)
Definition history_row (e : env) (reservationId : string) (res : reservation)
  : history :=
  mkHistory (uuid e) reservationId (start_time res) (app_clock e 0%nat)
            (ceil_hours (app_time e 0%nat) (time_of_local e (start_time res)))
            (total_cost res).

Definition released_store (e : env) (reservationId : string)
    (res : reservation) (st : store) : store :=
  let st1 := complete_reservation (db_now e) reservationId st in
  let st2 := update_locker_status AVAILABLE (r_locker_id res) st1 in
  set_history (reservation_history st2 ++ [history_row e reservationId res]) st2.



(** Row [x'] is row [x] closed at [now]: the two columns that the
    release [UPDATE] sets, and every other column as it was. *)
Definition completed_at (now : Z) (x x' : reservation) : Prop :=
  status x' = COMPLETED /\ actual_end_time x' = Some now /\
  reservation_id x' = reservation_id x /\ user_id x' = user_id x /\
  r_locker_id x' = r_locker_id x /\ start_time x' = start_time x /\
  expected_end_time x' = expected_end_time x /\
  total_cost x' = total_cost x /\ access_code x' = access_code x /\
  extension_count x' = extension_count x /\
  extended_end_time x' = extended_end_time x /\
  extension_cost x' = extension_cost x.

(** Locker [l'] is locker [l] with the status [s]. *)
Definition locker_set_to (s : locker_status) (l l' : locker) : Prop :=
  l_status l' = s /\ locker_id l' = locker_id l /\ l_size_id l' = l_size_id l.

(** A date that the handler can store: in the range of a JavaScript [Date]
    and of a TIMESTAMP column. *)
Definition storable_date (t : Z) : bool :=
  (Z.abs t <=? max_time) && fits_timestamp t.

(** A number written without exponent: [10^-6 <= |m * 10^-e| < 10^21]. *)
Definition plain_number (m : Z) (e : nat) : Prop :=
  10 ^ Z.of_nat e <= Z.abs m * 10 ^ 6 /\ Z.abs m < 10 ^ (21 + Z.of_nat e).

(* ------------------------------------------------------------------ *)
(** ** Sample data *)

Module Sample.

Definition t0 : Z := 1000 * hour_ms.

(** The server keeps UTC: a reading is its own time value. *)
Definition e0 : env :=
  mkEnv (fun _ => t0) t0 "483920" "R1" (fun _ => false)
        (fun _ => t0) (fun w => w).

(** A second request, a little later, with its own draws. *)
Definition e1 : env :=
  mkEnv (fun _ => t0 + 5) (t0 + 5) "771204" "R2" (fun _ => false)
        (fun _ => t0 + 5) (fun w => w).

Definition e2 : env :=
  mkEnv (fun _ => t0 + 9) (t0 + 9) "350117" "R3" (fun _ => false)
        (fun _ => t0 + 9) (fun w => w).

(** A release one hour after [t0], for which the database reads its clock
    a millisecond before the hour and the handler a millisecond after. *)
Definition e_skew : env :=
  mkEnv (fun _ => t0 + hour_ms + 1) (t0 + hour_ms - 1) "902456" "H1"
        (fun _ => false) (fun _ => t0 + hour_ms + 1) (fun w => w).

(** One locker at 10.00 per hour, free. *)
Definition st0 : store :=
  mkStore [mkSize "S" 1000] [mkLocker "L1" "S" AVAILABLE] [] [] [].

Definition r1 : reservation :=
  mkReservation "R1" "u1" "L1" t0 (t0 + 3 * hour_ms) None ACTIVE 3000
                "483920" 0 None None.

(** The locker taken by [u1] for three hours. *)
Definition st1 : store :=
  mkStore [mkSize "S" 1000] [mkLocker "L1" "S" OCCUPIED] [r1] [] [].

(** The same reservation once released. *)
Definition st2 : store :=
  mkStore [mkSize "S" 1000] [mkLocker "L1" "S" AVAILABLE]
          [completed (t0 + hour_ms) r1] [] [].

(** One code issued to a phone, valid for ten minutes. *)
Definition otp0 : store :=
  mkStore [] [] [] []
    [mkCode "C1" None "+15550100" "246810" "LOGIN" (t0 + 600000) false].

End Sample.

(* ------------------------------------------------------------------ *)
(** ** routes/lockerRoutes.ts: the three writing routes *)

(** [POST /reserve], [POST /extend] and [POST /release/:reservationId],
    with the user that [authenticate] has put on the request. *)
Inductive request : Type :=
| Reserve (userId lockerId : string) (duration : jsval)
| Extend (userId reservationId : string) (additionalHours : jsval)
| Release (userId reservationId : string).

Definition handle (e : env) (q : request) : proc response :=
  match q with
  | Reserve u l d => reserveLocker e u l d
  | Extend u r h => extendReservation e u r h
  | Release u r => releaseLocker e u r
  end.

(** Requests served one after the other, each with its own draws. *)
Fixpoint serve (qs : list (env * request)) (st : store) : store :=
  match qs with
  | [] => st
  | (e, q) :: rest => serve rest (snd (exec (handle e q) st))
  end.

(** The ACTIVE reservations that reference a locker. *)
Definition active_on (st : store) (lockerId : string) : list reservation :=
  filter (fun r => String.eqb (r_locker_id r) lockerId
                   && reservation_status_eqb (status r) ACTIVE)
         (reservations st).

(** Reservation identifiers are a key, and a locker is OCCUPIED exactly
    when one ACTIVE reservation references it (none otherwise). *)
Definition consistent (st : store) : Prop :=
  NoDup (map reservation_id (reservations st)) /\
  forall l, In l (lockers st) ->
    List.length (active_on st (locker_id l))
    = match l_status l with OCCUPIED => 1%nat | _ => 0%nat end.

(** The rows that carry a reservation identifier, and an identifier none
    of whose rows is ACTIVE any more. *)
Definition rows_of (reservationId : string) (st : store) : list reservation :=
  filter (fun x => String.eqb (reservation_id x) reservationId)
         (reservations st).

Definition final (reservationId : string) (st : store) : Prop :=
  rows_of reservationId st <> [] /\
  Forall (fun x => status x <> ACTIVE) (rows_of reservationId st).

(* ------------------------------------------------------------------ *)
(** ** lockerController.ts getUserReservations: the fields added to a row *)

Record listed : Type := mkListed {
  listed_row : reservation;
  expiring_soon : bool;
  minutes_left : Z
}.

(** The callback of [rows.map], at the clock reading [now]; the division
    and [Math.floor] are exact on the integers of a realistic time span. *)
Definition list_reservation (now : Z) (r : reservation) : listed :=
  let endTime := expected_end_time r in
  let timeLeft := endTime - now in
  let minutesLeft := timeLeft / (1000 * 60) in
  mkListed r
           ((minutesLeft <? 15) && (0 <? minutesLeft))
           (if 0 <? minutesLeft then minutesLeft else 0).

(* ------------------------------------------------------------------ *)
(** ** twilioService.ts generateAndStoreOTP, and the table it writes *)

Fixpoint all_spaces (s : string) : bool :=
  match s with
  | EmptyString => true
  | String c r => Ascii.eqb c " " && all_spaces r
  end.

(** Assigning to a [VARCHAR(n)] column: a longer value is an error, unless
    what exceeds is spaces, which are cut off (lengths in bytes, which are
    the characters of an ASCII value). *)
Definition varchar (n : nat) (s : string) : option string :=
  if (String.length s <=? n)%nat then Some s
  else if all_spaces (substring n (String.length s - n) s)
       then Some (substring 0 n s)
       else None.

(** [CHECK (purpose IN ('SIGNUP', 'LOGIN', 'PHONE_UPDATE'))] *)
Definition purpose_ok (p : string) : bool :=
  String.eqb p "SIGNUP" || String.eqb p "LOGIN" || String.eqb p "PHONE_UPDATE".

(** The trigger function [delete_expired_otps]:
    [DELETE FROM verification_codes WHERE expires_at < NOW()]. *)
Definition delete_expired_otps (now : Z) (st : store) : store :=
  set_codes (filter (fun c => negb (expires_at c <? now))
                    (verification_codes st)) st.

(** [INSERT INTO verification_codes (...)] with the column checks, followed
    by the [AFTER INSERT] trigger. *)
Definition insert_code (now : Z) (c : verification_code) : tx unit :=
  fun st =>
    match varchar 15 (phone c), varchar 6 (code c) with
    | Some ph, Some cd =>
        if purpose_ok (purpose c)
           && negb (existsb (fun x => String.eqb (code_id x) (code_id c))
                            (verification_codes st))
        then
          let row := mkCode (code_id c) (vc_user_id c) ph cd (purpose c)
                            (expires_at c) false in
          Some (tt, delete_expired_otps now
                      (set_codes (verification_codes st ++ [row]) st))
        else None
    | _, _ => None
    end.

Definition otp_lifetime : Z := 10 * 60 * 1000.

(** [None] is the [Error('Failed to generate OTP')] that is thrown. *)
Definition generateAndStoreOTP (e : env) (ph : string) (userId : option string)
    (purp : string) : proc (option string) :=
  let otp := random_code e in
  let expiresAt := app_clock e 0%nat + otp_lifetime in
  Step (fun st =>
    match stmt (refused e 0)
            (insert_code (db_now e)
               (mkCode (uuid e) userId ph otp purp expiresAt false)) st with
    | Some (_, st') => (Done (Some otp), st')
    | None => (Done None, st)
    end).

(* ------------------------------------------------------------------ *)
(** ** Strings: [split] on one character *)

(** [s.split(sep)] for a separator of one character; never empty. *)
Fixpoint split_on (sep : ascii) (s : string) : list string :=
  match s with
  | EmptyString => [""]
  | String c r =>
      if Ascii.eqb c sep then "" :: split_on sep r
      else match split_on sep r with
           | h :: t => String c h :: t
           | [] => [String c ""]
           end
  end.

Fixpoint contains_char (c : ascii) (s : string) : bool :=
  match s with
  | EmptyString => false
  | String a r => Ascii.eqb a c || contains_char c r
  end.

(* ------------------------------------------------------------------ *)
(** ** middleware/auth.ts authenticate *)

(** What [generateToken] signs and [verifyToken] gives back. *)
Record token_user : Type := mkTokenUser {
  tu_userId : string;
  tu_email : string;
  tu_phone : string
}.

Inductive gate : Type :=
| Next (user : token_user)               (* [req.user = decoded; next()] *)
| Denied (status : Z) (msg : string).

Section Authenticate.

(** [verifyToken] of utils/auth.ts: the payload, or [null] when
    [jwt.verify] throws. *)
Variable verifyToken : string -> option token_user.

Definition authenticate (authorization : option string) : gate :=
  match authorization with
  | None => Denied 401 "Access denied. No token provided."
  | Some authHeader =>
      if negb (present authHeader) || negb (prefix "Bearer " authHeader)
      then Denied 401 "Access denied. No token provided."
      else
        let token := nth 1 (split_on " " authHeader) "" in
        match verifyToken token with
        | None => Denied 401 "Invalid token."
        | Some decoded => Next decoded
        end
  end.

End Authenticate.

(* ------------------------------------------------------------------ *)
(** ** middleware/error.ts and the end of the middleware chain of
       index.ts *)

(** An [Error]: [statusCode] is set on an [ApiError] only. *)
Record js_error : Type := mkError {
  err_statusCode : option Z;
  err_message : string;
  err_stack : string
}.

Record error_json : Type := mkErrorJson {
  ej_message : string;
  ej_stack : option string
}.

(** The response object: its status, and the body once it is sent. *)
Record res_state : Type := mkRes {
  res_status : Z;
  res_sent : option (option error_json)   (* [Some None]: ended with no body *)
}.

Definition fresh_res : res_state := mkRes 200 None.

(** [errorHandler]: the response, and the error passed on to [next] if
    any. *)
Definition errorHandler (development : bool) (err : js_error)
    (res : res_state) : res_state * option js_error :=
  match res_sent res with
  | Some _ => (res, Some err)
  | None =>
      let statusCode :=
        match err_statusCode err with
        | Some c => if c =? 0 then 500 else c
        | None => 500
        end in
      (mkRes statusCode
             (Some (Some (mkErrorJson
                (if String.eqb (err_message err) "" then "Internal Server Error"
                 else err_message err)
                (if development then Some (err_stack err) else None)))),
       None)
  end.

(** [notFound]: sets the status and hands an [Error] to [next]. *)
Definition notFound (originalUrl stack : string) (res : res_state)
  : res_state * js_error :=
  (mkRes 404 (res_sent res),
   mkError None ("Not Found - " ++ originalUrl) stack).

(** [new ApiError(message, statusCode)] *)
Definition ApiError (msg : string) (statusCode : Z) (stack : string) : js_error :=
  mkError (Some statusCode) msg stack.

(** The end of the chain, [app.use(notFound)] and then the error
    middleware, for a request that the middleware and the routers before
    them have passed on with the response [res]. *)
Definition passed_on (development : bool) (originalUrl stack : string)
    (res : res_state) : res_state * option js_error :=
  let '(res1, err) := notFound originalUrl stack res in
  errorHandler development err res1.

(* ------------------------------------------------------------------ *)
(** ** index.ts: the MQTT message handler *)

(** The Socket.IO event a message on [topic] is forwarded as:
    [`locker:${topic.split('/')[1]}`]. *)
Definition locker_event (topic : string) : string :=
  "locker:" ++ nth 1 (split_on "/" topic) "undefined".

(* ------------------------------------------------------------------ *)
(** ** authController.ts and userController.ts *)

(** *** The tables they add (database.sql) *)

(** [password_hash] is written by every [INSERT] of the code and is taken
    as set; [created_at] and the columns no handler reads or writes are
    left out. *)
Record user : Type := mkUser {
  u_user_id : string;
  u_email : string;
  u_phone : string;
  u_full_name : option string;
  u_profile_image_url : option string;
  u_password_hash : string;
  u_is_verified : bool;
  u_updated_at : Z
}.

Record preference : Type := mkPreference {
  preference_id : string;
  pref_user_id : string;
  receive_email_notifications : option bool;
  receive_sms_notifications : option bool;
  marketing_opt_in : option bool
}.

Record database : Type := mkDatabase {
  core : store;
  users : list user;
  user_preferences : list preference
}.

Definition set_core (st : store) (db : database) : database :=
  mkDatabase st (users db) (user_preferences db).

Definition set_users (us : list user) (db : database) : database :=
  mkDatabase (core db) us (user_preferences db).

Definition set_preferences (ps : list preference) (db : database) : database :=
  mkDatabase (core db) (users db) ps.

(** *** What a handler takes from outside the database *)

Record world : Type := mkWorld {
  wenv : env;             (* clock, NOW(), generateOTP(), the first
                             generateUUID(), the statements refused *)
  uuid2 : string;         (* the second generateUUID() of signup *)
  development : bool;     (* process.env.NODE_ENV === 'development' *)
  twilio_configured : bool;                 (* accountSid and authToken set *)
  twilio_delivers : string -> string -> bool; (* messages.create did not throw *)
  bcrypt_hash : string -> string;           (* hashPassword, with its salt *)
  bcrypt_compare : string -> string -> bool;  (* comparePassword *)
  jwt_token : string -> string -> string -> string;  (* generateToken *)
  jwt_refresh : string -> string            (* generateRefreshToken *)
}.

(** The environment of a callee that runs after [k] statements of the
    handler. *)
Definition after_statements (k : nat) (e : env) : env :=
  mkEnv (app_clock e) (db_now e) (random_code e) (uuid e)
        (fun i => refused e (k + i)%nat) (app_time e) (time_of_local e).

(** *** Answers *)

Inductive body : Type :=
| NoBody
| CodeSent (smsSent : bool) (otp : option string)
| Session (userId email phone : string) (fullName : option string)
          (isVerified : bool) (token refreshToken : string)
| ProfileRow (row : option user)
| PreferenceRow (row : option preference)
| ImageRow (userId : string) (profileImageUrl : option string).

Record reply : Type := mkReply {
  status_code : Z;
  succeeded : bool;
  text : string;
  content : body
}.

Definition refuse (c : Z) (msg : string) : reply := mkReply c false msg NoBody.

(** *** twilioService.ts sendSMS *)

Definition sendSMS (w : world) (to msg : string) : bool :=
  if negb (twilio_configured w) then false else twilio_delivers w to msg.

(** *** authController.ts *)

Definition requestPhoneVerification (w : world) (ph : string) (db : database)
  : reply * database :=
  if negb (present ph) then (refuse 400 "Phone number is required", db)
  else
    match exec (generateAndStoreOTP (wenv w) ph None "SIGNUP") (core db) with
    | (None, _) => (refuse 500 "Failed to send verification code", db)
    | (Some otp, st') =>
        let message := "Your verification code is " ++ otp
                       ++ ". Valid for 10 minutes." in
        let smsSent := sendSMS w ph message in
        (mkReply 200 true "Verification code sent to your phone"
                 (CodeSent smsSent (if development w then Some otp else None)),
         set_core st' db)
    end.

Definition verifyPhone (w : world) (ph otp : string) (db : database)
  : reply * database :=
  if negb (present ph) || negb (present otp)
  then (refuse 400 "Phone number and OTP are required", db)
  else
    let '(isValid, st') := exec (verifyOTP (wenv w) ph otp "SIGNUP") (core db) in
    if negb isValid then (refuse 400 "Invalid or expired OTP", set_core st' db)
    else (mkReply 200 true "Phone number verified successfully" NoBody,
          set_core st' db).

(** [SELECT * FROM users WHERE phone = $1] *)
Definition users_by_phone (ph : string) (db : database) : list user :=
  filter (fun u => String.eqb (u_phone u) ph) (users db).

Definition session_of (w : world) (msg : string) (c : Z) (u : user) : reply :=
  mkReply c true msg
    (Session (u_user_id u) (u_email u) (u_phone u) (u_full_name u)
             (u_is_verified u)
             (jwt_token w (u_user_id u) (u_email u) (u_phone u))
             (jwt_refresh w (u_user_id u))).

(** [phone.replace(/-/g, '')] *)
Fixpoint remove_hyphens (s : string) : string :=
  match s with
  | EmptyString => EmptyString
  | String c r => if Ascii.eqb c "-" then remove_hyphens r
                  else String c (remove_hyphens r)
  end.

(** [INSERT INTO users (...) RETURNING ...] with the key, the two UNIQUE
    columns and the lengths checked. *)
Definition insert_user (now : Z) (userId email ph : string)
    (fullName : option string) (hash : string) (db : database)
  : option (user * database) :=
  match varchar 255 email, varchar 15 ph,
        match fullName with
        | None => Some None
        | Some n => option_map Some (varchar 255 n)
        end with
  | Some em, Some p, Some fn =>
      if existsb (fun u => String.eqb (u_user_id u) userId
                           || String.eqb (u_email u) em
                           || String.eqb (u_phone u) p) (users db)
      then None
      else
        let u := mkUser userId em p fn None hash false now in
        Some (u, set_users (users db ++ [u]) db)
  | _, _, _ => None
  end.

(** [INSERT INTO user_preferences (...)] *)
Definition insert_preference (p : preference) (db : database)
  : option database :=
  if existsb (fun x => String.eqb (preference_id x) (preference_id p))
             (user_preferences db)
     || negb (existsb (fun u => String.eqb (u_user_id u) (pref_user_id p))
                      (users db))
  then None
  else Some (set_preferences (user_preferences db ++ [p]) db).

Definition signup_failed : reply := refuse 500 "Failed to register user".

(** The [BEGIN] ... [COMMIT] block of [signup]; [None] when a statement
    throws. *)
Definition signup_body (w : world) (email normalizedPhone password : string)
    (fullName : string) (db : database) : option (reply * database) :=
  let e := wenv w in
  if refused e 2 then None else
  let hashedPassword := bcrypt_hash w password in
  let userId := uuid e in
  if refused e 3 then None else
  match insert_user (db_now e) userId email normalizedPhone
          (if present fullName then Some fullName else None)
          hashedPassword db with
  | None => None
  | Some (u, db1) =>
      if refused e 4 then None else
      match insert_preference
              (mkPreference (uuid2 w) userId (Some true) (Some true)
                            (Some false)) db1 with
      | None => None
      | Some db2 =>
          if refused e 5 then None
          else Some (session_of w "User registered successfully" 201 u, db2)
      end
  end.

Definition signup (w : world) (email ph password fullName : string)
    (db : database) : reply * database :=
  if negb (present email) || negb (present ph) || negb (present password)
  then (refuse 400 "Email, phone, and password are required", db)
  else
    let normalizedPhone := remove_hyphens ph in
    if refused (wenv w) 0 then (signup_failed, db) else
    match filter (fun u => String.eqb (u_email u) email
                           || String.eqb (u_phone u) normalizedPhone)
                 (users db) with
    | _ :: _ => (refuse 400 "User with this email or phone already exists", db)
    | [] =>
        if refused (wenv w) 1 then (signup_failed, db) else
        match signup_body w email normalizedPhone password fullName db with
        | Some (r, db') => (r, db')
        | None => (signup_failed, db)
        end
    end.

Definition login (w : world) (ph password : string) (db : database)
  : reply * database :=
  if negb (present ph) || negb (present password)
  then (refuse 400 "Phone and password are required", db)
  else if refused (wenv w) 0 then (refuse 500 "Login failed", db)
  else
    match users_by_phone ph db with
    | [] => (refuse 404 "User not found", db)
    | u :: _ =>
        if negb (bcrypt_compare w password (u_password_hash u))
        then (refuse 401 "Invalid credentials", db)
        else (session_of w "Login successful" 200 u, db)
    end.

Definition requestLoginOTP (w : world) (ph : string) (db : database)
  : reply * database :=
  if negb (present ph) then (refuse 400 "Phone number is required", db)
  else if refused (wenv w) 0 then (refuse 500 "Failed to send login code", db)
  else
    match users_by_phone ph db with
    | [] => (refuse 404 "User not found", db)
    | u :: _ =>
        match exec (generateAndStoreOTP (after_statements 1 (wenv w)) ph
                      (Some (u_user_id u)) "LOGIN") (core db) with
        | (None, _) => (refuse 500 "Failed to send login code", db)
        | (Some otp, st') =>
            let message := "Your login code is " ++ otp
                           ++ ". Valid for 10 minutes." in
            let smsSent := sendSMS w ph message in
            (mkReply 200 true "Login code sent to your phone"
                     (CodeSent smsSent
                               (if development w then Some otp else None)),
             set_core st' db)
        end
    end.

Definition loginWithOTP (w : world) (ph otp : string) (db : database)
  : reply * database :=
  if negb (present ph) || negb (present otp)
  then (refuse 400 "Phone number and OTP are required", db)
  else
    let '(isValid, st') := exec (verifyOTP (wenv w) ph otp "LOGIN") (core db) in
    let db' := set_core st' db in
    if negb isValid then (refuse 400 "Invalid or expired OTP", db')
    else if refused (wenv w) 2 then (refuse 500 "Login failed", db')
    else
      match users_by_phone ph db' with
      | [] => (refuse 404 "User not found", db')
      | u :: _ => (session_of w "Login successful" 200 u, db')
      end.

(** *** userController.ts *)

(** A body field that may be missing, [null] or a string; a flag that may
    be missing, [null] or a boolean. *)
Inductive field : Type := Undefined | Null | Text (s : string).
Inductive flag : Type := NoFlag | NullFlag | Flag (b : bool).

(** A bound query parameter. *)
Inductive param : Type := PNull | PText (s : string).

Definition param_of (f : field) : param :=
  match f with
  | Text s => PText s
  | _ => PNull
  end.

Definition defined (f : field) : bool :=
  match f with
  | Undefined => false
  | _ => true
  end.

(** The pieces of the [SET] list that [updateUserProfile] pushes:
    [`col = $k`] and [`updated_at = NOW()`]. *)
Inductive column : Type := FullName | Email | UpdatedAt.

Inductive assignment : Type :=
| ToParam (c : column) (k : nat)
| ToNow (c : column).

(** [updateFields], [queryParams] and [paramIndex] as the handler mutates
    them. *)
Record built : Type := mkBuilt {
  updateFields : list assignment;
  queryParams : list param;
  paramIndex : nat
}.

Definition push_field (c : column) (v : param) (b : built) : built :=
  mkBuilt (updateFields b ++ [ToParam c (paramIndex b)])
          (queryParams b ++ [v]) (S (paramIndex b)).

(** [$k] of a parameter list. *)
Definition bound (ps : list param) (k : nat) : option param :=
  match k with
  | O => None
  | S i => nth_error ps i
  end.

(** One assignment of the [SET] list on one row; [None] when the value
    cannot be stored ([NOT NULL], length). *)
Definition assign (now : Z) (ps : list param) (a : assignment) (u : user)
  : option user :=
  match a with
  | ToNow UpdatedAt =>
      Some (mkUser (u_user_id u) (u_email u) (u_phone u) (u_full_name u)
                   (u_profile_image_url u) (u_password_hash u)
                   (u_is_verified u) now)
  | ToNow _ => None
  | ToParam FullName k =>
      match bound ps k with
      | Some PNull =>
          Some (mkUser (u_user_id u) (u_email u) (u_phone u) None
                       (u_profile_image_url u) (u_password_hash u)
                       (u_is_verified u) (u_updated_at u))
      | Some (PText s) =>
          option_map
            (fun s' => mkUser (u_user_id u) (u_email u) (u_phone u) (Some s')
                              (u_profile_image_url u) (u_password_hash u)
                              (u_is_verified u) (u_updated_at u))
            (varchar 255 s)
      | None => None
      end
  | ToParam Email k =>
      match bound ps k with
      | Some (PText s) =>
          option_map
            (fun s' => mkUser (u_user_id u) s' (u_phone u) (u_full_name u)
                              (u_profile_image_url u) (u_password_hash u)
                              (u_is_verified u) (u_updated_at u))
            (varchar 255 s)
      | _ => None
      end
  | ToParam UpdatedAt _ => None
  end.

Fixpoint assign_all (now : Z) (ps : list param) (fs : list assignment)
    (u : user) : option user :=
  match fs with
  | [] => Some u
  | a :: rest =>
      match assign now ps a u with
      | Some u' => assign_all now ps rest u'
      | None => None
      end
  end.

(** Two rows of different users with one e-mail address: what the UNIQUE
    index on [email] refuses. *)
Definition email_conflict (us : list user) : bool :=
  existsb (fun u =>
             existsb (fun x => String.eqb (u_email x) (u_email u)
                               && negb (String.eqb (u_user_id x) (u_user_id u)))
                     us) us.

(** [UPDATE users SET <updateFields> WHERE user_id = $<paramIndex>
     RETURNING ...]: the rows returned and the new table. *)
Definition run_profile_update (now : Z) (b : built) (db : database)
  : option (list user * database) :=
  match bound (queryParams b) (paramIndex b) with
  | Some (PText id) =>
      match update_where (fun u => String.eqb (u_user_id u) id)
                         (assign_all now (queryParams b) (updateFields b))
                         (users db) with
      | Some (us, ret) =>
          if email_conflict us then None else Some (ret, set_users us db)
      | None => None
      end
  | _ => None
  end.

(** [email = $1] with a parameter that may be [NULL]. *)
Definition email_is (f : field) (em : string) : bool :=
  match f with
  | Text s => String.eqb em s
  | _ => false
  end.

Definition profile_failed : reply := refuse 500 "Failed to update user profile".

Definition updateUserProfile (w : world) (userId : string)
    (fullName email : field) (db : database) : reply * database :=
  let e := wenv w in
  let b0 := mkBuilt [] [] 1 in
  let b1 := if defined fullName
            then push_field FullName (param_of fullName) b0 else b0 in
  let checked : reply + built :=
    if defined email then
      if refused e 0 then inl profile_failed
      else
        match filter (fun u => email_is email (u_email u)
                               && negb (String.eqb (u_user_id u) userId))
                     (users db) with
        | _ :: _ => inl (refuse 400 "Email already in use")
        | [] => inr (push_field Email (param_of email) b1)
        end
    else inr b1 in
  match checked with
  | inl r => (r, db)
  | inr b2 =>
      match updateFields b2 with
      | [] => (refuse 400 "No fields to update", db)
      | _ :: _ =>
          let b3 := mkBuilt (updateFields b2 ++ [ToNow UpdatedAt])
                            (queryParams b2 ++ [PText userId])
                            (paramIndex b2) in
          if refused e 1 then (profile_failed, db) else
          match run_profile_update (db_now e) b3 db with
          | Some (rows, db') =>
              (mkReply 200 true "Profile updated successfully"
                       (ProfileRow (hd_error rows)), db')
          | None => (profile_failed, db)
          end
      end
  end.

Definition password_failed : reply := refuse 500 "Failed to change password".

Definition with_password (hash : string) (now : Z) (u : user) : user :=
  mkUser (u_user_id u) (u_email u) (u_phone u) (u_full_name u)
         (u_profile_image_url u) hash (u_is_verified u) now.

Definition changePassword (w : world) (userId currentPassword newPassword : string)
    (db : database) : reply * database :=
  let e := wenv w in
  if negb (present currentPassword) || negb (present newPassword)
  then (refuse 400 "Current password and new password are required", db)
  else if refused e 0 then (password_failed, db)
  else
    match filter (fun u => String.eqb (u_user_id u) userId) (users db) with
    | [] => (refuse 404 "User not found", db)
    | u :: _ =>
        if negb (bcrypt_compare w currentPassword (u_password_hash u))
        then (refuse 401 "Current password is incorrect", db)
        else
          let newPasswordHash := bcrypt_hash w newPassword in
          if refused e 1 then (password_failed, db)
          else
            (mkReply 200 true "Password changed successfully" NoBody,
             set_users
               (map (fun x => if String.eqb (u_user_id x) userId
                              then with_password newPasswordHash (db_now e) x
                              else x) (users db)) db)
    end.

(** [COALESCE($i, column)]: a missing or [null] parameter keeps the
    column. *)
Definition coalesce (p : flag) (old : option bool) : option bool :=
  match p with
  | Flag b => Some b
  | _ => old
  end.

(** [x !== undefined ? x : d] *)
Definition or_default (p : flag) (d : bool) : option bool :=
  match p with
  | NoFlag => Some d
  | NullFlag => None
  | Flag b => Some b
  end.

Definition preferences_failed : reply := refuse 500 "Failed to update preferences".

(** The identifier of an inserted row is the database's
    [uuid_generate_v4()], drawn like the other UUIDs. *)
Definition updateUserPreferences (w : world) (userId : string)
    (receiveEmailNotifications receiveSmsNotifications marketingOptIn : flag)
    (db : database) : reply * database :=
  let e := wenv w in
  if refused e 0 then (preferences_failed, db) else
  match filter (fun p => String.eqb (pref_user_id p) userId)
               (user_preferences db) with
  | [] =>
      if refused e 1 then (preferences_failed, db) else
      let row := mkPreference (uuid e) userId
                   (or_default receiveEmailNotifications true)
                   (or_default receiveSmsNotifications true)
                   (or_default marketingOptIn false) in
      match insert_preference row db with
      | Some db' =>
          (mkReply 200 true "Preferences updated successfully"
                   (PreferenceRow (Some row)), db')
      | None => (preferences_failed, db)
      end
  | _ :: _ =>
      if refused e 1 then (preferences_failed, db) else
      let ps :=
        map (fun p =>
               if String.eqb (pref_user_id p) userId
               then mkPreference (preference_id p) (pref_user_id p)
                      (coalesce receiveEmailNotifications
                                (receive_email_notifications p))
                      (coalesce receiveSmsNotifications
                                (receive_sms_notifications p))
                      (coalesce marketingOptIn (marketing_opt_in p))
               else p) (user_preferences db) in
      (mkReply 200 true "Preferences updated successfully"
               (PreferenceRow
                  (hd_error (filter (fun p => String.eqb (pref_user_id p) userId)
                                    ps))),
       set_preferences ps db)
  end.

Definition image_failed : reply := refuse 500 "Failed to upload profile image".

Definition default_avatar : string := "https://example.com/default-avatar.png".

Definition uploadProfileImage (w : world) (userId imageUrl : string)
    (db : database) : reply * database :=
  let e := wenv w in
  let profileImageUrl := if present imageUrl then imageUrl else default_avatar in
  if refused e 0 then (image_failed, db) else
  let us :=
    map (fun u => if String.eqb (u_user_id u) userId
                  then mkUser (u_user_id u) (u_email u) (u_phone u)
                              (u_full_name u) (Some profileImageUrl)
                              (u_password_hash u) (u_is_verified u) (db_now e)
                  else u) (users db) in
  match filter (fun u => String.eqb (u_user_id u) userId) us with
  | [] => (image_failed, db)        (* [rows[0].user_id] throws *)
  | u :: _ =>
      (mkReply 200 true "Profile image updated successfully"
               (ImageRow (u_user_id u) (u_profile_image_url u)),
       set_users us db)
  end.

(** *** The routes of authRoutes.ts and userRoutes.ts that write *)

Inductive account_request : Type :=
| RequestPhoneVerification (ph : string)
| VerifyPhone (ph otp : string)
| Signup (email ph password fullName : string)
| Login (ph password : string)
| RequestLoginOTP (ph : string)
| LoginWithOTP (ph otp : string)
| UpdateUserProfile (userId : string) (fullName email : field)
| ChangePassword (userId currentPassword newPassword : string)
| UpdateUserPreferences (userId : string) (em sms marketing : flag)
| UploadProfileImage (userId imageUrl : string).

Definition account (w : world) (q : account_request) (db : database)
  : reply * database :=
  match q with
  | RequestPhoneVerification ph => requestPhoneVerification w ph db
  | VerifyPhone ph otp => verifyPhone w ph otp db
  | Signup em ph pw fn => signup w em ph pw fn db
  | Login ph pw => login w ph pw db
  | RequestLoginOTP ph => requestLoginOTP w ph db
  | LoginWithOTP ph otp => loginWithOTP w ph otp db
  | UpdateUserProfile u fn em => updateUserProfile w u fn em db
  | ChangePassword u c n => changePassword w u c n db
  | UpdateUserPreferences u a b c => updateUserPreferences w u a b c db
  | UploadProfileImage u url => uploadProfileImage w u url db
  end.

Fixpoint serve_accounts (qs : list (world * account_request)) (db : database)
  : database :=
  match qs with
  | [] => db
  | (w, q) :: rest => serve_accounts rest (snd (account w q db))
  end.

(** *** Sample accounts *)

Module Accounts.

(** A library double: the hash of a password is the password with a
    prefix, and it compares as it should. *)
Definition w0 : world :=
  mkWorld Sample.e0 "P1" false true (fun _ _ => true)
          (fun p => "$2b$" ++ p)
          (fun p h => String.eqb h ("$2b$" ++ p))
          (fun u _ _ => "access." ++ u) (fun u => "refresh." ++ u).

Definition w1 : world :=
  mkWorld Sample.e1 "P2" false false (fun _ _ => false)
          (fun p => "$2b$" ++ p)
          (fun p h => String.eqb h ("$2b$" ++ p))
          (fun u _ _ => "access." ++ u) (fun u => "refresh." ++ u).

Definition empty : database := mkDatabase (mkStore [] [] [] [] []) [] [].

Definition ann : user :=
  mkUser "U1" "ann@example.com" "5550100" (Some "Ann") None "$2b$secret"
         false Sample.t0.

Definition db1 : database :=
  mkDatabase (mkStore [] [] [] [] []) [ann]
             [mkPreference "P0" "U1" (Some true) (Some true) (Some false)].

End Accounts.

(** *** Vocabulary for the account handlers *)

(** The tables of lockerController.ts inside a database. *)
Definition same_locker_tables (db db' : database) : Prop :=
  locker_sizes (core db') = locker_sizes (core db) /\
  lockers (core db') = lockers (core db) /\
  reservations (core db') = reservations (core db) /\
  reservation_history (core db') = reservation_history (core db).

(** Row [x'] is row [x] with the fields of a profile update set: a missing
    field keeps the column, [null] clears the name, a string is stored as
    the column type stores it. *)
Definition profile_set (fullName email : field) (now : Z) (x x' : user)
  : Prop :=
  u_user_id x' = u_user_id x /\ u_phone x' = u_phone x /\
  u_profile_image_url x' = u_profile_image_url x /\
  u_password_hash x' = u_password_hash x /\
  u_is_verified x' = u_is_verified x /\
  u_updated_at x' = now /\
  match fullName with
  | Undefined => u_full_name x' = u_full_name x
  | Null => u_full_name x' = None
  | Text s => exists s', varchar 255 s = Some s' /\ u_full_name x' = Some s'
  end /\
  match email with
  | Undefined => u_email x' = u_email x
  | Null => False
  | Text s => exists s', varchar 255 s = Some s' /\ u_email x' = s'
  end.

(** The rows of [us] are all in [us'], in place and with their key, phone
    and verification flag; the rows that [us'] adds are not verified. *)
Definition account_rows_kept (us us' : list user) : Prop :=
  exists kept added,
    us' = (kept ++ added)%list /\
    Forall2 (fun x x' => u_user_id x' = u_user_id x /\
                         u_phone x' = u_phone x /\
                         u_is_verified x' = u_is_verified x) us kept /\
    Forall (fun u => u_is_verified u = false) added.


(** A string field that fits its VARCHAR(255) column. *)
Definition fits_255 (f : field) : bool :=
  match f with
  | Text s => (String.length s <=? 255)%nat
  | _ => true
  end.

(* ------------------------------------------------------------------ *)
(** ** parseInt of a number *)

Module JSFacts.

Lemma value_from_acc ds : forall a,
  value_from a ds = a * 10 ^ Z.of_nat (List.length ds) + value_from 0 ds.
Proof.
  unfold value_from.
  induction ds as [|d ds IH]; intros a.
  - simpl. lia.
  - cbn [fold_left List.length]. rewrite IH, (IH (10 * 0 + d)).
    rewrite Nat2Z.inj_succ, Z.pow_succ_r by lia. ring.
Qed.

Lemma value_from_app a l1 l2 :
  value_from a (l1 ++ l2) = value_from (value_from a l1) l2.
Proof. unfold value_from. apply fold_left_app. Qed.

Lemma value_bounds ds :
  Forall is_digit ds -> 0 <= value_from 0 ds < 10 ^ Z.of_nat (List.length ds).
Proof.
  induction 1 as [|d ds Hd _ IH].
  - cbn. lia.
  - change (value_from 0 (d :: ds)) with (value_from (10 * 0 + d) ds).
    rewrite value_from_acc. cbn [List.length].
    rewrite Nat2Z.inj_succ, Z.pow_succ_r by lia.
    unfold is_digit in Hd.
    assert (0 < 10 ^ Z.of_nat (List.length ds)) by (apply Z.pow_pos_nonneg; lia).
    nia.
Qed.

Lemma digits_aux_digit fuel : forall n acc,
  0 <= n -> Forall is_digit acc -> Forall is_digit (digits_aux fuel n acc).
Proof.
  induction fuel as [|f IH]; intros n acc Hn Hacc; cbn [digits_aux].
  - exact Hacc.
  - destruct (n <? 10) eqn:Hlt.
    + apply Z.ltb_lt in Hlt. constructor; [unfold is_digit; lia|exact Hacc].
    + apply IH.
      * apply Z.div_pos; lia.
      * constructor; [|exact Hacc].
        unfold is_digit. pose proof (Z.mod_pos_bound n 10). lia.
Qed.

Lemma digits_aux_value fuel : forall n acc,
  0 <= n < 10 ^ Z.of_nat fuel ->
  value_from 0 (digits_aux fuel n acc) = value_from n acc.
Proof.
  induction fuel as [|f IH]; intros n acc Hn; cbn [digits_aux].
  - cbn in Hn. assert (n = 0) by lia. subst; reflexivity.
  - destruct (n <? 10) eqn:Hlt.
    + unfold value_from. cbn [fold_left]. f_equal.
    + apply Z.ltb_ge in Hlt.
      rewrite Nat2Z.inj_succ, Z.pow_succ_r in Hn by lia.
      rewrite IH.
      * unfold value_from. cbn [fold_left]. f_equal.
        pose proof (Z.div_mod n 10). lia.
      * split; [apply Z.div_pos; lia|].
        apply Z.div_lt_upper_bound; lia.
Qed.

(** The first digit written is not zero. *)
Lemma digits_aux_head fuel : forall n acc,
  0 < n < 10 ^ Z.of_nat fuel ->
  exists d rest, digits_aux fuel n acc = d :: rest /\ 1 <= d <= 9.
Proof.
  induction fuel as [|f IH]; intros n acc Hn; cbn [digits_aux].
  - cbn in Hn. lia.
  - destruct (n <? 10) eqn:Hlt.
    + apply Z.ltb_lt in Hlt. exists n, acc. split; [reflexivity|lia].
    + apply Z.ltb_ge in Hlt.
      rewrite Nat2Z.inj_succ, Z.pow_succ_r in Hn by lia.
      apply IH. split.
      * apply Z.div_str_pos; lia.
      * apply Z.div_lt_upper_bound; lia.
Qed.

Lemma fuel_enough n :
  0 <= n -> n < 10 ^ Z.of_nat (S (Z.to_nat (Z.log2 n))).
Proof.
  intros Hn. rewrite Nat2Z.inj_succ, Z2Nat.id by apply Z.log2_nonneg.
  destruct (Z.eq_dec n 0) as [->|Hz]; [cbn; lia|].
  assert (Hlog : n < 2 ^ Z.succ (Z.log2 n)) by (apply Z.log2_spec; lia).
  eapply Z.lt_le_trans; [exact Hlog|].
  apply Z.pow_le_mono_l. lia.
Qed.

Lemma digits_digit n : 0 <= n -> Forall is_digit (digits n).
Proof. intros; apply digits_aux_digit; [assumption|constructor]. Qed.

Lemma digits_value n : 0 <= n -> value_from 0 (digits n) = n.
Proof.
  intros Hn. unfold digits. rewrite digits_aux_value.
  - reflexivity.
  - split; [assumption|apply fuel_enough; assumption].
Qed.

Lemma digits_head n :
  0 < n -> exists d rest, digits n = d :: rest /\ 1 <= d <= 9.
Proof.
  intros Hn. apply digits_aux_head. split; [assumption|].
  apply fuel_enough; lia.
Qed.

(** [10^(L-1) <= n < 10^L] for the number [L] of digits written. *)
Lemma digits_length n :
  0 < n ->
  10 ^ (Z.of_nat (List.length (digits n)) - 1) <= n
  < 10 ^ Z.of_nat (List.length (digits n)).
Proof.
  intros Hn.
  pose proof (digits_value n ltac:(lia)) as Hv.
  pose proof (digits_digit n ltac:(lia)) as Hd.
  destruct (digits_head n Hn) as (d & rest & E & Hd1).
  split.
  - rewrite E in Hv, Hd |- *.
    pose proof (Forall_inv_tail Hd) as Hrest.
    change (value_from 0 (d :: rest)) with (value_from (10 * 0 + d) rest) in Hv.
    rewrite value_from_acc in Hv.
    pose proof (value_bounds rest Hrest).
    cbn [List.length]. rewrite Nat2Z.inj_succ.
    replace (Z.succ (Z.of_nat (List.length rest)) - 1)
      with (Z.of_nat (List.length rest)) by lia.
    assert (0 < 10 ^ Z.of_nat (List.length rest))
      by (apply Z.pow_pos_nonneg; lia).
    nia.
  - rewrite <- Hv at 1. apply value_bounds; assumption.
Qed.

(** *** Reading digits back *)

Lemma digit_cases d : is_digit d ->
  d = 0 \/ d = 1 \/ d = 2 \/ d = 3 \/ d = 4 \/ d = 5 \/ d = 6 \/ d = 7 \/
  d = 8 \/ d = 9.
Proof. unfold is_digit; lia. Qed.

Ltac each_digit H :=
  apply digit_cases in H;
  repeat (destruct H as [H|H]; [subst|]); subst.

Ltac char_of_digit :=
  repeat match goal with
  | |- context [digit_char ?d] =>
      let c := eval vm_compute in (digit_char d) in
      change (digit_char d) with c
  | |- context [is_white ?c] =>
      let b := eval vm_compute in (is_white c) in
      change (is_white c) with b
  end.

Lemma digit_val_char d : is_digit d -> digit_val 10 (digit_char d) = Some d.
Proof. intros H. each_digit H; reflexivity. Qed.

Lemma scan_digits_app ds : Forall is_digit ds -> forall rest acc,
  scan_digits 10 (string_of_digits ds ++ rest) acc =
  scan_digits 10 rest
    match ds with
    | [] => acc
    | _ => Some (value_from match acc with Some a => a | None => 0 end ds)
    end.
Proof.
  induction 1 as [|d ds Hd Hds IH]; intros rest acc.
  - reflexivity.
  - cbn [string_of_digits append scan_digits].
    rewrite (digit_val_char d Hd), IH.
    destruct ds; reflexivity.
Qed.

(** Nothing is trimmed before an ASCII character that is not white
    space: the white space of several bytes starts with a byte above 127. *)
Lemma trim_start_ascii c t :
  is_white c = false -> (nat_of_ascii c <? 128)%nat = true ->
  trim_start (String c t) = String c t.
Proof.
  intros Hw Hc. apply Nat.ltb_lt in Hc. cbn [trim_start]. rewrite Hw.
  destruct t as [|c2 [|c3 t]]; [reflexivity| |].
  - unfold is_white2.
    destruct (Nat.eqb_spec (nat_of_ascii c) 194) as [E|_]; [lia|reflexivity].
  - unfold is_white2, is_white3. cbv zeta.
    destruct (Nat.eqb_spec (nat_of_ascii c) 194) as [E|_]; [lia|].
    destruct (Nat.eqb_spec (nat_of_ascii c) 225) as [E|_]; [lia|].
    destruct (Nat.eqb_spec (nat_of_ascii c) 226) as [E|_]; [lia|].
    destruct (Nat.eqb_spec (nat_of_ascii c) 227) as [E|_]; [lia|].
    destruct (Nat.eqb_spec (nat_of_ascii c) 239) as [E|_]; [lia|].
    reflexivity.
Qed.

(** A string that starts with a digit has no white space and no sign to
    skip. *)
Lemma parseInt_digit_first d t : is_digit d ->
  parseInt_string (String (digit_char d) t) =
  strip_prefix_scan (String (digit_char d) t).
Proof.
  intros H. unfold parseInt_string.
  each_digit H; rewrite trim_start_ascii by reflexivity;
    char_of_digit; cbv iota;
    (destruct (strip_prefix_scan _) as [z|]; cbn [option_map];
     [destruct z; reflexivity|reflexivity]).
Qed.

Lemma parseInt_minus t :
  parseInt_string (String "-" t) = option_map Z.opp (strip_prefix_scan t).
Proof.
  unfold parseInt_string. rewrite trim_start_ascii by reflexivity.
  destruct (strip_prefix_scan t) as [z|]; cbn [option_map];
    [destruct z; reflexivity|reflexivity].
Qed.

(** No radix prefix after a first digit that is not zero. *)
Lemma strip_prefix_nonzero d t : 1 <= d <= 9 ->
  strip_prefix_scan (String (digit_char d) t) =
  scan_digits 10 (String (digit_char d) t) None.
Proof.
  intros H. assert (Hd : is_digit d) by (unfold is_digit; lia).
  each_digit Hd; try lia; char_of_digit; reflexivity.
Qed.

Lemma value_firstn ds k :
  Forall is_digit ds -> (k <= List.length ds)%nat ->
  value_from 0 (firstn k ds) =
  value_from 0 ds / 10 ^ Z.of_nat (List.length ds - k).
Proof.
  intros Hd Hk.
  assert (Hs : Forall is_digit (skipn k ds)).
  { rewrite <- (firstn_skipn k ds) in Hd. apply Forall_app in Hd. tauto. }
  pose proof (value_bounds _ Hs) as Hb.
  assert (E : value_from 0 ds =
              value_from 0 (firstn k ds)
              * 10 ^ Z.of_nat (List.length (skipn k ds))
              + value_from 0 (skipn k ds)).
  { rewrite <- (firstn_skipn k ds) at 1.
    rewrite value_from_app. apply value_from_acc. }
  rewrite length_skipn in *. rewrite E.
  apply Z.div_unique with (r := value_from 0 (skipn k ds)).
  - left. exact Hb.
  - ring.
Qed.

(** *** Number::toString followed by parseInt *)

Lemma canon_spec e : forall a, 0 < a ->
  let '(a', e') := canon a e in
  0 < a' /\ a / 10 ^ Z.of_nat e = a' / 10 ^ Z.of_nat e' /\
  (10 ^ Z.of_nat e <= a * 10 ^ 6 -> 10 ^ Z.of_nat e' <= a' * 10 ^ 6) /\
  (a < 10 ^ (21 + Z.of_nat e) -> a' < 10 ^ (21 + Z.of_nat e')).
Proof.
  induction e as [|e IH]; intros a Ha; cbn [canon].
  - repeat split; auto.
  - destruct (a mod 10 =? 0) eqn:Hm.
    + apply Z.eqb_eq in Hm.
      assert (Ea : a = 10 * (a / 10)) by (pose proof (Z.div_mod a 10); lia).
      assert (Hq : 0 < a / 10) by lia.
      specialize (IH (a / 10) Hq).
      destruct (canon (a / 10) e) as [a' e'].
      destruct IH as (H1 & H2 & H3 & H4).
      assert (P : 0 < 10 ^ Z.of_nat e) by (apply Z.pow_pos_nonneg; lia).
      repeat split.
      * exact H1.
      * rewrite <- H2, Nat2Z.inj_succ, Z.pow_succ_r by lia.
        rewrite Z.div_div by lia. reflexivity.
      * intros H. apply H3.
        rewrite Nat2Z.inj_succ, Z.pow_succ_r in H by lia. lia.
      * intros H. apply H4.
        replace (21 + Z.of_nat (S e)) with (Z.succ (21 + Z.of_nat e)) in H by lia.
        rewrite Z.pow_succ_r in H by lia. lia.
    + repeat split; auto.
Qed.

Lemma string_app_nil (s : string) : (s ++ "")%string = s.
Proof. induction s as [|c s IH]; cbn; [reflexivity|rewrite IH; reflexivity]. Qed.

Lemma Forall_firstn_digits k ds :
  Forall is_digit ds -> Forall is_digit (firstn k ds).
Proof.
  intros H. rewrite <- (firstn_skipn k ds) in H.
  apply Forall_app in H. tauto.
Qed.

Lemma pow10_lt_inv x y : 0 <= y -> 10 ^ x < 10 ^ y -> x < y.
Proof.
  intros Hy H. destruct (Z_lt_le_dec x y) as [|Hle]; [assumption|].
  exfalso. assert (10 ^ y <= 10 ^ x) by (apply Z.pow_le_mono_r; lia). lia.
Qed.

(** A positive number between 10^-6 and 10^21 is written without
    exponent, and [parseInt] reads its integer part back. *)
Lemma pos_parse a e :
  0 < a -> 10 ^ Z.of_nat e <= a * 10 ^ 6 -> a < 10 ^ (21 + Z.of_nat e) ->
  exists d t,
    is_digit d /\ pos_toString a e = String (digit_char d) t /\
    strip_prefix_scan (String (digit_char d) t) = Some (a / 10 ^ Z.of_nat e).
Proof.
  intros Ha Hlo Hhi. unfold pos_toString.
  pose proof (canon_spec e a Ha) as Hc.
  destruct (canon a e) as [a' e'].
  destruct Hc as (Ha' & Hq & Hlo' & Hhi').
  specialize (Hlo' Hlo). specialize (Hhi' Hhi). rewrite Hq.
  pose proof (digits_digit a' ltac:(lia)) as Hd.
  pose proof (digits_value a' ltac:(lia)) as Hv.
  pose proof (digits_length a' Ha') as [Hl1 Hl2].
  destruct (digits_head a' Ha') as (d & rest & E & Hd1).
  assert (Hdd : is_digit d) by (unfold is_digit; lia).
  set (L := Z.of_nat (List.length (digits a'))) in *.
  assert (HL : 1 <= L) by (subst L; rewrite E; cbn [List.length]; lia).
  destruct e' as [|k].
  - (* a whole number *)
    assert (Hn : (L - Z.of_nat 0 <=? 21) = true).
    { apply Z.leb_le. change (Z.of_nat 0) with 0.
      assert (L - 1 < 21); [|lia].
      apply pow10_lt_inv; [lia|]. rewrite Z.add_0_r in Hhi'. lia. }
    rewrite Hn. exists d, (string_of_digits rest).
    split; [exact Hdd|]. split; [rewrite E; reflexivity|].
    rewrite strip_prefix_nonzero by exact Hd1.
    change (String (digit_char d) (string_of_digits rest))
      with (string_of_digits (d :: rest)).
    rewrite <- E, <- (string_app_nil (string_of_digits (digits a'))).
    rewrite scan_digits_app by exact Hd.
    rewrite E at 1. cbn [scan_digits]. rewrite Hv.
    change (10 ^ Z.of_nat 0) with 1. rewrite Z.div_1_r. reflexivity.
  - destruct (0 <? L - Z.of_nat (S k)) eqn:Hpos.
    + (* digits on both sides of the point *)
      apply Z.ltb_lt in Hpos.
      assert (Hn : (L - Z.of_nat (S k) <=? 21) = true).
      { apply Z.leb_le. assert (L - 1 < 21 + Z.of_nat (S k)); [|lia].
        apply pow10_lt_inv; lia. }
      rewrite Hn.
      destruct (Z.to_nat (L - Z.of_nat (S k))) as [|j] eqn:Ej; [lia|].
      assert (Hj : (S j <= List.length (digits a'))%nat) by lia.
      pose proof (value_firstn (digits a') (S j) Hd Hj) as Hf.
      pose proof (Forall_firstn_digits (S j) _ Hd) as Hfd.
      replace (List.length (digits a') - S j)%nat with (S k) in Hf by lia.
      rewrite E in Hf, Hfd |- *. cbn [firstn] in Hf, Hfd |- *.
      exists d, (string_of_digits (firstn j rest) ++ "."
                 ++ string_of_digits (skipn (S j) (d :: rest)))%string.
      split; [exact Hdd|]. split; [reflexivity|].
      rewrite strip_prefix_nonzero by exact Hd1.
      change (String (digit_char d)
                (string_of_digits (firstn j rest) ++ "."
                 ++ string_of_digits (skipn (S j) (d :: rest))))%string
        with (string_of_digits (d :: firstn j rest)
              ++ String "." (string_of_digits (skipn (S j) (d :: rest))))%string.
      rewrite scan_digits_app by exact Hfd.
      cbn [scan_digits digit_val]. rewrite Hf, <- E, Hv. reflexivity.
    + (* nothing before the point *)
      apply Z.ltb_ge in Hpos.
      assert (Hn : (-6 <? L - Z.of_nat (S k)) = true).
      { apply Z.ltb_lt. assert (Z.of_nat (S k) < L + 6); [|lia].
        apply pow10_lt_inv; [lia|].
        rewrite Z.pow_add_r by lia. nia. }
      rewrite Hn. exists 0, (String "." (zeros (Z.to_nat (- (L - Z.of_nat (S k))))
                                ++ string_of_digits (digits a')))%string.
      split; [unfold is_digit; lia|]. split; [reflexivity|].
      rewrite Z.div_small; [reflexivity|].
      split; [lia|].
      eapply Z.lt_le_trans; [exact Hl2|].
      apply Z.pow_le_mono_r; lia.
Qed.

(** [parseInt] of a number that is written without exponent is its
    integer part: the fraction is dropped. *)
Lemma parseInt_number m e :
  m <> 0 ->
  10 ^ Z.of_nat e <= Z.abs m * 10 ^ 6 -> Z.abs m < 10 ^ (21 + Z.of_nat e) ->
  parseInt (JNum m e) = Some (num_trunc m e).
Proof.
  intros Hm Hlo Hhi. unfold parseInt, ToString, Number_toString, num_trunc.
  assert (P : 0 < 10 ^ Z.of_nat e) by (apply Z.pow_pos_nonneg; lia).
  destruct (m =? 0) eqn:E0; [apply Z.eqb_eq in E0; contradiction|].
  destruct (m <? 0) eqn:Eneg.
  - apply Z.ltb_lt in Eneg.
    rewrite Z.abs_neq in Hlo, Hhi by lia.
    destruct (pos_parse (- m) e ltac:(lia) Hlo Hhi) as (d & t & _ & -> & Hs).
    change ("-" ++ String (digit_char d) t)%string
      with (String "-" (String (digit_char d) t)).
    rewrite parseInt_minus, Hs. cbn [option_map]. f_equal.
    rewrite <- (Z.opp_involutive m) at 2.
    rewrite Z.quot_opp_l by lia. f_equal.
    symmetry. apply Z.quot_div_nonneg; lia.
  - apply Z.ltb_ge in Eneg.
    rewrite Z.abs_eq in Hlo, Hhi by lia.
    destruct (pos_parse m e ltac:(lia) Hlo Hhi) as (d & t & Hd & -> & Hs).
    rewrite parseInt_digit_first, Hs by exact Hd. f_equal.
    symmetry. apply Z.quot_div_nonneg; lia.
Qed.

(** A whole number below 10^21 is read back as it is. *)
Lemma parseInt_whole m :
  m <> 0 -> Z.abs m < 10 ^ 21 -> parseInt (JNum m 0) = Some m.
Proof.
  intros Hm Hhi. rewrite parseInt_number.
  - unfold num_trunc. change (10 ^ Z.of_nat 0) with 1.
    rewrite Z.quot_1_r. reflexivity.
  - exact Hm.
  - change (10 ^ Z.of_nat 0) with 1. lia.
  - exact Hhi.
Qed.

End JSFacts.

(* ------------------------------------------------------------------ *)
(** ** Running the handlers alone *)

Ltac break_if :=
  match goal with
  | |- context [if ?b then _ else _] => destruct b eqn:?
  | H : context [if ?b then _ else _] |- _ => destruct b eqn:?
  end.

Section Sequential.

Variable e : env.

(** [reserveLocker] run alone, as one function of the store. *)
Lemma reserve_exec (userId lockerId : string) (duration : jsval) (st : store) :
  exec (reserveLocker e userId lockerId duration) st =
  if negb (present lockerId) || negb (truthy duration)
  then (fail 400 "Locker ID and duration are required", st)
  else if refused e 0 then (reserve_failed, st)
  else match select_available_locker lockerId st with
       | [] => (fail 400 "Locker not available", st)
       | (_, price) :: _ =>
           if refused e 1 then (reserve_failed, st) else
           match reserve_body e userId lockerId (parseInt duration)
                   (option_map (Z.mul price) (parseInt duration)) st with
           | Some (r, st') => (r, st')
           | None => (reserve_failed, st)
           end
       end.
Proof.
  unfold reserveLocker.
  destruct (negb (present lockerId) || negb (truthy duration)); [reflexivity|].
  simpl. destruct (refused e 0); [reflexivity|].
  destruct (select_available_locker lockerId st) as [|[l p] rest]; [reflexivity|].
  simpl. destruct (refused e 1); [reflexivity|].
  unfold transaction.
  destruct (reserve_body _ _ _ _ _ st) as [[r st']|]; reflexivity.
Qed.

Lemma reserve_body_inv userId lockerId dh tc st r st' :
  reserve_body e userId lockerId dh tc st = Some (r, st') ->
  exists t c,
    addHours (Some (app_clock e 1%nat)) dh = Some t /\ tc = Some c /\
    fits_decimal_10_2 c = true /\ fresh_reservation_id e st = true /\
    r = ok "Locker reserved successfully"
           (Reserved (new_reservation e userId lockerId t c) (random_code e) t) /\
    st' = reserved_store e userId lockerId t c st.
Proof.
  unfold reserve_body, tx_bind, stmt, write, tx_ret, insert_reservation.
  destruct (refused e 2); [discriminate|].
  destruct (refused e 3); [discriminate|].
  destruct (refused e 4); [discriminate|].
  destruct (addHours _ dh) as [t|]; [|discriminate].
  destruct tc as [c|]; [|discriminate].
  cbn [reservations update_locker_status set_lockers].
  destruct (fits_timestamp (app_clock e 0%nat)); [|discriminate].
  destruct (fits_timestamp t); [|discriminate].
  destruct (fits_decimal_10_2 c) eqn:Hc; [|discriminate].
  destruct (existsb _ (reservations st)) eqn:Hf; [discriminate|].
  cbn [andb negb].
  destruct (refused e 5); [discriminate|].
  intros H; inversion H; subst; clear H.
  exists t, c. unfold fresh_reservation_id. rewrite Hf.
  repeat split; auto.
Qed.

(** The dates of a reservation that has been stored are in the range of
    their columns. *)
Lemma reserve_body_range userId lockerId dh tc st r st' t :
  reserve_body e userId lockerId dh tc st = Some (r, st') ->
  addHours (Some (app_clock e 1%nat)) dh = Some t ->
  fits_timestamp (app_clock e 0%nat) = true /\ fits_timestamp t = true.
Proof.
  unfold reserve_body, tx_bind, stmt, write, tx_ret, insert_reservation.
  destruct (refused e 2); [discriminate|].
  destruct (refused e 3); [discriminate|].
  destruct (refused e 4); [discriminate|].
  intros H Ht. rewrite Ht in H.
  destruct tc as [c|]; [|discriminate].
  destruct (fits_timestamp (app_clock e 0%nat)); [|discriminate].
  destruct (fits_timestamp t); [|discriminate].
  split; reflexivity.
Qed.

Lemma reserve_body_calm userId lockerId n t c st :
  calm e ->
  addHours (Some (app_clock e 1%nat)) (Some n) = Some t ->
  fits_timestamp (app_clock e 0%nat) = true -> fits_timestamp t = true ->
  fits_decimal_10_2 c = true -> fresh_reservation_id e st = true ->
  reserve_body e userId lockerId (Some n) (Some c) st =
  Some (ok "Locker reserved successfully"
           (Reserved (new_reservation e userId lockerId t c) (random_code e) t),
        reserved_store e userId lockerId t c st).
Proof.
  intros Hcalm Ht Hs0 Hs1 Hc Hf.
  unfold reserve_body, tx_bind, stmt, write, tx_ret, insert_reservation.
  rewrite !Hcalm, Ht, Hs0, Hs1, Hc.
  unfold fresh_reservation_id in Hf.
  cbn [reservations update_locker_status set_lockers].
  rewrite Hf. reflexivity.
Qed.

(** What a 200 answer of [reserveLocker] says. *)
Lemma reserve_200_inv userId lockerId duration st r st' :
  exec (reserveLocker e userId lockerId duration) st = (r, st') ->
  http_status r = 200 ->
  exists locker price rest n t,
    present lockerId = true /\ truthy duration = true /\
    select_available_locker lockerId st = (locker, price) :: rest /\
    parseInt duration = Some n /\
    addHours (Some (app_clock e 1%nat)) (Some n) = Some t /\
    fits_decimal_10_2 (price * n) = true /\
    fresh_reservation_id e st = true /\
    r = ok "Locker reserved successfully"
           (Reserved (new_reservation e userId lockerId t (price * n))
                     (random_code e) t) /\
    st' = reserved_store e userId lockerId t (price * n) st.
Proof.
  rewrite reserve_exec. intros H H200.
  destruct (negb (present lockerId) || negb (truthy duration)) eqn:Hg.
  { inversion H; subst; discriminate. }
  apply orb_false_elim in Hg as [Hp Ht].
  apply negb_false_iff in Hp. apply negb_false_iff in Ht.
  destruct (refused e 0). { inversion H; subst; discriminate. }
  destruct (select_available_locker lockerId st) as [|[l p] rest] eqn:Hs.
  { inversion H; subst; discriminate. }
  destruct (refused e 1). { inversion H; subst; discriminate. }
  destruct (reserve_body _ _ _ _ _ st) as [[r0 st0]|] eqn:Hb.
  2:{ inversion H; subst; discriminate. }
  inversion H; subst; clear H.
  apply reserve_body_inv in Hb as (t & c & Hadd & Htc & Hc & Hf & Hr & Hst).
  destruct (parseInt duration) as [n|] eqn:Hn; [|discriminate].
  cbn in Htc. inversion Htc; subst c.
  exists l, p, rest, n, t. repeat split; assumption.
Qed.

Lemma reserve_200_range userId lockerId duration st r st' n t :
  exec (reserveLocker e userId lockerId duration) st = (r, st') ->
  http_status r = 200 ->
  parseInt duration = Some n ->
  addHours (Some (app_clock e 1%nat)) (Some n) = Some t ->
  fits_timestamp (app_clock e 0%nat) = true /\ fits_timestamp t = true.
Proof.
  rewrite reserve_exec. intros H H200 Hn Ht.
  destruct (negb (present lockerId) || negb (truthy duration)).
  { inversion H; subst; discriminate. }
  destruct (refused e 0). { inversion H; subst; discriminate. }
  destruct (select_available_locker lockerId st) as [|[l p] rest].
  { inversion H; subst; discriminate. }
  destruct (refused e 1). { inversion H; subst; discriminate. }
  destruct (reserve_body _ _ _ _ _ st) as [[r0 st0]|] eqn:Hb.
  2:{ inversion H; subst; discriminate. }
  rewrite Hn in Hb. eapply reserve_body_range; [exact Hb|exact Ht].
Qed.

(** *** extendReservation *)

Lemma update_where_Forall2 {A} (p : A -> bool) (f : A -> option A) rows :
  forall rs ret,
    update_where p f rows = Some (rs, ret) ->
    Forall2 (fun r r' => if p r then f r = Some r' else r' = r) rows rs.
Proof.
  induction rows as [|r rest IH]; intros rs ret H; simpl in H.
  - inversion H; constructor.
  - destruct (update_where p f rest) as [[rest' ret']|]; [|discriminate].
    destruct (p r) eqn:Hp.
    + destruct (f r) as [r'|] eqn:Hf; [|discriminate].
      inversion H; subst. constructor; [rewrite Hp; assumption|eauto].
    + inversion H; subst. constructor; [rewrite Hp; reflexivity|eauto].
Qed.

Lemma update_where_total {A} (p : A -> bool) (f : A -> option A) rows :
  (forall r, In r rows -> p r = true -> f r <> None) ->
  exists rs ret, update_where p f rows = Some (rs, ret).
Proof.
  induction rows as [|r rest IH]; intros H; simpl.
  - eauto.
  - destruct IH as (rs & ret & E).
    { intros x Hx; apply H; right; assumption. }
    rewrite E. destruct (p r) eqn:Hp; [|eauto].
    destruct (f r) eqn:Hf; [eauto|].
    exfalso. apply (H r); [left; reflexivity|assumption|assumption].
Qed.

Lemma extend_exec (userId reservationId : string) (additionalHours : jsval)
    (st : store) :
  exec (extendReservation e userId reservationId additionalHours) st =
  if negb (present reservationId) || negb (truthy additionalHours)
  then (fail 400 "Reservation ID and additional hours are required", st)
  else if refused e 0 then (extend_failed, st)
  else match select_active_priced reservationId userId st with
       | [] => (fail 404 "Active reservation not found", st)
       | (res, price) :: _ =>
           let n := parseInt additionalHours in
           match stmt (refused e 1)
                   (update_extension
                      (addHours (Some (current_end res)) n)
                      (option_map (Z.mul price) n)
                      (option_map (Z.add (total_cost res))
                                  (option_map (Z.mul price) n))
                      reservationId) st with
           | Some ((rows, ac, t), st') =>
               (ok "Reservation extended successfully"
                   (Extended (hd_error rows) ac t), st')
           | None => (extend_failed, st)
           end
       end.
Proof.
  unfold extendReservation.
  destruct (negb (present reservationId) || negb (truthy additionalHours));
    [reflexivity|].
  simpl. destruct (refused e 0); [reflexivity|].
  destruct (select_active_priced reservationId userId st) as [|[res p] rest];
    [reflexivity|].
  simpl.
  destruct (stmt _ _ st) as [[[[rows ac] t] st']|]; reflexivity.
Qed.

(** What a 200 answer of [extendReservation] says. *)
Lemma extend_200_inv userId reservationId additionalHours st r st' :
  exec (extendReservation e userId reservationId additionalHours) st = (r, st') ->
  http_status r = 200 ->
  exists res price rest n t rs ret,
    truthy additionalHours = true /\
    select_active_priced reservationId userId st = (res, price) :: rest /\
    parseInt additionalHours = Some n /\
    TimeClip (current_end res + n * hour_ms) = Some t /\
    update_where (fun x => String.eqb (reservation_id x) reservationId)
                 (extend_row t (price * n) (total_cost res + price * n))
                 (reservations st) = Some (rs, ret) /\
    r = ok "Reservation extended successfully"
           (Extended (hd_error ret) (price * n) t) /\
    st' = set_reservations rs st.
Proof.
  rewrite extend_exec. intros H H200.
  destruct (negb (present reservationId) || negb (truthy additionalHours)) eqn:Hg.
  { inversion H; subst; discriminate. }
  apply orb_false_elim in Hg as [_ Ht]. apply negb_false_iff in Ht.
  destruct (refused e 0). { inversion H; subst; discriminate. }
  destruct (select_active_priced reservationId userId st)
    as [|[res p] rest] eqn:Hs.
  { inversion H; subst; discriminate. }
  cbv zeta in H. unfold stmt in H.
  destruct (refused e 1). { inversion H; subst; discriminate. }
  unfold update_extension in H.
  destruct (parseInt additionalHours) as [n|] eqn:Hn;
    cbn [addHours option_map] in H.
  2:{ inversion H; subst; discriminate. }
  destruct (TimeClip (current_end res + n * hour_ms)) as [t|] eqn:Hc.
  2:{ inversion H; subst; discriminate. }
  destruct (fits_timestamp t).
  2:{ inversion H; subst; discriminate. }
  destruct (update_where _ _ (reservations st)) as [[rs ret]|] eqn:Hu.
  2:{ inversion H; subst; discriminate. }
  inversion H; subst; clear H.
  exists res, p, rest, n, t, rs, ret. repeat split; auto.
Qed.

Lemma same_frame_refl r : same_frame r r.
Proof. repeat split. Qed.

Lemma extend_row_frame t ac tc r r' :
  extend_row t ac tc r = Some r' ->
  same_frame r r' /\ extended_end_time r' = Some t /\
  extension_count r' = extension_count r + 1 /\ total_cost r' = tc /\
  extension_cost r' =
    Some (match extension_cost r with Some c => c | None => 0 end + ac).
Proof.
  unfold extend_row. break_if; [|discriminate].
  intros H; inversion H; subst; clear H. cbn. repeat split.
Qed.

Lemma is_active_of_frame rid u r r' :
  same_frame r r' -> is_active_of rid u r' = is_active_of rid u r.
Proof.
  intros (H1 & H2 & _ & _ & _ & _ & H7 & _).
  unfold is_active_of. rewrite H1, H2, H7. reflexivity.
Qed.

Lemma extended_to_frame rid t ac tc r r' :
  extended_to rid t ac tc r r' -> same_frame r r'.
Proof.
  unfold extended_to. break_if.
  - intros H; apply extend_row_frame in H; tauto.
  - intros ->; apply same_frame_refl.
Qed.

Lemma select_active_priced_In rid u st res price :
  In (res, price) (select_active_priced rid u st) ->
  In res (reservations st) /\ is_active_of rid u res = true.
Proof.
  unfold select_active_priced. rewrite in_flat_map.
  intros (r & Hr & Hin). apply filter_In in Hr.
  apply in_map_iff in Hin as (p & Hp & _). inversion Hp; subst. exact Hr.
Qed.

(** The rows selected before and after a write that keeps the frame
    columns correspond one to one. *)
Lemma select_active_priced_frame (R : reservation -> reservation -> Prop)
    rid u st rs :
  (forall r r', R r r' -> same_frame r r') ->
  Forall2 R (reservations st) rs ->
  Forall2 (fun x y => R (fst x) (fst y) /\ snd y = snd x)
          (select_active_priced rid u st)
          (select_active_priced rid u (set_reservations rs st)).
Proof.
  intros HR. unfold select_active_priced.
  cbn [reservations set_reservations].
  change (prices_for_locker (set_reservations rs st))
    with (prices_for_locker st).
  intros H. induction H as [|r r' rows rows' Hrr _ IH]; cbn [filter flat_map].
  - constructor.
  - rewrite (is_active_of_frame rid u r r' (HR _ _ Hrr)).
    destruct (is_active_of rid u r); [|exact IH].
    cbn [flat_map]. apply Forall2_app; [|exact IH].
    destruct (HR _ _ Hrr) as (_ & _ & Hl & _). rewrite Hl.
    induction (prices_for_locker st (r_locker_id r)); cbn [map];
      constructor; auto.
Qed.

(** The row selected by a successful extension, before and after. *)
Lemma extend_selected userId reservationId additionalHours st r st' :
  exec (extendReservation e userId reservationId additionalHours) st = (r, st') ->
  http_status r = 200 ->
  exists res res' price n row,
    hd_error (select_active_priced reservationId userId st) = Some (res, price) /\
    hd_error (select_active_priced reservationId userId st') = Some (res', price) /\
    parseInt additionalHours = Some n /\
    extend_row (current_end res + n * hour_ms) (price * n)
               (total_cost res + price * n) res = Some res' /\
    Z.abs (current_end res + n * hour_ms) <= max_time /\
    r = ok "Reservation extended successfully"
           (Extended row (price * n) (current_end res + n * hour_ms)) /\
    Forall2 (extended_to reservationId (current_end res + n * hour_ms)
                         (price * n) (total_cost res + price * n))
            (reservations st) (reservations st') /\
    lockers st' = lockers st /\ locker_sizes st' = locker_sizes st /\
    reservation_history st' = reservation_history st /\
    verification_codes st' = verification_codes st.
Proof.
  intros H H200.
  destruct (extend_200_inv _ _ _ _ _ _ H H200)
    as (res & price & rest & n & t & rs & ret & _ & Hs & Hn & Hc & Hu & Hr & Hst).
  unfold TimeClip in Hc.
  destruct (Z.abs (current_end res + n * hour_ms) <=? max_time) eqn:Hle;
    [|discriminate].
  inversion Hc; subst t; clear Hc. apply Z.leb_le in Hle.
  apply update_where_Forall2 in Hu.
  assert (HF : Forall2 (extended_to reservationId
                          (current_end res + n * hour_ms) (price * n)
                          (total_cost res + price * n)) (reservations st) rs)
    by exact Hu.
  pose proof (select_active_priced_frame _ reservationId userId st rs
                (extended_to_frame _ _ _ _) HF) as Hsel.
  rewrite Hs in Hsel. rewrite <- Hst in Hsel.
  inversion Hsel as [|x [res' p'] l l' [Hx Hp] Htl E1 E2]; subst x l.
  cbn [fst snd] in Hx, Hp. subst p'.
  assert (Hact : is_active_of reservationId userId res = true).
  { apply (select_active_priced_In reservationId userId st res price).
    rewrite Hs; left; reflexivity. }
  unfold extended_to in Hx.
  assert (Hid : String.eqb (reservation_id res) reservationId = true).
  { unfold is_active_of in Hact.
    apply andb_prop in Hact as [Hact _]. apply andb_prop in Hact as [Hact _].
    exact Hact. }
  rewrite Hid in Hx.
  exists res, res', price, n, (hd_error ret).
  rewrite Hs. subst st'. cbn [hd_error].
  repeat split; auto.
Qed.

(** *** releaseLocker *)

Lemma release_exec (userId reservationId : string) (st : store) :
  exec (releaseLocker e userId reservationId) st =
  if refused e 0 then (release_failed, st)
  else match select_active reservationId userId st with
       | [] => (fail 404 "Active reservation not found", st)
       | res :: _ =>
           if refused e 1 then (release_failed, st) else
           match release_body e reservationId res st with
           | Some (r, st') => (r, st')
           | None => (release_failed, st)
           end
       end.
Proof.
  unfold releaseLocker. simpl. destruct (refused e 0); [reflexivity|].
  destruct (select_active reservationId userId st) as [|res rest];
    [reflexivity|].
  simpl. destruct (refused e 1); [reflexivity|].
  unfold transaction.
  destruct (release_body e reservationId res st) as [[r st']|]; reflexivity.
Qed.

Lemma release_body_inv reservationId res st r st' :
  release_body e reservationId res st = Some (r, st') ->
  r = ok "Locker released successfully" NoData /\
  st' = released_store e reservationId res st.
Proof.
  unfold release_body, tx_bind, stmt, write, tx_ret, insert_history.
  destruct (refused e 2); [discriminate|].
  destruct (refused e 3); [discriminate|].
  destruct (refused e 4); [discriminate|].
  destruct (refused e 5); [discriminate|].
  break_if; [|discriminate].
  destruct (refused e 6); [discriminate|].
  intros H; inversion H; subst; clear H. split; reflexivity.
Qed.

Lemma release_body_calm reservationId res st :
  calm e ->
  fits_timestamp (start_time res) = true ->
  fits_timestamp (app_clock e 0%nat) = true ->
  fits_int4 (ceil_hours (app_time e 0%nat) (time_of_local e (start_time res)))
  = true ->
  fits_decimal_10_2 (total_cost res) = true ->
  existsb (fun x => String.eqb (history_id x) (uuid e))
          (reservation_history st) = false ->
  release_body e reservationId res st =
  Some (ok "Locker released successfully" NoData,
        released_store e reservationId res st).
Proof.
  intros Hcalm Hs0 Hs1 H1 H2 H3.
  unfold release_body, tx_bind, stmt, write, tx_ret, insert_history.
  rewrite !Hcalm.
  cbn [total_hours h_total_cost history_id reservation_history h_start_time
       h_end_time update_locker_status set_lockers complete_reservation
       set_reservations].
  rewrite Hs0, Hs1, H1, H2, H3. reflexivity.
Qed.

(** Every answer of [releaseLocker]: either 200 with the three writes, or
    a failure with the store as it was. *)
Lemma release_cases userId reservationId st r st' :
  exec (releaseLocker e userId reservationId) st = (r, st') ->
  (http_status r <> 200 /\ st' = st) \/
  (exists res rest,
      select_active reservationId userId st = res :: rest /\
      r = ok "Locker released successfully" NoData /\
      st' = released_store e reservationId res st).
Proof.
  rewrite release_exec. intros H.
  destruct (refused e 0).
  { inversion H; subst; left; split; [discriminate|reflexivity]. }
  destruct (select_active reservationId userId st) as [|res rest] eqn:Hs.
  { inversion H; subst; left; split; [discriminate|reflexivity]. }
  destruct (refused e 1).
  { inversion H; subst; left; split; [discriminate|reflexivity]. }
  destruct (release_body e reservationId res st) as [[r0 st0]|] eqn:Hb.
  - inversion H; subst; clear H. apply release_body_inv in Hb as [-> ->].
    right. exists res, rest. repeat split.
  - inversion H; subst; left; split; [discriminate|reflexivity].
Qed.

(** *** verifyOTP *)

Lemma verify_exec (ph otp purp : string) (st : store) :
  exec (verifyOTP e ph otp purp) st =
  if refused e 0 then (false, st)
  else match select_usable_codes (db_now e) ph otp purp st with
       | [] => (false, st)
       | row :: _ =>
           if refused e 1 then (false, st)
           else (true, mark_used (code_id row) st)
       end.
Proof.
  unfold verifyOTP. simpl. destruct (refused e 0); [reflexivity|].
  destruct (select_usable_codes (db_now e) ph otp purp st); [reflexivity|].
  simpl. destruct (refused e 1); reflexivity.
Qed.

End Sequential.

(* ------------------------------------------------------------------ *)
(** ** Cost of a new reservation *)

Lemma whole_trunc_ceil m k :
  is_whole m k = true -> num_trunc m k = num_ceil m k.
Proof.
  unfold is_whole, num_trunc, num_ceil. intros H. apply Z.eqb_eq in H.
  assert (P : 0 < 10 ^ Z.of_nat k) by (apply Z.pow_pos_nonneg; lia).
  set (b := 10 ^ Z.of_nat k) in *.
  assert (E : m = b * (m / b)) by (pose proof (Z.div_mod m b); lia).
  rewrite E at 1 2.
  rewrite Z.mul_comm, Z.quot_mul by lia.
  rewrite <- Z.mul_opp_l, Z.div_mul by lia. lia.
Qed.

(** C3, as the specification has it, fails: a stay of 2.5 hours in a
    locker at 10.00 per hour is reserved at 20.00, not at
    10.00 * ceil(2.5) = 30.00. *)
Lemma C3_counterexample :
  exists r st' row ac t,
    exec (reserveLocker Sample.e0 "u1" "L1" (JNum 25 1)) Sample.st0 = (r, st') /\
    http_status r = 200 /\ data r = Reserved row ac t /\
    hd_error (select_available_locker "L1" Sample.st0)
      = Some (mkLocker "L1" "S" AVAILABLE, 1000) /\
    total_cost row = 2000 /\ 1000 * num_ceil 25 1 = 3000.
Proof. repeat eexists. Qed.

(** C3 (amended): for every successful reserve, the total_cost recorded on
    the new reservation is the base price of the locker's size times n,
    the whole number of hours that parseInt reads from the duration.  For
    a number that JavaScript writes without exponent (from 10^-6 to below
    10^21 in absolute value) n is the duration truncated toward zero: a
    fraction is dropped, not rounded up, so that total_cost is
    basePrice * ceil(durationHours) when the duration is a whole number. *)
Theorem C3_initial_cost_truncates e userId lockerId duration st r st' :
  exec (reserveLocker e userId lockerId duration) st = (r, st') ->
  http_status r = 200 ->
  exists locker price n row,
    hd_error (select_available_locker lockerId st) = Some (locker, price) /\
    parseInt duration = Some n /\
    data r = Reserved row (random_code e) (expected_end_time row) /\
    Permutation (reservations st') (row :: reservations st) /\
    status row = ACTIVE /\
    total_cost row = price * n /\
    (forall m k, duration = JNum m k -> plain_number m k ->
       n = num_trunc m k /\
       total_cost row = price * num_trunc m k /\
       (is_whole m k = true -> total_cost row = price * num_ceil m k)).
Proof.
  intros H H200.
  destruct (reserve_200_inv e _ _ _ _ _ _ H H200)
    as (l & p & rest & n & t & _ & Htr & Hs & Hn & _ & _ & _ & Hr & Hst).
  exists l, p, n, (new_reservation e userId lockerId t (p * n)).
  subst r st'. rewrite Hs.
  repeat match goal with |- _ /\ _ => split end; auto.
  { unfold reserved_store. cbn [reservations set_reservations].
    apply Permutation_sym. apply Permutation_cons_append. }
  intros m k -> [Hlo Hhi].
  assert (Hm : m <> 0).
  { cbn in Htr. intros ->. discriminate. }
  rewrite (JSFacts.parseInt_number m k Hm Hlo Hhi) in Hn.
  inversion Hn; subst n. cbn [total_cost new_reservation].
  split; [reflexivity|]. split; [reflexivity|].
  intros Hw. rewrite whole_trunc_ceil by exact Hw. reflexivity.
Qed.

Lemma C3_witness :
  exists locker price n row,
    hd_error (select_available_locker "L1" Sample.st0) = Some (locker, price) /\
    parseInt (JNum 3 0) = Some n /\
    data (fst (exec (reserveLocker Sample.e0 "u1" "L1" (JNum 3 0)) Sample.st0))
      = Reserved row (random_code Sample.e0) (expected_end_time row) /\
    Permutation
      (reservations
         (snd (exec (reserveLocker Sample.e0 "u1" "L1" (JNum 3 0)) Sample.st0)))
      (row :: reservations Sample.st0) /\
    status row = ACTIVE /\
    total_cost row = price * n /\
    (forall m k, JNum 3 0 = JNum m k -> plain_number m k ->
       n = num_trunc m k /\
       total_cost row = price * num_trunc m k /\
       (is_whole m k = true -> total_cost row = price * num_ceil m k)).
Proof.
  apply (C3_initial_cost_truncates Sample.e0 "u1" "L1" (JNum 3 0) Sample.st0).
  - vm_compute. reflexivity.
  - reflexivity.
Defined.

(* ------------------------------------------------------------------ *)
(** ** Extensions *)





(** C10: a successful extend leaves, on every reservation, start_time,
    expected_end_time, actual_end_time, status, access_code and the user
    and locker references as they were, changes no reservation other than
    the one extended, and leaves every locker (its status included) and
    every other table unchanged. *)
Theorem C10_extend_frame e userId reservationId additionalHours st r st' :
  exec (extendReservation e userId reservationId additionalHours) st = (r, st') ->
  http_status r = 200 ->
  Forall2 (fun x x' =>
             same_frame x x' /\ (reservation_id x <> reservationId -> x' = x))
          (reservations st) (reservations st') /\
  lockers st' = lockers st /\ locker_sizes st' = locker_sizes st /\
  reservation_history st' = reservation_history st /\
  verification_codes st' = verification_codes st.
Proof.
  intros H H200.
  destruct (extend_selected e _ _ _ _ _ _ H H200)
    as (res & res' & price & n & row & _ & _ & _ & _ & _ & _ & HF & Hl & Hz
        & Hh & Hv).
  repeat match goal with |- _ /\ _ => split end; auto.
  eapply Forall2_impl; [|exact HF].
  intros x x' Hx. split.
  - eapply extended_to_frame; exact Hx.
  - intros Hne. unfold extended_to in Hx.
    destruct (String.eqb_spec (reservation_id x) reservationId);
      [contradiction|exact Hx].
Qed.

Lemma C10_witness :
  Forall2 (fun x x' => same_frame x x' /\ (reservation_id x <> "R1" -> x' = x))
          (reservations Sample.st1)
          (reservations
             (snd (exec (extendReservation Sample.e1 "u1" "R1" (JNum 2 0))
                        Sample.st1))) /\
  lockers (snd (exec (extendReservation Sample.e1 "u1" "R1" (JNum 2 0))
                     Sample.st1)) = lockers Sample.st1 /\
  locker_sizes (snd (exec (extendReservation Sample.e1 "u1" "R1" (JNum 2 0))
                          Sample.st1)) = locker_sizes Sample.st1 /\
  reservation_history
    (snd (exec (extendReservation Sample.e1 "u1" "R1" (JNum 2 0)) Sample.st1))
    = reservation_history Sample.st1 /\
  verification_codes
    (snd (exec (extendReservation Sample.e1 "u1" "R1" (JNum 2 0)) Sample.st1))
    = verification_codes Sample.st1.
Proof.
  apply (C10_extend_frame Sample.e1 "u1" "R1" (JNum 2 0) Sample.st1
           (fst (exec (extendReservation Sample.e1 "u1" "R1" (JNum 2 0))
                      Sample.st1))).
  - vm_compute. reflexivity.
  - reflexivity.
Defined.

(** C7, as the specification has it, fails: extending a reservation that
    its owner has already released is answered 404, the very answer given
    for a reservation that does not exist and for one owned by somebody
    else; it is no Conflict. *)
Lemma C7_counterexample :
  let released :=
    fst (exec (extendReservation Sample.e1 "u1" "R1" (JNum 2 0)) Sample.st2) in
  let absent :=
    fst (exec (extendReservation Sample.e1 "u1" "R9" (JNum 2 0)) Sample.st2) in
  let foreign :=
    fst (exec (extendReservation Sample.e1 "u2" "R1" (JNum 2 0)) Sample.st1) in
  failure_of released = Some NotFound /\
  failure_of released <> Some Conflict /\
  released = absent /\ released = foreign.
Proof. cbv zeta. repeat split. discriminate. Qed.

(** C7 (amended): extend on a reservation that is not ACTIVE (or is absent,
    or is owned by another user) fails with NotFound, the one answer 404
    "Active reservation not found" for the three cases, and leaves the
    store unchanged. *)
Theorem C7_extend_inactive_is_not_found
    e userId reservationId additionalHours st :
  present reservationId = true -> truthy additionalHours = true ->
  refused e 0 = false ->
  (forall x, In x (reservations st) ->
     reservation_id x <> reservationId \/ user_id x <> userId \/
     status x <> ACTIVE) ->
  exec (extendReservation e userId reservationId additionalHours) st
    = (fail 404 "Active reservation not found", st) /\
  failure_of (fail 404 "Active reservation not found") = Some NotFound.
Proof.
  intros Hp Ht H0 Hno. split; [|reflexivity].
  rewrite extend_exec, Hp, Ht, H0. cbn [negb orb].
  assert (E : filter (is_active_of reservationId userId) (reservations st) = []).
  { induction (reservations st) as [|x xs IH]; [reflexivity|].
    cbn [filter].
    assert (Hx : is_active_of reservationId userId x = false).
    { unfold is_active_of.
      destruct (Hno x (or_introl eq_refl)) as [Hn|[Hn|Hn]].
      - destruct (String.eqb_spec (reservation_id x) reservationId);
          [contradiction|reflexivity].
      - destruct (String.eqb_spec (user_id x) userId); [contradiction|].
        rewrite andb_false_r. reflexivity.
      - destruct (status x); try contradiction; cbn; apply andb_false_r. }
    rewrite Hx. apply IH. intros y Hy. apply Hno. right; exact Hy. }
  unfold select_active_priced. rewrite E. reflexivity.
Qed.

Lemma C7_witness :
  exec (extendReservation Sample.e1 "u1" "R1" (JNum 2 0)) Sample.st2
    = (fail 404 "Active reservation not found", Sample.st2) /\
  failure_of (fail 404 "Active reservation not found") = Some NotFound.
Proof.
  apply (C7_extend_inactive_is_not_found Sample.e1 "u1" "R1" (JNum 2 0)
           Sample.st2); try reflexivity.
  intros x [<-|[]]. right; right. discriminate.
Defined.

(* ------------------------------------------------------------------ *)
(** ** Release *)

(** [ceil_hours] is the ceiling of the elapsed time in hours. *)
Lemma ceil_hours_spec endTime startTime :
  (ceil_hours endTime startTime - 1) * hour_ms < endTime - startTime
  <= ceil_hours endTime startTime * hour_ms.
Proof.
  unfold ceil_hours. set (d := endTime - startTime).
  assert (H : 0 < hour_ms) by reflexivity.
  pose proof (Z.div_mod (- d) hour_ms ltac:(lia)).
  pose proof (Z.mod_pos_bound (- d) hour_ms H). nia.
Qed.

Lemma Forall2_map_if {A} (p : A -> bool) (f : A -> A)
    (R : A -> A -> Prop) l :
  (forall x, R x (f x)) ->
  Forall2 (fun x x' => if p x then R x x' else x' = x) l
          (map (fun x => if p x then f x else x) l).
Proof.
  intros H. induction l as [|x xs IH]; cbn [map]; constructor; [|exact IH].
  destruct (p x); [apply H|reflexivity].
Qed.

(** C2, as the specification has it, fails: total_hours is not counted to
    actual_end_time.  The reservation of [t0] is released one hour later;
    the database reads NOW() a millisecond before the hour and the handler
    reads its clock a millisecond after: the row is closed at
    [t0 + 1h - 1ms], and the history record has 2 hours, not
    ceil(actual_end_time - start_time) = 1. *)
Lemma C2_counterexample :
  exists r st' row h,
    exec (releaseLocker Sample.e_skew "u1" "R1") Sample.st1 = (r, st') /\
    http_status r = 200 /\
    reservations st' = [row] /\ status row = COMPLETED /\
    start_time row = Sample.t0 /\
    actual_end_time row = Some (Sample.t0 + hour_ms - 1) /\
    reservation_history st' = [h] /\ total_hours h = 2 /\
    ceil_hours (Sample.t0 + hour_ms - 1) Sample.t0 = 1.
Proof. repeat eexists. Qed.

(** C2 (amended): a release either succeeds with its three writes or
    keeps none of them.  When it succeeds, it was on the ACTIVE
    reservation owned by userId, and: every row of that reservation has
    status COMPLETED and actual_end_time = the NOW() of the database, its
    other columns and all other rows as they were; the referenced locker
    has status AVAILABLE, the other lockers as they were; one history
    record is added, with the start_time and the total_cost of the
    reservation, the handler's clock as end_time, and total_hours the
    ceiling, in hours, of the time from start_time to the handler's clock
    (both as time values); nothing else changes.  total_hours is counted
    to the handler's clock, not to actual_end_time. *)
Theorem C2_release_commits_three_writes e userId reservationId st r st' :
  exec (releaseLocker e userId reservationId) st = (r, st') ->
  (http_status r = 200 ->
   exists res h,
     hd_error (select_active reservationId userId st) = Some res /\
     In res (reservations st) /\ status res = ACTIVE /\
     user_id res = userId /\ reservation_id res = reservationId /\
     Forall2 (fun x x' => if String.eqb (reservation_id x) reservationId
                          then completed_at (db_now e) x x'
                          else x' = x)
             (reservations st) (reservations st') /\
     Forall2 (fun l l' => if String.eqb (locker_id l) (r_locker_id res)
                          then locker_set_to AVAILABLE l l'
                          else l' = l)
             (lockers st) (lockers st') /\
     Permutation (reservation_history st') (h :: reservation_history st) /\
     history_id h = uuid e /\ h_reservation_id h = reservationId /\
     h_start_time h = start_time res /\ h_end_time h = app_clock e 0%nat /\
     (total_hours h - 1) * hour_ms
       < app_time e 0%nat - time_of_local e (start_time res)
       <= total_hours h * hour_ms /\
     h_total_cost h = total_cost res /\
     locker_sizes st' = locker_sizes st /\
     verification_codes st' = verification_codes st) /\
  (http_status r <> 200 -> st' = st).
Proof.
  intros H.
  destruct (release_cases e _ _ _ _ _ H)
    as [[Hfail Hsame]|(res & rest & Hs & Hr & Hst)].
  { split; [intros H200; contradiction|intros _; exact Hsame]. }
  subst r. split; [intros _|intros Hne; exfalso; apply Hne; reflexivity].
  exists res, (history_row e reservationId res).
  assert (Hin : In res (select_active reservationId userId st))
    by (rewrite Hs; left; reflexivity).
  apply filter_In in Hin as [Hin Hact].
  unfold is_active_of in Hact.
  apply andb_prop in Hact as [Hact Hst3]. apply andb_prop in Hact as [Hid Hu].
  apply String.eqb_eq in Hid. apply String.eqb_eq in Hu.
  rewrite Hs. subst st'. unfold released_store, history_row.
  cbn [reservations lockers reservation_history locker_sizes verification_codes
       set_history update_locker_status set_lockers complete_reservation
       set_reservations history_id h_reservation_id h_start_time h_end_time
       total_hours h_total_cost hd_error].
  repeat match goal with |- _ /\ _ => split end; auto.
  - destruct (status res); [reflexivity|discriminate|discriminate].
  - apply (Forall2_map_if
             (fun x => String.eqb (reservation_id x) reservationId)
             (completed (db_now e)) (completed_at (db_now e))).
    intros x. unfold completed_at, completed. cbn. repeat split.
  - apply (Forall2_map_if
             (fun l => String.eqb (locker_id l) (r_locker_id res))
             (with_status AVAILABLE) (locker_set_to AVAILABLE)).
    intros l. unfold locker_set_to, with_status. cbn. repeat split.
  - apply Permutation_sym. apply Permutation_cons_append.
  - apply ceil_hours_spec.
  - apply ceil_hours_spec.
Qed.

Lemma C2_witness :
  let r := fst (exec (releaseLocker Sample.e1 "u1" "R1") Sample.st1) in
  let st' := snd (exec (releaseLocker Sample.e1 "u1" "R1") Sample.st1) in
  http_status r = 200 /\
  (http_status r = 200 ->
   exists res h,
     hd_error (select_active "R1" "u1" Sample.st1) = Some res /\
     In res (reservations Sample.st1) /\ status res = ACTIVE /\
     user_id res = "u1" /\ reservation_id res = "R1" /\
     Forall2 (fun x x' => if String.eqb (reservation_id x) "R1"
                          then completed_at (db_now Sample.e1) x x'
                          else x' = x)
             (reservations Sample.st1) (reservations st') /\
     Forall2 (fun l l' => if String.eqb (locker_id l) (r_locker_id res)
                          then locker_set_to AVAILABLE l l'
                          else l' = l)
             (lockers Sample.st1) (lockers st') /\
     Permutation (reservation_history st')
                 (h :: reservation_history Sample.st1) /\
     history_id h = uuid Sample.e1 /\ h_reservation_id h = "R1" /\
     h_start_time h = start_time res /\
     h_end_time h = app_clock Sample.e1 0%nat /\
     (total_hours h - 1) * hour_ms
       < app_time Sample.e1 0%nat
         - time_of_local Sample.e1 (start_time res)
       <= total_hours h * hour_ms /\
     h_total_cost h = total_cost res /\
     locker_sizes st' = locker_sizes Sample.st1 /\
     verification_codes st' = verification_codes Sample.st1) /\
  (http_status r <> 200 -> st' = Sample.st1).
Proof.
  cbv zeta. split; [reflexivity|].
  apply (C2_release_commits_three_writes Sample.e1 "u1" "R1" Sample.st1
           (fst (exec (releaseLocker Sample.e1 "u1" "R1") Sample.st1))
           (snd (exec (releaseLocker Sample.e1 "u1" "R1") Sample.st1))).
  vm_compute. reflexivity.
Defined.

(** After the release, the locker of the reservation is offered with the
    prices of its size. *)
Lemma available_after_release e reservationId res st :
  map snd (select_available_locker (r_locker_id res)
             (released_store e reservationId res st))
  = prices_for_locker st (r_locker_id res).
Proof.
  unfold select_available_locker, prices_for_locker, released_store.
  cbn [lockers set_history update_locker_status set_lockers
       complete_reservation set_reservations].
  change (prices_of (set_history _ _)) with (prices_of st).
  induction (lockers st) as [|l ls IH]; [reflexivity|].
  cbn [map filter].
  destruct (String.eqb (locker_id l) (r_locker_id res)) eqn:El.
  - cbn [with_status locker_id l_status locker_status_eqb andb].
    rewrite El. cbn [flat_map andb]. rewrite map_app, IH.
    f_equal. rewrite map_map. cbn [snd l_size_id]. apply map_id.
  - rewrite El. cbn [andb]. exact IH.
Qed.

(** C9: after a successful release of the ACTIVE reservation of a locker
    (one that has a size with a price), a reserve on the same locker by any
    user succeeds and takes the locker again, for every request that the
    handler can store: a duration that is present and parses to hours, a
    start date in the range of a TIMESTAMP and an end date in the range of
    a JavaScript Date and of a TIMESTAMP, an amount in the range of its
    column, a fresh reservation identifier, and no statement refused. *)
Theorem C9_release_then_reserve
    e1 userId reservationId st r1 st1 res e2 userId2 duration n :
  exec (releaseLocker e1 userId reservationId) st = (r1, st1) ->
  http_status r1 = 200 ->
  hd_error (select_active reservationId userId st) = Some res ->
  prices_for_locker st (r_locker_id res) <> [] ->
  present (r_locker_id res) = true ->
  truthy duration = true -> parseInt duration = Some n ->
  fits_timestamp (app_clock e2 0%nat) = true ->
  storable_date (app_clock e2 1%nat + n * hour_ms) = true ->
  (forall p, In p (prices_for_locker st (r_locker_id res)) ->
     fits_decimal_10_2 (p * n) = true) ->
  fresh_reservation_id e2 st = true ->
  calm e2 ->
  exists r2 st2 row,
    exec (reserveLocker e2 userId2 (r_locker_id res) duration) st1 = (r2, st2) /\
    http_status r2 = 200 /\
    In row (reservations st2) /\ status row = ACTIVE /\
    user_id row = userId2 /\ r_locker_id row = r_locker_id res /\
    (forall l, In l (lockers st2) -> locker_id l = r_locker_id res ->
       l_status l = OCCUPIED).
Proof.
  intros H H200 Hres Hprice Hp Ht Hn Hstart Hdate Hfits Hfresh Hcalm.
  unfold storable_date in Hdate. apply andb_prop in Hdate as [Hclip Hend].
  destruct (release_cases e1 _ _ _ _ _ H)
    as [[Hfail _]|(res0 & rest & Hs & Hr & Hst)]; [contradiction|].
  rewrite Hs in Hres. inversion Hres; subst res0; clear Hres.
  pose proof (available_after_release e1 reservationId res st) as Hav.
  rewrite <- Hst in Hav.
  destruct (select_available_locker (r_locker_id res) st1)
    as [|[l p] more] eqn:Hsel.
  { cbn in Hav. symmetry in Hav. contradiction. }
  assert (Hpin : In p (prices_for_locker st (r_locker_id res)))
    by (rewrite <- Hav; left; reflexivity).
  assert (Hadd : addHours (Some (app_clock e2 1%nat)) (Some n)
                 = Some (app_clock e2 1%nat + n * hour_ms)).
  { unfold addHours, TimeClip. rewrite Hclip. reflexivity. }
  assert (Hfresh1 : fresh_reservation_id e2 st1 = true).
  { subst st1. unfold fresh_reservation_id, released_store in *.
    cbn [reservations set_history update_locker_status set_lockers
         complete_reservation set_reservations].
    rewrite <- Hfresh. f_equal. clear.
    induction (reservations st) as [|x xs IH]; [reflexivity|].
    cbn [map existsb]. rewrite IH. f_equal.
    destruct (String.eqb (reservation_id x) reservationId); reflexivity. }
  eexists _, _, (new_reservation e2 userId2 (r_locker_id res) _ (p * n)).
  rewrite reserve_exec, Hp, Ht, !Hcalm, Hsel, Hn. cbn [negb orb option_map].
  rewrite (reserve_body_calm e2 _ _ n _ (p * n) st1 Hcalm Hadd Hstart Hend
             (Hfits p Hpin) Hfresh1).
  split; [reflexivity|]. split; [reflexivity|].
  unfold reserved_store.
  cbn [reservations lockers set_reservations update_locker_status set_lockers].
  split; [apply in_or_app; right; left; reflexivity|].
  repeat split.
  intros l0 Hl0 Hid. apply in_map_iff in Hl0 as (l1 & El & _).
  destruct (String.eqb_spec (locker_id l1) (r_locker_id res)) as [E|E].
  - subst l0. reflexivity.
  - subst l0. contradiction.
Qed.

Lemma C9_witness :
  exists r2 st2 row,
    exec (reserveLocker Sample.e2 "u2" "L1" (JNum 4 0))
         (snd (exec (releaseLocker Sample.e1 "u1" "R1") Sample.st1))
      = (r2, st2) /\
    http_status r2 = 200 /\
    In row (reservations st2) /\ status row = ACTIVE /\
    user_id row = "u2" /\ r_locker_id row = "L1" /\
    (forall l, In l (lockers st2) -> locker_id l = "L1" ->
       l_status l = OCCUPIED).
Proof.
  apply (C9_release_then_reserve Sample.e1 "u1" "R1" Sample.st1
           (fst (exec (releaseLocker Sample.e1 "u1" "R1") Sample.st1))
           (snd (exec (releaseLocker Sample.e1 "u1" "R1") Sample.st1))
           Sample.r1 Sample.e2 "u2" (JNum 4 0) 4).
  - vm_compute. reflexivity.
  - reflexivity.
  - reflexivity.
  - discriminate.
  - reflexivity.
  - reflexivity.
  - reflexivity.
  - reflexivity.
  - reflexivity.
  - intros p [<-|[]]. reflexivity.
  - reflexivity.
  - intros i. reflexivity.
Defined.

(* ------------------------------------------------------------------ *)
(** ** Input checks of reserveLocker *)

(** A missing or falsy duration (0, the empty string) is answered 400
    before the store is touched: the handler has no step to run. *)
Lemma reserve_rejects_falsy e userId lockerId duration :
  truthy duration = false ->
  reserveLocker e userId lockerId duration
  = Done (fail 400 "Locker ID and duration are required").
Proof.
  intros H. unfold reserveLocker. rewrite H.
  rewrite orb_true_r. reflexivity.
Qed.

(** A locker that is not AVAILABLE is answered 400 "Locker not available",
    and nothing is written. *)
Lemma reserve_unavailable e userId lockerId duration st :
  present lockerId = true -> truthy duration = true -> refused e 0 = false ->
  (forall l, In l (lockers st) -> locker_id l = lockerId ->
     l_status l <> AVAILABLE) ->
  exec (reserveLocker e userId lockerId duration) st
    = (fail 400 "Locker not available", st) /\
  failure_of (fail 400 "Locker not available") = Some ResourceUnavailable.
Proof.
  intros Hp Ht H0 Hno. split; [|reflexivity].
  rewrite reserve_exec, Hp, Ht, H0. cbn [negb orb].
  unfold select_available_locker.
  assert (E : filter (fun l => String.eqb (locker_id l) lockerId
                               && locker_status_eqb (l_status l) AVAILABLE)
                     (lockers st) = []).
  { induction (lockers st) as [|l ls IH]; [reflexivity|].
    cbn [filter].
    destruct (String.eqb_spec (locker_id l) lockerId) as [E|E].
    - pose proof (Hno l (or_introl eq_refl) E) as Hl.
      destruct (l_status l); [contradiction| |]; cbn [locker_status_eqb andb];
        apply IH; intros x Hx; apply Hno; right; exact Hx.
    - cbn [andb]. apply IH. intros x Hx. apply Hno. right; exact Hx. }
  rewrite E. reflexivity.
Qed.

(** C8 at its failing input: a duration of -3 hours, and the string "0",
    pass the check [!duration]; the locker is taken and a reservation is
    stored that costs -30.00 and ends before it starts. *)
Lemma C8_nonpositive_duration_accepted :
  (exists r st' row ac t,
     exec (reserveLocker Sample.e0 "u1" "L1" (JNum (-3) 0)) Sample.st0
       = (r, st') /\
     http_status r = 200 /\ failure_of r = None /\
     data r = Reserved row ac t /\
     total_cost row = -3000 /\ expected_end_time row < start_time row /\
     lockers st' = [mkLocker "L1" "S" OCCUPIED] /\
     reservations st' = [row]) /\
  (exists r st' row ac t,
     exec (reserveLocker Sample.e0 "u1" "L1" (JStr "0")) Sample.st0
       = (r, st') /\
     http_status r = 200 /\ data r = Reserved row ac t /\
     total_cost row = 0 /\ expected_end_time row = start_time row).
Proof. split; repeat eexists. Qed.

(* ------------------------------------------------------------------ *)
(** ** Extensions by a negative number of hours *)

(** An extension by a number of hours that is not negative does not move
    the end of the reservation back. *)
Lemma extend_nonnegative_keeps_end
    e userId reservationId additionalHours st r st' n :
  exec (extendReservation e userId reservationId additionalHours) st = (r, st') ->
  http_status r = 200 ->
  parseInt additionalHours = Some n -> 0 <= n ->
  exists res res' price,
    hd_error (select_active_priced reservationId userId st) = Some (res, price) /\
    hd_error (select_active_priced reservationId userId st') = Some (res', price) /\
    current_end res <= current_end res' /\
    extension_count res <= extension_count res'.
Proof.
  intros H H200 Hn Hpos.
  destruct (extend_selected e _ _ _ _ _ _ H H200)
    as (res & res' & price & n0 & row & Hs & Hs' & Hn0 & Hrow & _).
  rewrite Hn in Hn0. inversion Hn0; subst n0; clear Hn0.
  apply extend_row_frame in Hrow as (_ & Hend & Hcnt & _).
  exists res, res', price. repeat split; auto.
  - unfold current_end at 2. rewrite Hend.
    assert (0 < hour_ms) by reflexivity. nia.
  - lia.
Qed.

(** C5 at its failing input: after an extension by 2 hours, an extension
    by -2 hours is accepted, moves extended_end_time two hours back and
    takes 20.00 off the total. *)
Lemma C5_negative_extension_moves_end_back :
  exists r1 st1 r2 st2 row1 row2 c1 c2 t1 t2,
    exec (extendReservation Sample.e1 "u1" "R1" (JNum 2 0)) Sample.st1
      = (r1, st1) /\
    exec (extendReservation Sample.e2 "u1" "R1" (JNum (-2) 0)) st1
      = (r2, st2) /\
    http_status r1 = 200 /\ http_status r2 = 200 /\
    data r1 = Extended (Some row1) c1 t1 /\
    data r2 = Extended (Some row2) c2 t2 /\
    extended_end_time row1 = Some (Sample.t0 + 5 * hour_ms) /\
    extended_end_time row2 = Some (Sample.t0 + 3 * hour_ms) /\
    t2 < t1 /\
    total_cost row1 = 5000 /\ total_cost row2 = 3000 /\
    extension_count row2 = 2.
Proof. repeat eexists. Qed.

(* ------------------------------------------------------------------ *)
(** ** Two requests at once *)

(** Served one after the other, the second reserve finds the locker
    taken. *)
Lemma reserve_twice_in_turn :
  exists ra rb st',
    interleave [true; true; false; false]
      (reserveLocker Sample.e0 "u1" "L1" (JNum 3 0))
      (reserveLocker Sample.e1 "u2" "L1" (JNum 2 0)) Sample.st0
    = (Done ra, Done rb, st') /\
    http_status ra = 200 /\
    failure_of rb = Some ResourceUnavailable /\
    List.length (reservations st') = 1%nat.
Proof. repeat eexists. Qed.

(** C1 at its failing schedule: both requests run their [SELECT] before
    either runs its transaction; the [UPDATE] of the transaction does not
    look at the status again, so both are answered 200 and the locker has
    two ACTIVE reservations. *)
Lemma C1_both_reserves_succeed :
  exists ra rb st',
    interleave [true; false; true; false]
      (reserveLocker Sample.e0 "u1" "L1" (JNum 3 0))
      (reserveLocker Sample.e1 "u2" "L1" (JNum 2 0)) Sample.st0
    = (Done ra, Done rb, st') /\
    http_status ra = 200 /\ http_status rb = 200 /\
    lockers st' = [mkLocker "L1" "S" OCCUPIED] /\
    map (fun x => (user_id x, r_locker_id x, status x)) (reservations st')
    = [("u1", "L1", ACTIVE); ("u2", "L1", ACTIVE)].
Proof. repeat eexists. Qed.

(* ------------------------------------------------------------------ *)
(** ** verifyOTP *)

Section Verify.

Variable e : env.
Hypothesis Hcalm : calm e.

(** Run alone, with no statement refused, [verifyOTP] answers [true]
    exactly when a stored code matches phone, code and purpose, is not
    expired and is not used. *)
Lemma verify_true_iff ph otp purp st :
  fst (exec (verifyOTP e ph otp purp) st) = true <->
  exists c, In c (verification_codes st) /\
            usable (db_now e) ph otp purp c = true.
Proof.
  rewrite verify_exec, !Hcalm. unfold select_usable_codes.
  destruct (filter _ (verification_codes st)) as [|c cs] eqn:E; cbn [fst].
  - split; [discriminate|]. intros (c & Hin & Hc).
    assert (In c []) by (rewrite <- E; apply filter_In; tauto).
    contradiction.
  - split; [intros _|reflexivity].
    exists c. apply filter_In. rewrite E. left; reflexivity.
Qed.

(** On success the row selected is marked used, and rows with another
    identifier are as they were. *)
Lemma verify_marks_used ph otp purp st st' :
  exec (verifyOTP e ph otp purp) st = (true, st') ->
  exists c rest,
    select_usable_codes (db_now e) ph otp purp st = c :: rest /\
    st' = mark_used (code_id c) st /\
    (forall x, In x (verification_codes st') -> code_id x = code_id c ->
       is_used x = true).
Proof.
  rewrite verify_exec, !Hcalm.
  destruct (select_usable_codes (db_now e) ph otp purp st) as [|c cs];
    [discriminate|].
  intros H; inversion H; subst; clear H. exists c, cs.
  repeat split. intros x Hx Hid. unfold mark_used in Hx.
  cbn [verification_codes set_codes] in Hx.
  apply in_map_iff in Hx as (y & Ey & _).
  destruct (String.eqb_spec (code_id y) (code_id c)).
  - subst x. reflexivity.
  - subst x. contradiction.
Qed.

(** A code that is past its expiry is never accepted. *)
Lemma verify_expired ph otp purp st :
  (forall c, In c (verification_codes st) -> expires_at c <= db_now e) ->
  exec (verifyOTP e ph otp purp) st = (false, st).
Proof.
  intros Hexp. rewrite verify_exec, !Hcalm. unfold select_usable_codes.
  assert (E : filter (usable (db_now e) ph otp purp) (verification_codes st)
              = []).
  { induction (verification_codes st) as [|c cs IH]; [reflexivity|].
    cbn [filter]. unfold usable at 1.
    assert (Hc : (db_now e <? expires_at c) = false).
    { apply Z.ltb_ge. apply Hexp. left; reflexivity. }
    rewrite Hc, andb_false_r. cbn [andb].
    apply IH. intros x Hx. apply Hexp. right; exact Hx. }
  rewrite E. reflexivity.
Qed.

End Verify.

(** Served one after the other, the second verification of one issued
    code is refused. *)
Lemma verify_twice_in_turn :
  exists st',
    interleave [true; true; false; false]
      (verifyOTP Sample.e0 "+15550100" "246810" "LOGIN")
      (verifyOTP Sample.e1 "+15550100" "246810" "LOGIN") Sample.otp0
    = (Done true, Done false, st').
Proof. eexists. reflexivity. Qed.

(** C6 at its failing schedule: the [SELECT] and the [UPDATE] of
    [verifyOTP] are two statements and no transaction; when two calls with
    the one issued code both run their [SELECT] first, both answer
    [true]. *)
Lemma C6_both_verifications_succeed :
  exists st',
    List.length (verification_codes Sample.otp0) = 1%nat /\
    interleave [true; false; true; false]
      (verifyOTP Sample.e0 "+15550100" "246810" "LOGIN")
      (verifyOTP Sample.e1 "+15550100" "246810" "LOGIN") Sample.otp0
    = (Done true, Done true, st') /\
    map is_used (verification_codes st') = [true].
Proof. eexists. repeat split. Qed.

(* ------------------------------------------------------------------ *)
(** ** What the three writing routes keep *)

Lemma reserve_cases e userId lockerId duration st r st' :
  exec (reserveLocker e userId lockerId duration) st = (r, st') ->
  (http_status r <> 200 /\ st' = st) \/ http_status r = 200.
Proof.
  rewrite reserve_exec. intros H.
  destruct (negb (present lockerId) || negb (truthy duration)).
  { inversion H; subst; left; split; [discriminate|reflexivity]. }
  destruct (refused e 0).
  { inversion H; subst; left; split; [discriminate|reflexivity]. }
  destruct (select_available_locker lockerId st) as [|[l p] rest].
  { inversion H; subst; left; split; [discriminate|reflexivity]. }
  destruct (refused e 1).
  { inversion H; subst; left; split; [discriminate|reflexivity]. }
  destruct (reserve_body _ _ _ _ _ st) as [[r0 st0]|] eqn:Hb.
  - inversion H; subst.
    apply reserve_body_inv in Hb as (t & c & _ & _ & _ & _ & -> & _).
    right; reflexivity.
  - inversion H; subst; left; split; [discriminate|reflexivity].
Qed.

Lemma extend_cases e userId reservationId additionalHours st r st' :
  exec (extendReservation e userId reservationId additionalHours) st = (r, st') ->
  (http_status r <> 200 /\ st' = st) \/ http_status r = 200.
Proof.
  rewrite extend_exec. intros H.
  destruct (negb (present reservationId) || negb (truthy additionalHours)).
  { inversion H; subst; left; split; [discriminate|reflexivity]. }
  destruct (refused e 0).
  { inversion H; subst; left; split; [discriminate|reflexivity]. }
  destruct (select_active_priced reservationId userId st) as [|[res p] rest].
  { inversion H; subst; left; split; [discriminate|reflexivity]. }
  cbv zeta in H.
  destruct (stmt _ _ st) as [[[[rows ac] t] st0]|].
  - inversion H; subst. right; reflexivity.
  - inversion H; subst; left; split; [discriminate|reflexivity].
Qed.

(** X1: a request that is not answered 200 leaves every table as it was:
    the [ROLLBACK] of reserve and release undoes the locker update, and
    the one [UPDATE] of extend is all or nothing. *)
Theorem failed_request_changes_nothing e q st r st' :
  exec (handle e q) st = (r, st') ->
  http_status r <> 200 ->
  st' = st.
Proof.
  intros H Hne. destruct q as [u l d|u rid h|u rid]; cbn [handle] in H.
  - destruct (reserve_cases _ _ _ _ _ _ _ H) as [[_ E]|E]; [exact E|contradiction].
  - destruct (extend_cases _ _ _ _ _ _ _ H) as [[_ E]|E]; [exact E|contradiction].
  - destruct (release_cases _ _ _ _ _ _ H) as [[_ E]|(res & rest & _ & -> & _)];
      [exact E|]. exfalso; apply Hne; reflexivity.
Qed.

Lemma failed_request_changes_nothing_witness :
  snd (exec (handle Sample.e1 (Reserve "u2" "L1" (JNum 2 0))) Sample.st1)
  = Sample.st1.
Proof.
  apply (failed_request_changes_nothing Sample.e1 (Reserve "u2" "L1" (JNum 2 0))
           Sample.st1
           (fst (exec (handle Sample.e1 (Reserve "u2" "L1" (JNum 2 0)))
                      Sample.st1))).
  - vm_compute. reflexivity.
  - vm_compute. discriminate.
Defined.

(** *** The occupancy invariant *)

Lemma fresh_not_in e st :
  fresh_reservation_id e st = true ->
  ~ In (uuid e) (map reservation_id (reservations st)).
Proof.
  unfold fresh_reservation_id. intros H Hin.
  apply negb_true_iff in H.
  apply in_map_iff in Hin as (x & Hx & Hin).
  assert (E : existsb (fun r => String.eqb (reservation_id r) (uuid e))
                      (reservations st) = true).
  { apply existsb_exists. exists x. split; [exact Hin|].
    apply String.eqb_eq. exact Hx. }
  congruence.
Qed.

Lemma consistent_reserved e userId lockerId t c st locker price rest :
  consistent st ->
  select_available_locker lockerId st = (locker, price) :: rest ->
  fresh_reservation_id e st = true ->
  consistent (reserved_store e userId lockerId t c st).
Proof.
  intros [Hnd Hocc] Hsel Hfresh. split.
  - unfold reserved_store. cbn [reservations set_reservations].
    rewrite map_app. apply NoDup_app; [exact Hnd| |].
    + cbn. constructor; [intros []|constructor].
    + intros a Ha [<-|[]]. exact (fresh_not_in e st Hfresh Ha).
  - (* the locker that was selected has no ACTIVE reservation *)
    assert (Hfree : List.length (active_on st lockerId) = 0%nat).
    { assert (Hin : In (locker, price) (select_available_locker lockerId st))
        by (rewrite Hsel; left; reflexivity).
      unfold select_available_locker in Hin.
      apply in_flat_map in Hin as (l0 & Hl0 & Hp).
      apply filter_In in Hl0 as [Hl0 Hc].
      apply andb_prop in Hc as [Hid Hav]. apply String.eqb_eq in Hid.
      specialize (Hocc l0 Hl0). rewrite Hid in Hocc. rewrite Hocc.
      destruct (l_status l0); [reflexivity|discriminate|discriminate]. }
    intros l' Hl'.
    unfold reserved_store in Hl'.
    cbn [lockers set_reservations update_locker_status set_lockers] in Hl'.
    apply in_map_iff in Hl' as (l1 & El & Hl1).
    assert (Hact : forall x,
      active_on (reserved_store e userId lockerId t c st) x
      = (active_on st x
         ++ if String.eqb lockerId x
            then [new_reservation e userId lockerId t c] else [])%list).
    { intros x. unfold active_on, reserved_store.
      cbn [reservations set_reservations]. rewrite filter_app. f_equal.
      cbn [filter new_reservation r_locker_id status reservation_status_eqb].
      rewrite andb_true_r. reflexivity. }
    rewrite Hact, length_app.
    destruct (String.eqb_spec (locker_id l1) lockerId) as [E|E].
    + subst l'. cbn [with_status locker_id l_status]. rewrite E.
      rewrite String.eqb_refl, Hfree. reflexivity.
    + subst l'. rewrite (Hocc l1 Hl1).
      destruct (String.eqb_spec lockerId (locker_id l1)) as [E'|_];
        [symmetry in E'; contradiction|].
      cbn [List.length]. lia.
Qed.

(** Completing the one reservation with a given identifier. *)
Lemma complete_other now rid rs :
  ~ In rid (map reservation_id rs) ->
  map (fun x => if String.eqb (reservation_id x) rid
                then completed now x else x) rs = rs.
Proof.
  induction rs as [|r rs IH]; intros Hn; [reflexivity|].
  cbn [map]. destruct (String.eqb_spec (reservation_id r) rid) as [E|E].
  - exfalso. apply Hn. left. exact E.
  - f_equal. apply IH. intros H. apply Hn. right. exact H.
Qed.

Lemma active_after_complete now rid res x rs :
  NoDup (map reservation_id rs) -> In res rs ->
  reservation_id res = rid -> status res = ACTIVE ->
  (List.length
     (filter (fun r => String.eqb (r_locker_id r) x
                       && reservation_status_eqb (status r) ACTIVE)
        (map (fun y => if String.eqb (reservation_id y) rid
                       then completed now y else y) rs))
   + (if String.eqb (r_locker_id res) x then 1 else 0)
   = List.length
       (filter (fun r => String.eqb (r_locker_id r) x
                         && reservation_status_eqb (status r) ACTIVE) rs))%nat.
Proof.
  induction rs as [|r rs IH]; intros Hnd Hin Hid Hact; [contradiction|].
  cbn [map] in Hnd. apply NoDup_cons_iff in Hnd as [Hhd Hnd].
  cbn [map filter].
  destruct (String.eqb_spec (reservation_id r) rid) as [E|E].
  - assert (r = res).
    { destruct Hin as [Hin|Hin]; [exact Hin|].
      exfalso. apply Hhd. rewrite E, <- Hid. apply in_map. exact Hin. }
    subst r. rewrite complete_other by (rewrite <- E; exact Hhd).
    cbn [completed r_locker_id status reservation_status_eqb].
    rewrite andb_false_r, Hact. cbn [reservation_status_eqb].
    rewrite andb_true_r.
    destruct (String.eqb (r_locker_id res) x); cbn [List.length]; lia.
  - destruct Hin as [Hin|Hin]; [subst r; contradiction|].
    specialize (IH Hnd Hin Hid Hact).
    destruct (String.eqb (r_locker_id r) x
              && reservation_status_eqb (status r) ACTIVE);
      cbn [List.length]; lia.
Qed.

Lemma consistent_released e reservationId userId res rest st :
  consistent st ->
  select_active reservationId userId st = res :: rest ->
  consistent (released_store e reservationId res st).
Proof.
  intros [Hnd Hocc] Hsel.
  assert (Hin : In res (select_active reservationId userId st))
    by (rewrite Hsel; left; reflexivity).
  apply filter_In in Hin as [Hin Hact]. unfold is_active_of in Hact.
  apply andb_prop in Hact as [Hact Hst]. apply andb_prop in Hact as [Hid _].
  apply String.eqb_eq in Hid.
  assert (Hs : status res = ACTIVE)
    by (destruct (status res); [reflexivity|discriminate|discriminate]).
  split.
  - unfold released_store.
    cbn [reservations set_history update_locker_status set_lockers
         complete_reservation set_reservations].
    rewrite map_map.
    erewrite map_ext; [exact Hnd|].
    intros x. cbv beta.
    destruct (String.eqb (reservation_id x) reservationId); reflexivity.
  - intros l' Hl'. unfold released_store in Hl'.
    cbn [lockers set_history update_locker_status set_lockers
         complete_reservation set_reservations] in Hl'.
    apply in_map_iff in Hl' as (l1 & El & Hl1).
    assert (Hlen := fun x =>
      active_after_complete (db_now e) reservationId res x (reservations st)
        Hnd Hin Hid Hs).
    assert (Hact' : forall x,
      active_on (released_store e reservationId res st) x
      = filter (fun r => String.eqb (r_locker_id r) x
                         && reservation_status_eqb (status r) ACTIVE)
          (map (fun y => if String.eqb (reservation_id y) reservationId
                         then completed (db_now e) y else y)
               (reservations st))) by reflexivity.
    rewrite Hact'. specialize (Hocc l1 Hl1). unfold active_on in Hocc.
    destruct (String.eqb_spec (locker_id l1) (r_locker_id res)) as [E|E].
    + subst l'. cbn [with_status locker_id l_status].
      specialize (Hlen (locker_id l1)). rewrite Hocc in Hlen.
      rewrite E, String.eqb_refl in Hlen. rewrite E in *.
      destruct (l_status l1); lia.
    + subst l'. specialize (Hlen (locker_id l1)). rewrite Hocc in Hlen.
      destruct (String.eqb_spec (r_locker_id res) (locker_id l1)) as [E'|_];
        [symmetry in E'; contradiction|].
      rewrite <- Hlen. lia.
Qed.

Lemma frame_ids_and_active rs rs' :
  Forall2 same_frame rs rs' ->
  map reservation_id rs' = map reservation_id rs /\
  forall x,
    List.length
      (filter (fun r => String.eqb (r_locker_id r) x
                        && reservation_status_eqb (status r) ACTIVE) rs')
    = List.length
        (filter (fun r => String.eqb (r_locker_id r) x
                          && reservation_status_eqb (status r) ACTIVE) rs).
Proof.
  induction 1 as [|r r' rs rs' Hf _ [IH1 IH2]].
  - split; reflexivity.
  - destruct Hf as (H1 & _ & H3 & _ & _ & _ & H7 & _). split.
    + cbn [map]. rewrite H1, IH1. reflexivity.
    + intros x. cbn [filter]. rewrite H3, H7.
      destruct (String.eqb (r_locker_id r) x
                && reservation_status_eqb (status r) ACTIVE);
        cbn [List.length]; rewrite IH2; reflexivity.
Qed.

Lemma handle_keeps_consistent e q st :
  consistent st -> consistent (snd (exec (handle e q) st)).
Proof.
  intros Hc. destruct (exec (handle e q) st) as [r st'] eqn:H. cbn [snd].
  destruct q as [u l d|u rid h|u rid]; cbn [handle] in H.
  - destruct (reserve_cases _ _ _ _ _ _ _ H) as [[_ ->]|H200]; [exact Hc|].
    destruct (reserve_200_inv _ _ _ _ _ _ _ H H200)
      as (lk & p & rest & n & t & _ & _ & Hs & _ & _ & _ & Hf & _ & ->).
    eapply consistent_reserved; eassumption.
  - destruct (extend_cases _ _ _ _ _ _ _ H) as [[_ ->]|H200]; [exact Hc|].
    destruct (extend_selected _ _ _ _ _ _ _ H H200)
      as (res & res' & p & n & row & _ & _ & _ & _ & _ & _ & HF & Hl & _).
    assert (HF' : Forall2 same_frame (reservations st) (reservations st')).
    { eapply Forall2_impl; [|exact HF]. intros a b. apply extended_to_frame. }
    destruct (frame_ids_and_active _ _ HF') as [Hids Hlen].
    destruct Hc as [Hnd Hocc]. split.
    + rewrite Hids. exact Hnd.
    + intros l0 Hl0. rewrite Hl in Hl0. unfold active_on.
      rewrite Hlen. apply Hocc. exact Hl0.
  - destruct (release_cases _ _ _ _ _ _ H)
      as [[_ ->]|(res & rest & Hs & _ & ->)]; [exact Hc|].
    eapply consistent_released; eassumption.
Qed.

(** X2: served one after the other, reserve, extend and release requests
    keep the store consistent: reservation identifiers stay distinct and
    every locker is OCCUPIED exactly when one ACTIVE reservation references
    it, and has none otherwise. *)
Theorem serve_keeps_consistent qs : forall st,
  consistent st -> consistent (serve qs st).
Proof.
  induction qs as [|[e q] qs IH]; intros st Hc; cbn [serve].
  - exact Hc.
  - apply IH. apply handle_keeps_consistent. exact Hc.
Qed.

Lemma serve_keeps_consistent_witness :
  consistent
    (serve [(Sample.e0, Reserve "u1" "L1" (JNum 3 0));
            (Sample.e1, Extend "u1" "R1" (JNum 2 0));
            (Sample.e1, Reserve "u2" "L1" (JNum 1 0));
            (Sample.e2, Release "u1" "R1")] Sample.st0).
Proof.
  apply (serve_keeps_consistent
           [(Sample.e0, Reserve "u1" "L1" (JNum 3 0));
            (Sample.e1, Extend "u1" "R1" (JNum 2 0));
            (Sample.e1, Reserve "u2" "L1" (JNum 1 0));
            (Sample.e2, Release "u1" "R1")] Sample.st0).
  split; [constructor|].
  intros l [<-|[]]. reflexivity.
Defined.

(** *** Terminal reservations *)

Lemma rows_of_unchanged rid (R : reservation -> reservation -> Prop) rs rs' :
  (forall x x', R x x' -> reservation_id x' = reservation_id x) ->
  (forall x x', R x x' -> reservation_id x = rid -> x' = x) ->
  Forall2 R rs rs' ->
  filter (fun x => String.eqb (reservation_id x) rid) rs'
  = filter (fun x => String.eqb (reservation_id x) rid) rs.
Proof.
  intros HR Hrid. induction 1 as [|x x' rs rs' Hx _ IH]; [reflexivity|].
  cbn [filter]. rewrite (HR _ _ Hx).
  destruct (String.eqb_spec (reservation_id x) rid) as [E|E].
  - rewrite (Hrid _ _ Hx E), IH. reflexivity.
  - exact IH.
Qed.

Lemma final_no_active rid st u :
  final rid st -> select_active rid u st = [].
Proof.
  intros [_ Hf]. unfold select_active, rows_of in *.
  induction (reservations st) as [|x xs IH]; [reflexivity|].
  cbn [filter] in *. unfold is_active_of at 1.
  destruct (String.eqb (reservation_id x) rid) eqn:E.
  - apply Forall_cons_iff in Hf as [Hx Hf].
    destruct (status x); [contradiction| |]; cbn [reservation_status_eqb];
      rewrite andb_false_r; apply IH; exact Hf.
  - cbn [andb]. apply IH. exact Hf.
Qed.

Lemma select_active_priced_nil rid u st :
  select_active rid u st = [] -> select_active_priced rid u st = [].
Proof.
  unfold select_active, select_active_priced. intros ->. reflexivity.
Qed.

(** The rows of a final reservation are left alone by every request. *)
Lemma handle_keeps_rows rid e q st :
  final rid st ->
  rows_of rid (snd (exec (handle e q) st)) = rows_of rid st.
Proof.
  intros Hfin. destruct (exec (handle e q) st) as [r st'] eqn:H. cbn [snd].
  destruct q as [u l d|u rid' h|u rid']; cbn [handle] in H.
  - destruct (reserve_cases _ _ _ _ _ _ _ H) as [[_ ->]|H200]; [reflexivity|].
    destruct (reserve_200_inv _ _ _ _ _ _ _ H H200)
      as (lk & p & rest & n & t & _ & _ & _ & _ & _ & _ & Hf & _ & ->).
    unfold rows_of, reserved_store. cbn [reservations set_reservations].
    rewrite filter_app. cbn [filter new_reservation reservation_id].
    destruct (String.eqb_spec (uuid e) rid) as [E|E]; [|apply app_nil_r].
    exfalso. apply (fresh_not_in e st Hf). rewrite E.
    destruct Hfin as [Hne _]. unfold rows_of in Hne.
    destruct (filter _ (reservations st)) as [|x xs] eqn:Ef; [contradiction|].
    assert (Hx : In x (filter (fun y => String.eqb (reservation_id y) rid)
                              (reservations st)))
      by (rewrite Ef; left; reflexivity).
    apply filter_In in Hx as [Hx Hid]. apply String.eqb_eq in Hid.
    rewrite <- Hid. apply in_map. exact Hx.
  - destruct (extend_cases _ _ _ _ _ _ _ H) as [[_ ->]|H200]; [reflexivity|].
    destruct (extend_selected _ _ _ _ _ _ _ H H200)
      as (res & res' & p & n & row & Hs & _ & _ & _ & _ & _ & HF & _).
    assert (Hne : rid' <> rid).
    { intros ->. pose proof (final_no_active rid st u Hfin) as Hno.
      apply select_active_priced_nil in Hno. rewrite Hno in Hs.
      discriminate. }
    unfold rows_of. eapply rows_of_unchanged; [| |exact HF].
    + intros x x' Hx. apply extended_to_frame in Hx. apply Hx.
    + intros x x' Hx Hid. unfold extended_to in Hx.
      destruct (String.eqb_spec (reservation_id x) rid') as [E|E];
        [congruence|exact Hx].
  - destruct (release_cases _ _ _ _ _ _ H)
      as [[_ ->]|(res & rest & Hs & _ & ->)]; [reflexivity|].
    assert (Hne : rid' <> rid).
    { intros ->. rewrite (final_no_active rid st u Hfin) in Hs.
      discriminate. }
    unfold rows_of, released_store.
    cbn [reservations set_history update_locker_status set_lockers
         complete_reservation set_reservations].
    induction (reservations st) as [|x xs IH]; [reflexivity|].
    cbn [map filter].
    destruct (String.eqb_spec (reservation_id x) rid') as [E|E].
    + cbn [completed reservation_id]. rewrite E.
      destruct (String.eqb_spec rid' rid); [contradiction|]. exact IH.
    + rewrite IH. reflexivity.
Qed.

(** X3: a reservation none of whose rows is ACTIVE (COMPLETED or
    CANCELLED) is final: whatever reserve, extend and release requests are
    served afterwards, its rows stay exactly as they are. *)
Theorem final_reservation_never_changes rid qs : forall st,
  final rid st ->
  rows_of rid (serve qs st) = rows_of rid st.
Proof.
  induction qs as [|[e q] qs IH]; intros st Hfin; cbn [serve]; [reflexivity|].
  pose proof (handle_keeps_rows rid e q st Hfin) as Hk.
  rewrite IH.
  - exact Hk.
  - unfold final. rewrite Hk. exact Hfin.
Qed.

Lemma final_reservation_never_changes_witness :
  rows_of "R1"
    (serve [(Sample.e1, Extend "u1" "R1" (JNum 2 0));
            (Sample.e1, Reserve "u2" "L1" (JNum 1 0));
            (Sample.e2, Release "u1" "R1")] Sample.st2)
  = rows_of "R1" Sample.st2.
Proof.
  apply (final_reservation_never_changes "R1"
           [(Sample.e1, Extend "u1" "R1" (JNum 2 0));
            (Sample.e1, Reserve "u2" "L1" (JNum 1 0));
            (Sample.e2, Release "u1" "R1")] Sample.st2).
  split; [discriminate|].
  repeat constructor. discriminate.
Defined.

Lemma release_makes_final e userId rid st r st' :
  exec (releaseLocker e userId rid) st = (r, st') ->
  http_status r = 200 ->
  final rid st' /\ Forall (fun x => status x = COMPLETED) (rows_of rid st').
Proof.
  intros H H200.
  destruct (release_cases _ _ _ _ _ _ H)
    as [[Hne _]|(res & rest & Hs & _ & ->)]; [contradiction|].
  assert (Hin : In res (select_active rid userId st))
    by (rewrite Hs; left; reflexivity).
  apply filter_In in Hin as [Hin Hact]. unfold is_active_of in Hact.
  apply andb_prop in Hact as [Hact _]. apply andb_prop in Hact as [Hid _].
  assert (Hall : Forall (fun x => status x = COMPLETED)
                        (rows_of rid (released_store e rid res st))).
  { unfold rows_of, released_store.
    cbn [reservations set_history update_locker_status set_lockers
         complete_reservation set_reservations].
    apply Forall_forall. intros x Hx. apply filter_In in Hx as [Hx Hxid].
    apply in_map_iff in Hx as (y & Ey & _).
    destruct (String.eqb (reservation_id y) rid) eqn:E.
    - subst x. reflexivity.
    - subst x. congruence. }
  split; [split|exact Hall].
  - unfold rows_of, released_store.
    cbn [reservations set_history update_locker_status set_lockers
         complete_reservation set_reservations].
    intros Hnil.
    assert (Hc : In (completed (db_now e) res)
                    (filter (fun x => String.eqb (reservation_id x) rid)
                       (map (fun r0 => if String.eqb (reservation_id r0) rid
                                       then completed (db_now e) r0 else r0)
                            (reservations st)))).
    { apply filter_In. split; [|exact Hid].
      apply in_map_iff. exists res. rewrite Hid. split; [reflexivity|exact Hin]. }
    rewrite Hnil in Hc. contradiction.
  - eapply Forall_impl; [|exact Hall]. intros x ->. discriminate.
Qed.

(** X4: after a successful release, no later release and no later extend of
    that reservation is answered 200, by whatever user and whatever other
    requests are served in between, and its rows stay COMPLETED as the
    release left them. *)
Theorem released_reservation_stays_closed
    e userId rid st r st' qs e2 userId2 additionalHours :
  exec (releaseLocker e userId rid) st = (r, st') ->
  http_status r = 200 ->
  rows_of rid (serve qs st') = rows_of rid st' /\
  Forall (fun x => status x = COMPLETED) (rows_of rid (serve qs st')) /\
  http_status (fst (exec (releaseLocker e2 userId2 rid) (serve qs st'))) <> 200 /\
  http_status (fst (exec (extendReservation e2 userId2 rid additionalHours)
                         (serve qs st'))) <> 200.
Proof.
  intros H H200.
  destruct (release_makes_final _ _ _ _ _ _ H H200) as [Hfin Hall].
  assert (Hrows : rows_of rid (serve qs st') = rows_of rid st').
  { clear -Hfin. revert st' Hfin.
    induction qs as [|[e q] qs IH]; intros st Hfin; cbn [serve]; [reflexivity|].
    pose proof (handle_keeps_rows rid e q st Hfin) as Hk.
    rewrite IH; [exact Hk|]. unfold final. rewrite Hk. exact Hfin. }
  assert (Hfin2 : final rid (serve qs st'))
    by (unfold final; rewrite Hrows; exact Hfin).
  split; [exact Hrows|]. split; [rewrite Hrows; exact Hall|].
  split.
  - rewrite release_exec, (final_no_active rid _ userId2 Hfin2).
    destruct (refused e2 0); discriminate.
  - rewrite extend_exec.
    rewrite (select_active_priced_nil _ _ _ (final_no_active rid _ userId2 Hfin2)).
    destruct (negb (present rid) || negb (truthy additionalHours));
      [discriminate|].
    destruct (refused e2 0); discriminate.
Qed.

Lemma released_reservation_stays_closed_witness :
  let st' := snd (exec (releaseLocker Sample.e1 "u1" "R1") Sample.st1) in
  let qs := [(Sample.e2, Reserve "u2" "L1" (JNum 1 0))] in
  rows_of "R1" (serve qs st') = rows_of "R1" st' /\
  Forall (fun x => status x = COMPLETED) (rows_of "R1" (serve qs st')) /\
  http_status (fst (exec (releaseLocker Sample.e0 "u1" "R1") (serve qs st')))
    <> 200 /\
  http_status (fst (exec (extendReservation Sample.e0 "u1" "R1" (JNum 1 0))
                         (serve qs st'))) <> 200.
Proof.
  cbv zeta.
  apply (released_reservation_stays_closed Sample.e1 "u1" "R1" Sample.st1
           (fst (exec (releaseLocker Sample.e1 "u1" "R1") Sample.st1))).
  - vm_compute. reflexivity.
  - reflexivity.
Defined.

(** *** What is never removed *)

(** In the lists of the embedding a request adds its rows at the end. *)
Lemma handle_only_appends e q st :
  let st' := snd (exec (handle e q) st) in
  (exists ids, map reservation_id (reservations st')
               = (map reservation_id (reservations st) ++ ids)%list) /\
  (exists hs, reservation_history st' = (reservation_history st ++ hs)%list) /\
  map (fun l => (locker_id l, l_size_id l)) (lockers st')
  = map (fun l => (locker_id l, l_size_id l)) (lockers st) /\
  locker_sizes st' = locker_sizes st /\
  verification_codes st' = verification_codes st.
Proof.
  cbv zeta. destruct (exec (handle e q) st) as [r st'] eqn:H. cbn [snd].
  assert (Hsame : st' = st ->
    (exists ids, map reservation_id (reservations st')
                 = (map reservation_id (reservations st) ++ ids)%list) /\
    (exists hs, reservation_history st' = (reservation_history st ++ hs)%list) /\
    map (fun l => (locker_id l, l_size_id l)) (lockers st')
    = map (fun l => (locker_id l, l_size_id l)) (lockers st) /\
    locker_sizes st' = locker_sizes st /\
    verification_codes st' = verification_codes st).
  { intros ->. repeat split; try (exists []; rewrite app_nil_r; reflexivity). }
  assert (Hlk : forall s lid ls,
    map (fun l => (locker_id l, l_size_id l))
        (map (fun l => if String.eqb (locker_id l) lid
                       then with_status s l else l) ls)
    = map (fun l => (locker_id l, l_size_id l)) ls).
  { intros s lid ls. rewrite !map_map. apply map_ext; intros l;
      destruct (String.eqb (locker_id l) lid); reflexivity. }
  destruct q as [u l d|u rid h|u rid]; cbn [handle] in H.
  - destruct (reserve_cases _ _ _ _ _ _ _ H) as [[_ E]|H200]; [auto|].
    destruct (reserve_200_inv _ _ _ _ _ _ _ H H200)
      as (lk & p & rest & n & t & _ & _ & _ & _ & _ & _ & _ & _ & ->).
    unfold reserved_store.
    cbn [reservations lockers reservation_history locker_sizes
         verification_codes set_reservations update_locker_status set_lockers].
    pose proof (Hlk OCCUPIED l (lockers st)) as H1.
    repeat split; auto.
    + eexists. rewrite map_app. reflexivity.
    + exists []. rewrite app_nil_r. reflexivity.
  - destruct (extend_cases _ _ _ _ _ _ _ H) as [[_ E]|H200]; [auto|].
    destruct (extend_selected _ _ _ _ _ _ _ H H200)
      as (res & res' & p & n & row & _ & _ & _ & _ & _ & _ & HF & Hl & Hz
          & Hh & Hv).
    assert (HF' : Forall2 same_frame (reservations st) (reservations st')).
    { eapply Forall2_impl; [|exact HF]. intros a b. apply extended_to_frame. }
    destruct (frame_ids_and_active _ _ HF') as [Hids _].
    rewrite Hids, Hl, Hz, Hh, Hv. repeat split.
    + exists []. rewrite app_nil_r. reflexivity.
    + exists []. rewrite app_nil_r. reflexivity.
  - destruct (release_cases _ _ _ _ _ _ H)
      as [[_ E]|(res & rest & _ & _ & ->)]; [auto|].
    unfold released_store.
    cbn [reservations lockers reservation_history locker_sizes
         verification_codes set_history update_locker_status set_lockers
         complete_reservation set_reservations].
    pose proof (Hlk AVAILABLE (r_locker_id res) (lockers st)) as H1.
    repeat split; auto.
    + exists []. rewrite app_nil_r, map_map. apply map_ext. intros x.
      destruct (String.eqb (reservation_id x) rid); reflexivity.
    + eexists. reflexivity.
Qed.

Lemma serve_lists qs : forall st,
  (exists ids, map reservation_id (reservations (serve qs st))
               = (map reservation_id (reservations st) ++ ids)%list) /\
  (exists hs, reservation_history (serve qs st)
              = (reservation_history st ++ hs)%list) /\
  map (fun l => (locker_id l, l_size_id l)) (lockers (serve qs st))
  = map (fun l => (locker_id l, l_size_id l)) (lockers st) /\
  locker_sizes (serve qs st) = locker_sizes st /\
  verification_codes (serve qs st) = verification_codes st.
Proof.
  induction qs as [|[e q] qs IH]; intros st; cbn [serve].
  - repeat split; try (exists []; rewrite app_nil_r; reflexivity).
  - destruct (handle_only_appends e q st)
      as ([ids1 H1] & [hs1 H2] & H3 & H5 & H6).
    destruct (IH (snd (exec (handle e q) st)))
      as ([ids2 I1] & [hs2 I2] & I3 & I5 & I6).
    rewrite I1, I2, I3, I5, I6, H1, H2, H3, H5, H6.
    repeat split.
    + exists (ids1 ++ ids2)%list. rewrite app_assoc. reflexivity.
    + exists (hs1 ++ hs2)%list. rewrite app_assoc. reflexivity.
Qed.

(** X5: whatever reserve, extend and release requests are served, no
    reservation and no history record is ever deleted: the reservation
    identifiers and the history records after the requests are those from
    before, each as many times, and the ones added (so no history record
    is rewritten either); no locker is added, removed or given another
    identifier or size; and the prices and the verification codes are not
    touched. *)
Theorem serve_never_deletes qs : forall st,
  (exists ids,
     Permutation (map reservation_id (reservations (serve qs st)))
                 (map reservation_id (reservations st) ++ ids)) /\
  (exists hs,
     Permutation (reservation_history (serve qs st))
                 (reservation_history st ++ hs)) /\
  Permutation (map (fun l => (locker_id l, l_size_id l))
                   (lockers (serve qs st)))
              (map (fun l => (locker_id l, l_size_id l)) (lockers st)) /\
  locker_sizes (serve qs st) = locker_sizes st /\
  verification_codes (serve qs st) = verification_codes st.
Proof.
  intros st.
  destruct (serve_lists qs st) as ([ids H1] & [hs H2] & H3 & H4 & H5).
  split; [exists ids; rewrite H1; apply Permutation_refl|].
  split; [exists hs; rewrite H2; apply Permutation_refl|].
  split; [rewrite H3; apply Permutation_refl|].
  split; assumption.
Qed.

(** *** Reserve, then release *)

Lemma select_active_fresh e userId lockerId t c st :
  fresh_reservation_id e st = true ->
  select_active (uuid e) userId (reserved_store e userId lockerId t c st)
  = [new_reservation e userId lockerId t c].
Proof.
  intros Hf. unfold select_active, reserved_store.
  cbn [reservations set_reservations]. rewrite filter_app.
  assert (E : filter (is_active_of (uuid e) userId) (reservations st) = []).
  { pose proof (fresh_not_in e st Hf) as Hn.
    induction (reservations st) as [|x xs IH]; [reflexivity|].
    cbn [filter]. unfold is_active_of at 1.
    destruct (String.eqb_spec (reservation_id x) (uuid e)) as [E|E].
    - exfalso. apply Hn. left. exact E.
    - cbn [andb]. apply IH. intros H. apply Hn. right. exact H. }
  rewrite E. cbn [app filter]. unfold is_active_of.
  cbn [new_reservation reservation_id user_id status reservation_status_eqb].
  rewrite !String.eqb_refl. reflexivity.
Qed.

Lemma occupy_then_free lid ls l0 :
  NoDup (map locker_id ls) -> In l0 ls -> locker_id l0 = lid ->
  l_status l0 = AVAILABLE ->
  map (fun l => if String.eqb (locker_id l) lid
                then with_status AVAILABLE l else l)
      (map (fun l => if String.eqb (locker_id l) lid
                     then with_status OCCUPIED l else l) ls) = ls.
Proof.
  intros Hnd Hin Hid Hav. rewrite map_map.
  rewrite <- (map_id ls) at 2. apply map_ext_in. intros l Hl.
  destruct (String.eqb_spec (locker_id l) lid) as [E|E].
  - cbn [with_status locker_id]. rewrite E, String.eqb_refl.
    assert (l = l0).
    { clear Hav. induction ls as [|a ls IH]; [contradiction|].
      cbn [map] in Hnd. apply NoDup_cons_iff in Hnd as [Hhd Hnd].
      destruct Hl as [<-|Hl], Hin as [<-|Hin]; auto.
      - exfalso. apply Hhd. rewrite E, <- Hid. apply in_map. exact Hin.
      - exfalso. apply Hhd. rewrite Hid, <- E. apply in_map. exact Hl. }
    subst l0. destruct l as [i s stt]. cbn in *. subst stt. reflexivity.
  - destruct (String.eqb_spec (locker_id l) lid); [contradiction|reflexivity].
Qed.

(** X6: a reservation that has just been made (its locker is then
    OCCUPIED) can be released by its user, and the release takes everything
    back but the record: the lockers are again those from before the
    reserve, the reservations are those from before and the new one, now
    with status COMPLETED and actual_end_time = NOW() and its other columns
    as reserved, and the history is the one from before and one record for
    the reservation, with its start_time and total_cost, the handler's
    clock as end_time and the hours between the two, rounded up. *)
Theorem reserve_then_release_restores_lockers
    e1 userId lockerId duration st r1 st1 e2 :
  NoDup (map locker_id (lockers st)) ->
  exec (reserveLocker e1 userId lockerId duration) st = (r1, st1) ->
  http_status r1 = 200 ->
  calm e2 ->
  fits_timestamp (app_clock e2 0%nat) = true ->
  fits_int4 (ceil_hours (app_time e2 0%nat)
                        (time_of_local e2 (app_clock e1 0%nat))) = true ->
  existsb (fun x => String.eqb (history_id x) (uuid e2))
          (reservation_history st) = false ->
  exists st2 row ac t row' h,
    data r1 = Reserved row ac t /\
    (forall l, In l (lockers st1) -> locker_id l = lockerId ->
               l_status l = OCCUPIED) /\
    exec (releaseLocker e2 userId (reservation_id row)) st1
      = (ok "Locker released successfully" NoData, st2) /\
    Permutation (lockers st2) (lockers st) /\
    Permutation (reservations st2) (row' :: reservations st) /\
    completed_at (db_now e2) row row' /\
    Permutation (reservation_history st2) (h :: reservation_history st) /\
    history_id h = uuid e2 /\ h_reservation_id h = reservation_id row /\
    h_start_time h = start_time row /\ h_end_time h = app_clock e2 0%nat /\
    (total_hours h - 1) * hour_ms
      < app_time e2 0%nat - time_of_local e2 (start_time row)
      <= total_hours h * hour_ms /\
    h_total_cost h = total_cost row.
Proof.
  intros Hnd H H200 Hcalm Hend Hint Hhist.
  destruct (reserve_200_inv _ _ _ _ _ _ _ H H200)
    as (lk & p & rest & n & t & _ & _ & Hsel & Hn & Hadd & Hfit & Hf & Hr1
        & Hst1).
  destruct (reserve_200_range _ _ _ _ _ _ _ _ _ H H200 Hn Hadd) as [Hstart _].
  subst r1 st1.
  set (row := new_reservation e1 userId lockerId t (p * n)).
  exists (released_store e2 (uuid e1) row
            (reserved_store e1 userId lockerId t (p * n) st)),
         row, (random_code e1), t, (completed (db_now e2) row),
         (history_row e2 (uuid e1) row).
  split; [reflexivity|].
  split.
  { unfold reserved_store.
    cbn [lockers set_reservations update_locker_status set_lockers].
    intros l Hl Hid. apply in_map_iff in Hl as (l1 & El & _).
    destruct (String.eqb_spec (locker_id l1) lockerId) as [E|E].
    - subst l. reflexivity.
    - subst l. contradiction. }
  assert (Hres : select_active (uuid e1) userId
                   (reserved_store e1 userId lockerId t (p * n) st) = [row])
    by (apply select_active_fresh; exact Hf).
  split.
  { cbn [reservation_id row new_reservation].
    rewrite release_exec, !Hcalm, Hres.
    rewrite (release_body_calm e2 (uuid e1) row _ Hcalm);
      [reflexivity|exact Hstart|exact Hend|exact Hint|exact Hfit|exact Hhist]. }
  unfold released_store, reserved_store, history_row.
  cbn [reservations lockers reservation_history set_history
       update_locker_status set_lockers complete_reservation set_reservations
       history_id h_reservation_id h_start_time h_end_time total_hours
       h_total_cost].
  split.
  { cbn [r_locker_id row new_reservation].
    assert (Hin : In (lk, p) (select_available_locker lockerId st))
      by (rewrite Hsel; left; reflexivity).
    unfold select_available_locker in Hin.
    apply in_flat_map in Hin as (l0 & Hl0 & _).
    apply filter_In in Hl0 as [Hl0 Hc].
    apply andb_prop in Hc as [Hid Hav]. apply String.eqb_eq in Hid.
    rewrite (occupy_then_free lockerId (lockers st) l0 Hnd Hl0 Hid).
    - apply Permutation_refl.
    - destruct (l_status l0); [reflexivity|discriminate|discriminate]. }
  split.
  { rewrite map_app. cbn [map row new_reservation reservation_id].
    rewrite String.eqb_refl.
    rewrite complete_other by (apply fresh_not_in; exact Hf).
    apply Permutation_sym. apply Permutation_cons_append. }
  split; [unfold completed_at, completed; cbn; repeat split|].
  split; [apply Permutation_sym; apply Permutation_cons_append|].
  repeat (split; [reflexivity|]).
  split; [|reflexivity].
  split; apply ceil_hours_spec.
Qed.

Lemma reserve_then_release_restores_lockers_witness :
  exists st2 row ac t row' h,
    data (fst (exec (reserveLocker Sample.e0 "u1" "L1" (JNum 3 0)) Sample.st0))
      = Reserved row ac t /\
    (forall l,
       In l (lockers (snd (exec (reserveLocker Sample.e0 "u1" "L1" (JNum 3 0))
                                Sample.st0))) ->
       locker_id l = "L1" -> l_status l = OCCUPIED) /\
    exec (releaseLocker Sample.e1 "u1" (reservation_id row))
         (snd (exec (reserveLocker Sample.e0 "u1" "L1" (JNum 3 0)) Sample.st0))
      = (ok "Locker released successfully" NoData, st2) /\
    Permutation (lockers st2) (lockers Sample.st0) /\
    Permutation (reservations st2) (row' :: reservations Sample.st0) /\
    completed_at (db_now Sample.e1) row row' /\
    Permutation (reservation_history st2)
                (h :: reservation_history Sample.st0) /\
    history_id h = uuid Sample.e1 /\ h_reservation_id h = reservation_id row /\
    h_start_time h = start_time row /\
    h_end_time h = app_clock Sample.e1 0%nat /\
    (total_hours h - 1) * hour_ms
      < app_time Sample.e1 0%nat - time_of_local Sample.e1 (start_time row)
      <= total_hours h * hour_ms /\
    h_total_cost h = total_cost row.
Proof.
  apply (reserve_then_release_restores_lockers Sample.e0 "u1" "L1" (JNum 3 0)
           Sample.st0
           (fst (exec (reserveLocker Sample.e0 "u1" "L1" (JNum 3 0)) Sample.st0))
           (snd (exec (reserveLocker Sample.e0 "u1" "L1" (JNum 3 0)) Sample.st0))
           Sample.e1).
  - repeat constructor. intros [].
  - vm_compute. reflexivity.
  - reflexivity.
  - intros i. reflexivity.
  - reflexivity.
  - reflexivity.
  - reflexivity.
Defined.

(* ------------------------------------------------------------------ *)
(** ** The listing of a user's reservations *)

(** X7: in the listing, minutes_left is never negative and is the whole
    minutes until expected_end_time; expiring_soon is set exactly when at
    least one full minute and less than fifteen are left, so a reservation
    in its last minute, or past its end, is not marked. *)
Theorem listing_flags now r :
  let l := list_reservation now r in
  let left := expected_end_time r - now in
  0 <= minutes_left l /\
  (expiring_soon l = true <-> 60000 <= left < 900000) /\
  (minutes_left l = 0 <-> left < 60000) /\
  (60000 <= left ->
   minutes_left l * 60000 <= left < (minutes_left l + 1) * 60000).
Proof.
  cbv zeta. unfold list_reservation.
  cbn [minutes_left expiring_soon].
  change (1000 * 60) with 60000.
  set (left := expected_end_time r - now).
  pose proof (Z.div_mod left 60000 ltac:(lia)) as Hd.
  pose proof (Z.mod_pos_bound left 60000 ltac:(lia)) as Hm.
  destruct (0 <? left / 60000) eqn:Hpos.
  - apply Z.ltb_lt in Hpos. rewrite andb_true_r.
    split; [lia|]. split; [|split; [split; lia|intros; lia]].
    split; intros H; [apply Z.ltb_lt in H; lia|apply Z.ltb_lt; lia].
  - apply Z.ltb_ge in Hpos. rewrite andb_false_r.
    split; [lia|]. split; [|split; [split; intros; lia|intros; lia]].
    split; [discriminate|intros; lia].
Qed.

(** X8: the listing reads expected_end_time only: after a successful
    extension the extended reservation is listed with the same
    expiring_soon and minutes_left as before, and once the original end has
    passed it shows 0 minutes left although the extended end is later. *)
Theorem listing_ignores_extension
    e userId reservationId additionalHours st r st' now :
  exec (extendReservation e userId reservationId additionalHours) st = (r, st') ->
  http_status r = 200 ->
  exists res res' price,
    hd_error (select_active_priced reservationId userId st) = Some (res, price) /\
    hd_error (select_active_priced reservationId userId st') = Some (res', price) /\
    expiring_soon (list_reservation now res')
      = expiring_soon (list_reservation now res) /\
    minutes_left (list_reservation now res')
      = minutes_left (list_reservation now res) /\
    (expected_end_time res <= now ->
     minutes_left (list_reservation now res') = 0 /\
     expiring_soon (list_reservation now res') = false).
Proof.
  intros H H200.
  destruct (extend_selected _ _ _ _ _ _ _ H H200)
    as (res & res' & price & n & row & Hs & Hs' & _ & Hrow & _).
  apply extend_row_frame in Hrow as (Hfr & _).
  destruct Hfr as (_ & _ & _ & _ & Hexp & _).
  exists res, res', price. split; [exact Hs|]. split; [exact Hs'|].
  unfold list_reservation. cbn [expiring_soon minutes_left]. rewrite Hexp.
  split; [reflexivity|]. split; [reflexivity|].
  intros Hpast. change (1000 * 60) with 60000.
  assert (Hq : (expected_end_time res - now) / 60000 <= 0).
  { apply Z.lt_succ_r. apply Z.div_lt_upper_bound; lia. }
  destruct (0 <? (expected_end_time res - now) / 60000) eqn:Hpos.
  - apply Z.ltb_lt in Hpos. lia.
  - rewrite andb_false_r. split; reflexivity.
Qed.

Lemma listing_ignores_extension_witness :
  exists res res' price,
    hd_error (select_active_priced "R1" "u1" Sample.st1) = Some (res, price) /\
    hd_error (select_active_priced "R1" "u1"
                (snd (exec (extendReservation Sample.e1 "u1" "R1" (JNum 2 0))
                           Sample.st1)))
      = Some (res', price) /\
    expiring_soon (list_reservation (Sample.t0 + 4 * hour_ms) res')
      = expiring_soon (list_reservation (Sample.t0 + 4 * hour_ms) res) /\
    minutes_left (list_reservation (Sample.t0 + 4 * hour_ms) res')
      = minutes_left (list_reservation (Sample.t0 + 4 * hour_ms) res) /\
    (expected_end_time res <= Sample.t0 + 4 * hour_ms ->
     minutes_left (list_reservation (Sample.t0 + 4 * hour_ms) res') = 0 /\
     expiring_soon (list_reservation (Sample.t0 + 4 * hour_ms) res') = false).
Proof.
  apply (listing_ignores_extension Sample.e1 "u1" "R1" (JNum 2 0) Sample.st1
           (fst (exec (extendReservation Sample.e1 "u1" "R1" (JNum 2 0))
                      Sample.st1))).
  - vm_compute. reflexivity.
  - reflexivity.
Defined.

(* ------------------------------------------------------------------ *)
(** ** Issuing and verifying codes, one call after the other *)

Lemma varchar_fits n s : (String.length s <= n)%nat -> varchar n s = Some s.
Proof.
  intros H. unfold varchar. apply Nat.leb_le in H. rewrite H. reflexivity.
Qed.

Lemma issue_exec e ph userId purp st :
  exec (generateAndStoreOTP e ph userId purp) st =
  match stmt (refused e 0)
          (insert_code (db_now e)
             (mkCode (uuid e) userId ph (random_code e) purp
                     (app_clock e 0%nat + otp_lifetime) false)) st with
  | Some (_, st') => (Some (random_code e), st')
  | None => (None, st)
  end.
Proof.
  unfold generateAndStoreOTP. cbn [exec].
  destruct (stmt _ _ st) as [[u st']|]; reflexivity.
Qed.

(** The store after a call of [generateAndStoreOTP], whether it threw or
    not. *)
Lemma issue_cases e ph userId purp st o st' :
  exec (generateAndStoreOTP e ph userId purp) st = (o, st') ->
  (o = None /\ st' = st) \/
  (exists ph' cd,
     varchar 15 ph = Some ph' /\ varchar 6 (random_code e) = Some cd /\
     purpose_ok purp = true /\ o = Some (random_code e) /\
     st' = delete_expired_otps (db_now e)
             (set_codes
                (verification_codes st
                 ++ [mkCode (uuid e) userId ph' cd purp
                            (app_clock e 0%nat + otp_lifetime) false]) st)).
Proof.
  rewrite issue_exec. unfold stmt, insert_code.
  cbn [phone code purpose code_id vc_user_id expires_at].
  destruct (refused e 0). { intros H; inversion H; left; split; reflexivity. }
  destruct (varchar 15 ph) as [ph'|].
  2:{ intros H; inversion H; left; split; reflexivity. }
  destruct (varchar 6 (random_code e)) as [cd|].
  2:{ intros H; inversion H; left; split; reflexivity. }
  destruct (purpose_ok purp) eqn:Hp; cbn [andb].
  2:{ intros H; inversion H; left; split; reflexivity. }
  destruct (negb _).
  2:{ intros H; inversion H; left; split; reflexivity. }
  intros H; inversion H; subst. right. exists ph', cd. repeat split.
Qed.

Lemma usable_later now1 now2 ph otp purp c :
  now1 <= now2 -> usable now2 ph otp purp c = true ->
  usable now1 ph otp purp c = true.
Proof.
  unfold usable. intros Hle H.
  apply andb_prop in H as [H Hu]. apply andb_prop in H as [H Ht].
  rewrite H, Hu. apply Z.ltb_lt in Ht.
  assert (E : (now1 <? expires_at c) = true) by (apply Z.ltb_lt; lia).
  rewrite E. reflexivity.
Qed.

Lemma verify_finds e ph otp purp st c :
  calm e -> In c (verification_codes st) ->
  usable (db_now e) ph otp purp c = true ->
  exists st', exec (verifyOTP e ph otp purp) st = (true, st').
Proof.
  intros Hcalm Hin Hu. rewrite verify_exec, !Hcalm.
  destruct (select_usable_codes (db_now e) ph otp purp st) as [|x xs] eqn:E.
  - assert (Hc : In c (select_usable_codes (db_now e) ph otp purp st))
      by (apply filter_In; split; assumption).
    rewrite E in Hc. contradiction.
  - eexists. reflexivity.
Qed.

(** X9: a code that generateAndStoreOTP has returned is accepted by
    verifyOTP for the same phone and purpose until its ten minutes are
    over (the row is stored with expires_at = issue time + 10 min and the
    expiry trigger that runs after the insert does not purge it). *)
Theorem issued_code_verifies e1 ph userId purp st otp st1 e2 :
  exec (generateAndStoreOTP e1 ph userId purp) st = (Some otp, st1) ->
  (String.length ph <= 15)%nat -> (String.length otp <= 6)%nat ->
  db_now e1 <= app_clock e1 0%nat + otp_lifetime ->
  db_now e2 < app_clock e1 0%nat + otp_lifetime ->
  calm e2 ->
  exists st2, exec (verifyOTP e2 ph otp purp) st1 = (true, st2).
Proof.
  intros H Hph Hotp Hnow1 Hnow2 Hcalm.
  destruct (issue_cases _ _ _ _ _ _ _ H)
    as [[Ho _]|(ph' & cd & Hv1 & Hv2 & Hp & Ho & ->)]; [discriminate|].
  inversion Ho; subst otp.
  rewrite varchar_fits in Hv1 by exact Hph. inversion Hv1; subst ph'.
  rewrite varchar_fits in Hv2 by exact Hotp. inversion Hv2; subst cd.
  eapply verify_finds; [exact Hcalm| |].
  - unfold delete_expired_otps. cbn [verification_codes set_codes].
    apply filter_In. split.
    + apply in_or_app. right. left. reflexivity.
    + cbn [expires_at]. apply negb_true_iff. apply Z.ltb_ge. exact Hnow1.
  - unfold usable. cbn [phone code purpose expires_at is_used].
    rewrite !String.eqb_refl. apply Z.ltb_lt in Hnow2. rewrite Hnow2.
    reflexivity.
Qed.

Lemma issued_code_verifies_witness :
  exists st2,
    exec (verifyOTP Sample.e1 "+15550100" "483920" "SIGNUP")
         (snd (exec (generateAndStoreOTP Sample.e0 "+15550100" None "SIGNUP")
                    Sample.otp0))
    = (true, st2).
Proof.
  apply (issued_code_verifies Sample.e0 "+15550100" None "SIGNUP" Sample.otp0
           "483920"
           (snd (exec (generateAndStoreOTP Sample.e0 "+15550100" None "SIGNUP")
                      Sample.otp0))
           Sample.e1).
  - vm_compute. reflexivity.
  - vm_compute. lia.
  - vm_compute. lia.
  - vm_compute. discriminate.
  - vm_compute. reflexivity.
  - intros i. reflexivity.
Defined.

(** X10: requesting another code does not invalidate the codes that are
    still outstanding: a code that verifyOTP would accept is accepted just
    the same after a later generateAndStoreOTP, for any phone and purpose,
    whether that call stored a code or threw. *)
Theorem new_code_keeps_outstanding_ones
    e1 ph1 userId purp1 st o st1 e2 ph otp purp c :
  exec (generateAndStoreOTP e1 ph1 userId purp1) st = (o, st1) ->
  In c (verification_codes st) ->
  usable (db_now e2) ph otp purp c = true ->
  db_now e1 <= db_now e2 ->
  calm e2 ->
  In c (verification_codes st1) /\
  exists st2, exec (verifyOTP e2 ph otp purp) st1 = (true, st2).
Proof.
  intros H Hin Hu Hle Hcalm.
  assert (Hin1 : In c (verification_codes st1)).
  { destruct (issue_cases _ _ _ _ _ _ _ H)
      as [[_ ->]|(ph' & cd & _ & _ & _ & _ & ->)]; [exact Hin|].
    unfold delete_expired_otps. cbn [verification_codes set_codes].
    apply filter_In. split; [apply in_or_app; left; exact Hin|].
    apply negb_true_iff. apply Z.ltb_ge.
    unfold usable in Hu. apply andb_prop in Hu as [Hu _].
    apply andb_prop in Hu as [_ Ht]. apply Z.ltb_lt in Ht. lia. }
  split; [exact Hin1|].
  eapply verify_finds; eassumption.
Qed.

Lemma new_code_keeps_outstanding_ones_witness :
  In (mkCode "C1" None "+15550100" "246810" "LOGIN" (Sample.t0 + 600000) false)
     (verification_codes
        (snd (exec (generateAndStoreOTP Sample.e0 "+15550100" None "LOGIN")
                   Sample.otp0))) /\
  exists st2,
    exec (verifyOTP Sample.e1 "+15550100" "246810" "LOGIN")
         (snd (exec (generateAndStoreOTP Sample.e0 "+15550100" None "LOGIN")
                    Sample.otp0))
    = (true, st2).
Proof.
  apply (new_code_keeps_outstanding_ones Sample.e0 "+15550100" None "LOGIN"
           Sample.otp0
           (fst (exec (generateAndStoreOTP Sample.e0 "+15550100" None "LOGIN")
                      Sample.otp0))
           (snd (exec (generateAndStoreOTP Sample.e0 "+15550100" None "LOGIN")
                      Sample.otp0))
           Sample.e1).
  - vm_compute. reflexivity.
  - left. reflexivity.
  - reflexivity.
  - vm_compute. discriminate.
  - intros i. reflexivity.
Defined.

Lemma count_after_mark now1 now2 ph otp purp id rs :
  now1 <= now2 ->
  (List.length
     (filter (usable now2 ph otp purp)
        (map (fun c => if String.eqb (code_id c) id
                       then mkCode (code_id c) (vc_user_id c) (phone c)
                                   (code c) (purpose c) (expires_at c) true
                       else c) rs))
   + List.length
       (filter (fun c => usable now1 ph otp purp c
                         && String.eqb (code_id c) id) rs)
   <= List.length (filter (usable now1 ph otp purp) rs))%nat.
Proof.
  intros Hle. induction rs as [|x xs IH]; [cbn; lia|].
  cbn [map filter].
  destruct (String.eqb (code_id x) id) eqn:E.
  - assert (Hu : usable now2 ph otp purp
                   (mkCode (code_id x) (vc_user_id x) (phone x) (code x)
                           (purpose x) (expires_at x) true) = false).
    { unfold usable. cbn [is_used negb]. apply andb_false_r. }
    rewrite Hu, andb_true_r.
    destruct (usable now1 ph otp purp x); cbn [List.length]; lia.
  - rewrite andb_false_r.
    destruct (usable now2 ph otp purp x) eqn:H2.
    + rewrite (usable_later now1 now2 _ _ _ _ Hle H2). cbn [List.length]. lia.
    + destruct (usable now1 ph otp purp x); cbn [List.length]; lia.
Qed.

(** X11: every successful verification uses up a code: after verifyOTP has
    answered true, fewer usable codes match the same phone, code and
    purpose at any later time than matched before; when the code matched
    was the only one, the next verifyOTP with it answers false and changes
    nothing. *)
Theorem verification_uses_up_a_code e1 ph otp purp st st1 e2 :
  exec (verifyOTP e1 ph otp purp) st = (true, st1) ->
  db_now e1 <= db_now e2 ->
  (List.length (select_usable_codes (db_now e2) ph otp purp st1)
   < List.length (select_usable_codes (db_now e1) ph otp purp st))%nat /\
  (List.length (select_usable_codes (db_now e1) ph otp purp st) = 1%nat ->
   exec (verifyOTP e2 ph otp purp) st1 = (false, st1)).
Proof.
  intros H Hle. rewrite verify_exec in H.
  destruct (refused e1 0); [discriminate|].
  destruct (select_usable_codes (db_now e1) ph otp purp st) as [|c rest] eqn:Hs;
    [discriminate|].
  destruct (refused e1 1); [discriminate|].
  inversion H; subst st1; clear H.
  pose proof (count_after_mark (db_now e1) (db_now e2) ph otp purp (code_id c)
                (verification_codes st) Hle) as Hcount.
  assert (Hc : In c (filter (fun x => usable (db_now e1) ph otp purp x
                                      && String.eqb (code_id x) (code_id c))
                            (verification_codes st))).
  { assert (Hin : In c (select_usable_codes (db_now e1) ph otp purp st))
      by (rewrite Hs; left; reflexivity).
    apply filter_In in Hin as [Hin Hu]. apply filter_In. split; [exact Hin|].
    rewrite Hu, String.eqb_refl. reflexivity. }
  assert (Hpos : (1 <= List.length
                    (filter (fun x => usable (db_now e1) ph otp purp x
                                      && String.eqb (code_id x) (code_id c))
                            (verification_codes st)))%nat).
  { destruct (filter _ (verification_codes st)); [contradiction|cbn; lia]. }
  assert (Hlt : (List.length
                   (select_usable_codes (db_now e2) ph otp purp
                      (mark_used (code_id c) st))
                 < List.length (c :: rest))%nat).
  { rewrite <- Hs. unfold select_usable_codes, mark_used.
    cbn [verification_codes set_codes].
    unfold select_usable_codes in Hcount. lia. }
  split; [exact Hlt|].
  intros Hone. rewrite Hone in Hlt. rewrite verify_exec.
  destruct (select_usable_codes (db_now e2) ph otp purp
              (mark_used (code_id c) st)); [|cbn in Hlt; lia].
  destruct (refused e2 0); reflexivity.
Qed.

Lemma verification_uses_up_a_code_witness :
  let st1 := snd (exec (verifyOTP Sample.e0 "+15550100" "246810" "LOGIN")
                       Sample.otp0) in
  (List.length (select_usable_codes (db_now Sample.e1) "+15550100" "246810"
                  "LOGIN" st1)
   < List.length (select_usable_codes (db_now Sample.e0) "+15550100" "246810"
                    "LOGIN" Sample.otp0))%nat /\
  (List.length (select_usable_codes (db_now Sample.e0) "+15550100" "246810"
                  "LOGIN" Sample.otp0) = 1%nat ->
   exec (verifyOTP Sample.e1 "+15550100" "246810" "LOGIN") st1 = (false, st1)).
Proof.
  cbv zeta.
  apply (verification_uses_up_a_code Sample.e0 "+15550100" "246810" "LOGIN"
           Sample.otp0).
  - vm_compute. reflexivity.
  - vm_compute. discriminate.
Defined.

(* ------------------------------------------------------------------ *)
(** ** Splitting a header and a topic *)

Lemma split_on_cons sep a b :
  contains_char sep a = false ->
  split_on sep (a ++ String sep b) = a :: split_on sep b.
Proof.
  induction a as [|c a IH]; intros H; cbn [append split_on].
  - rewrite Ascii.eqb_refl. reflexivity.
  - cbn [contains_char] in H. apply orb_false_elim in H as [Hc Ha].
    rewrite Hc, (IH Ha). reflexivity.
Qed.

Lemma split_on_one sep a :
  contains_char sep a = false -> split_on sep a = [a].
Proof.
  induction a as [|c a IH]; intros H; cbn [split_on]; [reflexivity|].
  cbn [contains_char] in H. apply orb_false_elim in H as [Hc Ha].
  rewrite Hc, (IH Ha). reflexivity.
Qed.

(** The first field of a string and what follows it. *)
Lemma first_field sep s :
  exists tok rest,
    s = (tok ++ rest)%string /\ contains_char sep tok = false /\
    (rest = "" \/ exists r, rest = String sep r) /\
    hd "" (split_on sep s) = tok.
Proof.
  induction s as [|c s (tok & rest & E & Hn & Hr & Hh)].
  - exists "", "". repeat split; auto.
  - cbn [split_on]. destruct (Ascii.eqb c sep) eqn:Hc.
    + apply Ascii.eqb_eq in Hc. subst c.
      exists "", (String sep s). repeat split; eauto.
    + exists (String c tok), rest. subst s. repeat split; auto.
      * cbn [contains_char]. rewrite Hc, Hn. reflexivity.
      * destruct (split_on sep (tok ++ rest)); cbn in *; subst; reflexivity.
Qed.

Lemma prefix_app p s : prefix p s = true -> exists t, s = (p ++ t)%string.
Proof.
  revert s. induction p as [|c p IH]; intros s H.
  - exists s. reflexivity.
  - destruct s as [|d s]; cbn [prefix] in H; [discriminate|].
    destruct (ascii_dec c d) as [->|]; [|discriminate].
    destruct (IH s H) as [t ->]. exists t. reflexivity.
Qed.

Lemma app_prefix p t : prefix p (p ++ t) = true.
Proof.
  induction p as [|c p IH]; cbn [append prefix].
  - destruct t; reflexivity.
  - destruct (ascii_dec c c); [exact IH|contradiction].
Qed.

(** X12: authenticate lets a request through, with the user that
    verifyToken decodes, exactly when the Authorization header is "Bearer "
    followed by a token that verifyToken accepts; the token is the text up
    to the next space and what follows that space is ignored.  Every other
    request is answered 401: "Access denied. No token provided." when the
    header is missing or does not start with "Bearer ", and "Invalid
    token." when verifyToken refuses the token. *)
Theorem authenticate_passes_iff verifyToken authorization :
  (forall user,
     authenticate verifyToken authorization = Next user <->
     exists tok rest,
       authorization = Some ("Bearer " ++ tok ++ rest)%string /\
       contains_char " " tok = false /\
       (rest = "" \/ exists r, rest = String " " r) /\
       verifyToken tok = Some user) /\
  (forall c msg,
     authenticate verifyToken authorization = Denied c msg ->
     c = 401 /\
     ((msg = "Access denied. No token provided." /\
       forall t, authorization <> Some ("Bearer " ++ t)%string) \/
      (msg = "Invalid token." /\
       exists tok rest,
         authorization = Some ("Bearer " ++ tok ++ rest)%string /\
         contains_char " " tok = false /\
         (rest = "" \/ exists r, rest = String " " r) /\
         verifyToken tok = None))).
Proof.
  assert (Htok : forall tok rest,
    contains_char " " tok = false ->
    (rest = "" \/ exists r, rest = String " " r) ->
    nth 1 (split_on " " ("Bearer " ++ tok ++ rest)) "" = tok).
  { intros tok rest Hn Hr.
    change ("Bearer " ++ tok ++ rest)%string
      with ("Bearer" ++ String " " (tok ++ rest))%string.
    rewrite split_on_cons by reflexivity. cbn [nth].
    destruct Hr as [->|[r ->]].
    - rewrite JSFacts.string_app_nil. rewrite split_on_one by exact Hn.
      reflexivity.
    - rewrite split_on_cons by exact Hn. reflexivity. }
  split.
  - intros user. split.
    + unfold authenticate. destruct authorization as [h|]; [|discriminate].
      destruct (negb (present h) || negb (prefix "Bearer " h)) eqn:Hg;
        [discriminate|].
      apply orb_false_elim in Hg as [_ Hp]. apply negb_false_iff in Hp.
      destruct (prefix_app _ _ Hp) as [s ->].
      destruct (first_field " " s) as (tok & rest & -> & Hn & Hr & _).
      rewrite (Htok tok rest Hn Hr).
      destruct (verifyToken tok) as [u|] eqn:Hv; [|discriminate].
      intros H; inversion H; subst u.
      exists tok, rest. repeat split; assumption.
    + intros (tok & rest & -> & Hn & Hr & Hv). unfold authenticate.
      rewrite app_prefix. cbn [present negb orb String.eqb append].
      change (String "B" (String "e" (String "a" (String "r" (String "e"
                (String "r" (String " " (tok ++ rest))))))))%string
        with ("Bearer " ++ tok ++ rest)%string.
      rewrite (Htok tok rest Hn Hr), Hv. reflexivity.
  - intros c msg. unfold authenticate. destruct authorization as [h|].
    2:{ intros H; inversion H; subst. split; [reflexivity|].
        left. split; [reflexivity|]. intros t; discriminate. }
    destruct (negb (present h) || negb (prefix "Bearer " h)) eqn:Hg.
    + intros H; inversion H; subst. split; [reflexivity|].
      left. split; [reflexivity|]. intros t E.
      assert (Eh : h = ("Bearer " ++ t)%string) by congruence.
      rewrite Eh, app_prefix in Hg. cbn in Hg. discriminate.
    + apply orb_false_elim in Hg as [_ Hp]. apply negb_false_iff in Hp.
      destruct (prefix_app _ _ Hp) as [s ->].
      destruct (first_field " " s) as (tok & rest & -> & Hn & Hr & _).
      rewrite (Htok tok rest Hn Hr).
      destruct (verifyToken tok) as [u|] eqn:Hv; [discriminate|].
      intros H; inversion H; subst. split; [reflexivity|].
      right. split; [reflexivity|].
      exists tok, rest. repeat split; assumption.
Qed.

(** X13: a request that the middleware and the routers pass on to
    notFound without having answered is answered 500, not 404: notFound
    sets the status 404 and hands on an Error that has no statusCode, and
    errorHandler then sets err.statusCode || 500; the body carries the
    message "Not Found - <originalUrl>", and the stack in development
    only; the error goes no further. *)
Theorem passed_on_is_answered_500 development originalUrl stack res :
  res_sent res = None ->
  passed_on development originalUrl stack res
  = (mkRes 500 (Some (Some (mkErrorJson ("Not Found - " ++ originalUrl)
                              (if development then Some stack else None)))),
     None).
Proof.
  intros H. unfold passed_on, notFound, errorHandler.
  cbn [res_sent err_statusCode err_message err_stack]. rewrite H.
  reflexivity.
Qed.

Lemma passed_on_is_answered_500_witness :
  passed_on false "/api/auth/logout" "Error: Not Found" fresh_res
  = (mkRes 500 (Some (Some (mkErrorJson "Not Found - /api/auth/logout" None))),
     None).
Proof.
  apply (passed_on_is_answered_500 false "/api/auth/logout").
  reflexivity.
Defined.

(** X14: a message on a topic of the subscription lockers/+/status, that is
    "lockers/<id>/status" with an id that has no slash, is forwarded as the
    event "locker:<id>". *)
Theorem locker_event_of_status_topic id :
  contains_char "/" id = false ->
  locker_event ("lockers/" ++ id ++ "/status") = ("locker:" ++ id)%string.
Proof.
  intros H. unfold locker_event.
  change ("lockers/" ++ id ++ "/status")%string
    with ("lockers" ++ String "/" (id ++ String "/" "status"))%string.
  rewrite split_on_cons by reflexivity.
  rewrite split_on_cons by exact H. reflexivity.
Qed.

Lemma locker_event_of_status_topic_witness :
  locker_event "lockers/L1/status" = "locker:L1".
Proof.
  apply (locker_event_of_status_topic "L1"). reflexivity.
Defined.

(* ------------------------------------------------------------------ *)
(** ** Accounts: signup and login *)

(** The user row and the preference row of a signup. *)
Lemma signup_cases w email ph password fullName db r db' :
  signup w email ph password fullName db = (r, db') ->
  (status_code r <> 201 /\ db' = db) \/
  (exists u em p,
     present email = true /\ present ph = true /\ present password = true /\
     filter (fun x => String.eqb (u_email x) email
                      || String.eqb (u_phone x) (remove_hyphens ph))
            (users db) = [] /\
     varchar 255 email = Some em /\
     varchar 15 (remove_hyphens ph) = Some p /\
     u_user_id u = uuid (wenv w) /\ u_email u = em /\ u_phone u = p /\
     u_password_hash u = bcrypt_hash w password /\
     u_is_verified u = false /\ u_profile_image_url u = None /\
     r = session_of w "User registered successfully" 201 u /\
     db' = mkDatabase (core db) (users db ++ [u])
             (user_preferences db
              ++ [mkPreference (uuid2 w) (uuid (wenv w)) (Some true)
                               (Some true) (Some false)])).
Proof.
  unfold signup. intros H.
  destruct (negb (present email) || negb (present ph) || negb (present password))
    eqn:Hg.
  { inversion H; subst; left; split; [discriminate|reflexivity]. }
  apply orb_false_elim in Hg as [Hg Hpw]. apply orb_false_elim in Hg as [Hem Hph].
  apply negb_false_iff in Hem, Hph, Hpw.
  destruct (refused (wenv w) 0).
  { inversion H; subst; left; split; [discriminate|reflexivity]. }
  destruct (filter _ (users db)) as [|x xs] eqn:Hf.
  2:{ inversion H; subst; left; split; [discriminate|reflexivity]. }
  destruct (refused (wenv w) 1).
  { inversion H; subst; left; split; [discriminate|reflexivity]. }
  destruct (signup_body w email (remove_hyphens ph) password fullName db)
    as [[r0 db0]|] eqn:Hb.
  2:{ inversion H; subst; left; split; [discriminate|reflexivity]. }
  inversion H; subst r0 db0; clear H.
  unfold signup_body in Hb.
  destruct (refused (wenv w) 2); [discriminate|].
  destruct (refused (wenv w) 3); [discriminate|].
  unfold insert_user in Hb.
  destruct (varchar 255 email) as [em|] eqn:Hv1; [|discriminate].
  destruct (varchar 15 (remove_hyphens ph)) as [p|] eqn:Hv2; [|discriminate].
  destruct (match (if present fullName then Some fullName else None) with
            | Some n => option_map Some (varchar 255 n)
            | None => Some None
            end) as [fn|]; [|discriminate].
  destruct (existsb _ (users db)); [discriminate|].
  destruct (refused (wenv w) 4); [discriminate|].
  unfold insert_preference in Hb.
  destruct (existsb _ _ || negb _); [discriminate|].
  destruct (refused (wenv w) 5); [discriminate|].
  inversion Hb; subst; clear Hb.
  right. eexists _, em, p. repeat split; try reflexivity; assumption.
Qed.

(** X15: signup creates the user and the default preferences together or
    not at all: an answer other than 201 leaves the database as it was,
    and on 201 exactly one user row (unverified, with the phone stripped
    of its hyphens) and one preference row for that user (e-mail and SMS
    notifications on, marketing off) are appended and nothing else
    changes. *)
Theorem signup_is_all_or_nothing w email ph password fullName db r db' :
  signup w email ph password fullName db = (r, db') ->
  (status_code r <> 201 /\ db' = db) \/
  (status_code r = 201 /\
   exists u,
     users db' = (users db ++ [u])%list /\
     user_preferences db'
       = (user_preferences db
          ++ [mkPreference (uuid2 w) (u_user_id u) (Some true) (Some true)
                           (Some false)])%list /\
     core db' = core db /\
     u_is_verified u = false /\
     varchar 15 (remove_hyphens ph) = Some (u_phone u) /\
     varchar 255 email = Some (u_email u) /\
     content r = Session (u_user_id u) (u_email u) (u_phone u) (u_full_name u)
                         false
                         (jwt_token w (u_user_id u) (u_email u) (u_phone u))
                         (jwt_refresh w (u_user_id u))).
Proof.
  intros H. destruct (signup_cases _ _ _ _ _ _ _ _ H)
    as [Hfail|(u & em & p & _ & _ & _ & _ & Hv1 & Hv2 & Hid & Hem & Hp & _
               & Hver & _ & -> & ->)]; [left; exact Hfail|].
  right. split; [reflexivity|]. exists u.
  cbn [users user_preferences core]. rewrite Hid, Hem, Hp.
  repeat split; auto.
  unfold session_of. cbn [content]. rewrite Hver, Hid, Hem, Hp. reflexivity.
Qed.

(** X16: signup refuses with 400 an e-mail address, or a phone number
    (compared without its hyphens), that a user already has, and writes
    nothing. *)
Theorem signup_rejects_existing_user w email ph password fullName db x :
  present email = true -> present ph = true -> present password = true ->
  refused (wenv w) 0 = false ->
  In x (users db) ->
  u_email x = email \/ u_phone x = remove_hyphens ph ->
  signup w email ph password fullName db
  = (refuse 400 "User with this email or phone already exists", db).
Proof.
  intros H1 H2 H3 H0 Hin Hx. unfold signup. rewrite H1, H2, H3, H0.
  cbn [negb orb].
  destruct (filter _ (users db)) as [|y ys] eqn:Hf; [|reflexivity].
  assert (Hc : In x (filter (fun x0 => String.eqb (u_email x0) email
                                       || String.eqb (u_phone x0)
                                            (remove_hyphens ph))
                            (users db))).
  { apply filter_In. split; [exact Hin|].
    destruct Hx as [<-|<-]; rewrite String.eqb_refl;
      [reflexivity|apply orb_true_r]. }
  rewrite Hf in Hc. contradiction.
Qed.

Lemma signup_rejects_existing_user_witness :
  signup Accounts.w0 "new@example.com" "555-0100" "pw" "" Accounts.db1
  = (refuse 400 "User with this email or phone already exists", Accounts.db1).
Proof.
  apply (signup_rejects_existing_user Accounts.w0 "new@example.com" "555-0100"
           "pw" "" Accounts.db1 Accounts.ann); try reflexivity.
  - left. reflexivity.
  - right. reflexivity.
Defined.

Lemma signup_is_all_or_nothing_witness :
  let r := fst (signup Accounts.w0 "bob@example.com" "555-0199" "pw" ""
                       Accounts.db1) in
  let db' := snd (signup Accounts.w0 "bob@example.com" "555-0199" "pw" ""
                         Accounts.db1) in
  (status_code r <> 201 /\ db' = Accounts.db1) \/
  (status_code r = 201 /\
   exists u,
     users db' = (users Accounts.db1 ++ [u])%list /\
     user_preferences db'
       = (user_preferences Accounts.db1
          ++ [mkPreference (uuid2 Accounts.w0) (u_user_id u) (Some true)
                           (Some true) (Some false)])%list /\
     core db' = core Accounts.db1 /\
     u_is_verified u = false /\
     varchar 15 (remove_hyphens "555-0199") = Some (u_phone u) /\
     varchar 255 "bob@example.com" = Some (u_email u) /\
     content r = Session (u_user_id u) (u_email u) (u_phone u) (u_full_name u)
                         false
                         (jwt_token Accounts.w0 (u_user_id u) (u_email u)
                                    (u_phone u))
                         (jwt_refresh Accounts.w0 (u_user_id u))).
Proof.
  cbv zeta.
  apply (signup_is_all_or_nothing Accounts.w0 "bob@example.com" "555-0199"
           "pw" "" Accounts.db1).
  vm_compute. reflexivity.
Defined.

Lemma filter_none {A} (f : A -> bool) l :
  (forall x, In x l -> f x = false) -> filter f l = [].
Proof.
  induction l as [|x xs IH]; intros H; [reflexivity|]. cbn [filter].
  rewrite (H x (or_introl eq_refl)). apply IH.
  intros y Hy. apply H. right. exact Hy.
Qed.

Lemma remove_hyphens_clean s : contains_char "-" (remove_hyphens s) = false.
Proof.
  induction s as [|c s IH]; [reflexivity|]. cbn [remove_hyphens].
  destruct (Ascii.eqb c "-") eqn:E; [exact IH|].
  cbn [contains_char]. rewrite E, IH. reflexivity.
Qed.

Lemma substring_keeps_clean c s : forall n,
  contains_char c s = false -> contains_char c (substring 0 n s) = false.
Proof.
  induction s as [|a s IH]; intros n H.
  - destruct n; reflexivity.
  - destruct n; [reflexivity|]. cbn [substring contains_char] in *.
    apply orb_false_elim in H as [Ha Hs]. rewrite Ha, (IH n Hs). reflexivity.
Qed.

Lemma varchar_keeps_clean c n s s' :
  varchar n s = Some s' -> contains_char c s = false ->
  contains_char c s' = false.
Proof.
  unfold varchar. intros H Hc.
  destruct (String.length s <=? n)%nat.
  - inversion H; subst; exact Hc.
  - destruct (all_spaces _); [|discriminate].
    inversion H; subst. apply substring_keeps_clean. exact Hc.
Qed.

Lemma users_by_phone_none em np us :
  filter (fun x => String.eqb (u_email x) em || String.eqb (u_phone x) np) us
  = [] ->
  filter (fun x => String.eqb (u_phone x) np) us = [].
Proof.
  induction us as [|x xs IH]; intros H; [reflexivity|].
  cbn [filter] in *.
  destruct (String.eqb (u_phone x) np).
  - rewrite orb_true_r in H. discriminate.
  - rewrite orb_false_r in H.
    destruct (String.eqb (u_email x) em); [discriminate|]. apply IH. exact H.
Qed.

(** X17: a user who has signed up can log in with the same password and the
    phone number without its hyphens (the form signup stores), and gets
    the session of the account just created. *)
Theorem signup_then_login w1 email ph password fullName db r db1 w2 :
  signup w1 email ph password fullName db = (r, db1) ->
  status_code r = 201 ->
  (String.length (remove_hyphens ph) <= 15)%nat ->
  present (remove_hyphens ph) = true ->
  refused (wenv w2) 0 = false ->
  bcrypt_compare w2 password (bcrypt_hash w1 password) = true ->
  exists u,
    users db1 = (users db ++ [u])%list /\
    u_phone u = remove_hyphens ph /\
    login w2 (remove_hyphens ph) password db1
    = (session_of w2 "Login successful" 200 u, db1).
Proof.
  intros H H201 Hlen Hpres H0 Hcmp.
  destruct (signup_cases _ _ _ _ _ _ _ _ H)
    as [[Hne _]|(u & em & p & _ & _ & Hpw & Hf & _ & Hv2 & _ & _ & Hp & Hh
                 & _ & _ & _ & ->)]; [contradiction|].
  rewrite varchar_fits in Hv2 by exact Hlen.
  assert (Ep : p = remove_hyphens ph) by congruence. rewrite Ep in Hp.
  exists u. split; [reflexivity|]. split; [exact Hp|].
  unfold login. rewrite Hpres, Hpw, H0. cbn [negb orb].
  unfold users_by_phone. cbn [users]. rewrite filter_app.
  rewrite (users_by_phone_none _ _ _ Hf). cbn [app filter].
  rewrite Hp, String.eqb_refl, Hh, Hcmp. reflexivity.
Qed.

Lemma signup_then_login_witness :
  exists u,
    users (snd (signup Accounts.w0 "bob@example.com" "555-0199" "pw" ""
                       Accounts.db1))
    = (users Accounts.db1 ++ [u])%list /\
    u_phone u = remove_hyphens "555-0199" /\
    login Accounts.w1 (remove_hyphens "555-0199") "pw"
          (snd (signup Accounts.w0 "bob@example.com" "555-0199" "pw" ""
                       Accounts.db1))
    = (session_of Accounts.w1 "Login successful" 200 u,
       snd (signup Accounts.w0 "bob@example.com" "555-0199" "pw" ""
                   Accounts.db1)).
Proof.
  apply (signup_then_login Accounts.w0 "bob@example.com" "555-0199" "pw" ""
           Accounts.db1
           (fst (signup Accounts.w0 "bob@example.com" "555-0199" "pw" ""
                        Accounts.db1))).
  - vm_compute. reflexivity.
  - reflexivity.
  - vm_compute. lia.
  - reflexivity.
  - reflexivity.
  - reflexivity.
Defined.

(** X18: signup strips the hyphens of the phone number but login looks the
    number up as it is typed: after a signup with a number that contains a
    hyphen, a login with that same number is answered 404 "User not
    found" (unless another user has exactly that number). *)
Theorem login_with_hyphens_after_signup
    w1 email ph password fullName db r db1 w2 password2 :
  signup w1 email ph password fullName db = (r, db1) ->
  status_code r = 201 ->
  contains_char "-" ph = true ->
  (forall x, In x (users db) -> u_phone x <> ph) ->
  present password2 = true ->
  refused (wenv w2) 0 = false ->
  login w2 ph password2 db1 = (refuse 404 "User not found", db1).
Proof.
  intros H H201 Hhy Hold Hpw H0.
  destruct (signup_cases _ _ _ _ _ _ _ _ H)
    as [[Hne _]|(u & em & p & _ & Hph & _ & _ & _ & Hv2 & _ & _ & Hp & _
                 & _ & _ & _ & ->)]; [contradiction|].
  unfold login. rewrite Hph, Hpw, H0. cbn [negb orb].
  assert (E : users_by_phone ph
                (mkDatabase (core db) (users db ++ [u])
                   (user_preferences db
                    ++ [mkPreference (uuid2 w1) (uuid (wenv w1)) (Some true)
                                     (Some true) (Some false)])) = []).
  { unfold users_by_phone. cbn [users]. rewrite filter_app.
    assert (E1 : filter (fun x => String.eqb (u_phone x) ph) (users db) = []).
    { apply filter_none. intros x Hx.
      destruct (String.eqb_spec (u_phone x) ph) as [E|E]; [|reflexivity].
      exfalso. exact (Hold x Hx E). }
    rewrite E1. cbn [app filter].
    destruct (String.eqb_spec (u_phone u) ph) as [E|E]; [|reflexivity].
    exfalso.
    pose proof (varchar_keeps_clean "-" _ _ _ Hv2 (remove_hyphens_clean ph))
      as Hclean.
    rewrite <- Hp, E in Hclean. congruence. }
  rewrite E. reflexivity.
Qed.

Lemma login_with_hyphens_after_signup_witness :
  login Accounts.w1 "555-0199" "pw"
        (snd (signup Accounts.w0 "bob@example.com" "555-0199" "pw" ""
                     Accounts.db1))
  = (refuse 404 "User not found",
     snd (signup Accounts.w0 "bob@example.com" "555-0199" "pw" ""
                 Accounts.db1)).
Proof.
  apply (login_with_hyphens_after_signup Accounts.w0 "bob@example.com"
           "555-0199" "pw" "" Accounts.db1
           (fst (signup Accounts.w0 "bob@example.com" "555-0199" "pw" ""
                        Accounts.db1))).
  - vm_compute. reflexivity.
  - reflexivity.
  - reflexivity.
  - intros x [<-|[]]. discriminate.
  - reflexivity.
  - reflexivity.
Defined.

(* ------------------------------------------------------------------ *)
(** ** What the account handlers leave alone *)

Lemma update_where_ret {A} (p : A -> bool) (f : A -> option A) rows :
  forall rs ret,
    update_where p f rows = Some (rs, ret) ->
    List.length rs = List.length rows /\
    (ret = [] <-> filter p rows = []).
Proof.
  induction rows as [|r rest IH]; intros rs ret H; simpl in H.
  - inversion H; subst. split; [reflexivity|tauto].
  - destruct (update_where p f rest) as [[rest' ret']|]; [|discriminate].
    destruct (IH _ _ eq_refl) as [Hl Hr]. cbn [filter].
    destruct (p r) eqn:Hp.
    + destruct (f r) as [r'|]; [|discriminate]. inversion H; subst.
      split; [cbn; congruence|]. split; discriminate.
    + inversion H; subst. split; [cbn; congruence|exact Hr].
Qed.

Lemma assign_all_app now ps fs gs u :
  assign_all now ps (fs ++ gs) u
  = match assign_all now ps fs u with
    | Some u' => assign_all now ps gs u'
    | None => None
    end.
Proof.
  revert u. induction fs as [|a fs IH]; intros u; [reflexivity|].
  cbn [app assign_all]. destruct (assign now ps a u); [apply IH|reflexivity].
Qed.

(** The builder of [updateUserProfile] after its two tests. *)
Lemma built_key userId fullName email :
  let b0 := mkBuilt [] [] 1 in
  let b1 := if defined fullName
            then push_field FullName (param_of fullName) b0 else b0 in
  let b := if defined email then push_field Email (param_of email) b1 else b1 in
  bound (queryParams b ++ [PText userId]) (paramIndex b) = Some (PText userId).
Proof.
  destruct fullName, email; reflexivity.
Qed.

Lemma built_update_row now userId fullName email x x' :
  let b0 := mkBuilt [] [] 1 in
  let b1 := if defined fullName
            then push_field FullName (param_of fullName) b0 else b0 in
  let b := if defined email then push_field Email (param_of email) b1 else b1 in
  assign_all now (queryParams b ++ [PText userId])
             (updateFields b ++ [ToNow UpdatedAt]) x = Some x' ->
  profile_set fullName email now x x'.
Proof.
  cbv zeta. intros H. unfold profile_set.
  destruct fullName as [| |fn], email as [| |em];
    cbn [defined push_field param_of updateFields queryParams paramIndex app
         bound nth_error assign_all assign option_map] in *;
    repeat match type of H with
    | context [varchar ?n ?s] =>
        let E := fresh "Hv" in
        destruct (varchar n s) eqn:E;
        cbn [defined push_field param_of updateFields queryParams paramIndex
             app bound nth_error assign_all assign option_map] in H
    end;
    try discriminate; inversion H; subst; clear H;
    cbn [u_user_id u_email u_phone u_full_name u_profile_image_url
         u_password_hash u_is_verified u_updated_at];
    repeat match goal with
    | |- _ /\ _ => split
    | |- exists _, _ => eexists
    end; try reflexivity; try eassumption.
Qed.

Lemma built_empty fullName email :
  let b0 := mkBuilt [] [] 1 in
  let b1 := if defined fullName
            then push_field FullName (param_of fullName) b0 else b0 in
  let b := if defined email then push_field Email (param_of email) b1 else b1 in
  defined fullName || defined email = false -> updateFields b = [].
Proof.
  destruct fullName, email; cbn; intros H; try discriminate; reflexivity.
Qed.

Lemma profile_cases w userId fullName email db r db' :
  updateUserProfile w userId fullName email db = (r, db') ->
  (status_code r <> 200 /\ db' = db) \/
  (exists us ret,
     r = mkReply 200 true "Profile updated successfully"
                 (ProfileRow (hd_error ret)) /\
     db' = set_users us db /\
     defined fullName || defined email = true /\
     email_conflict us = false /\
     (defined email = true ->
      filter (fun u => email_is email (u_email u)
                       && negb (String.eqb (u_user_id u) userId))
             (users db) = []) /\
     (ret = [] <->
      filter (fun u => String.eqb (u_user_id u) userId) (users db) = []) /\
     Forall2 (fun x x' =>
                if String.eqb (u_user_id x) userId
                then profile_set fullName email (db_now (wenv w)) x x'
                else x' = x) (users db) us).
Proof.
  unfold updateUserProfile.
  pose proof (built_key userId fullName email) as Hkey.
  pose proof (built_empty fullName email) as Hemp.
  pose proof (fun x x' =>
                built_update_row (db_now (wenv w)) userId fullName email x x')
    as Hrow.
  cbv zeta in Hkey, Hemp, Hrow.
  set (b1 := if defined fullName
             then push_field FullName (param_of fullName) (mkBuilt [] [] 1)
             else mkBuilt [] [] 1) in *.
  cbv zeta.
  assert (Hrun : forall b,
    b = (if defined email then push_field Email (param_of email) b1 else b1) ->
    (defined email = true ->
      filter (fun u => email_is email (u_email u)
                       && negb (String.eqb (u_user_id u) userId))
             (users db) = []) ->
    match updateFields b with
    | [] => (refuse 400 "No fields to update", db)
    | _ :: _ =>
        if refused (wenv w) 1 then (profile_failed, db) else
        match run_profile_update (db_now (wenv w))
                (mkBuilt (updateFields b ++ [ToNow UpdatedAt])
                         (queryParams b ++ [PText userId]) (paramIndex b))
                db with
        | Some (rows, db') =>
            (mkReply 200 true "Profile updated successfully"
                     (ProfileRow (hd_error rows)), db')
        | None => (profile_failed, db)
        end
    end = (r, db') ->
    (status_code r <> 200 /\ db' = db) \/
    (exists us ret,
       r = mkReply 200 true "Profile updated successfully"
                   (ProfileRow (hd_error ret)) /\
       db' = set_users us db /\
       defined fullName || defined email = true /\
       email_conflict us = false /\
       (defined email = true ->
        filter (fun u => email_is email (u_email u)
                         && negb (String.eqb (u_user_id u) userId))
               (users db) = []) /\
       (ret = [] <->
        filter (fun u => String.eqb (u_user_id u) userId) (users db) = []) /\
       Forall2 (fun x x' =>
                  if String.eqb (u_user_id x) userId
                  then profile_set fullName email (db_now (wenv w)) x x'
                  else x' = x) (users db) us)).
  { intros b -> Hfree.
    destruct (updateFields _) as [|a fs] eqn:Hf.
    { intros H; inversion H; subst; left; split; [discriminate|reflexivity]. }
    destruct (refused (wenv w) 1).
    { intros H; inversion H; subst; left; split; [discriminate|reflexivity]. }
    unfold run_profile_update.
    cbn [queryParams paramIndex updateFields]. rewrite Hkey.
    destruct (update_where _ _ (users db)) as [[us ret]|] eqn:Hu.
    2:{ intros H; inversion H; subst; left; split; [discriminate|reflexivity]. }
    destruct (email_conflict us) eqn:Hc.
    { intros H; inversion H; subst; left; split; [discriminate|reflexivity]. }
    intros H; inversion H; subst r db'; clear H. right. exists us, ret.
    split; [reflexivity|]. split; [reflexivity|]. split.
    { destruct (defined fullName || defined email); [reflexivity|].
      discriminate (Hemp eq_refl). }
    split; [exact Hc|]. split; [exact Hfree|].
    pose proof (update_where_ret _ _ _ _ _ Hu) as [_ Hret].
    split; [exact Hret|].
    pose proof (update_where_Forall2 _ _ _ _ _ Hu) as HF.
    eapply Forall2_impl; [|exact HF]. cbv beta. intros x x' Hx.
    destruct (String.eqb (u_user_id x) userId); [|exact Hx].
    apply Hrow. exact Hx. }
  destruct (defined email) eqn:Hde.
  - destruct (refused (wenv w) 0).
    { intros H; inversion H; subst; left; split; [discriminate|reflexivity]. }
    destruct (filter _ (users db)) eqn:Hfl.
    2:{ intros H; inversion H; subst; left; split; [discriminate|reflexivity]. }
    apply Hrun; [reflexivity|]. intros _. reflexivity.
  - apply Hrun; [reflexivity|]. discriminate.
Qed.

Lemma issue_frame e ph userId purp st o st' :
  exec (generateAndStoreOTP e ph userId purp) st = (o, st') ->
  locker_sizes st' = locker_sizes st /\ lockers st' = lockers st /\
  reservations st' = reservations st /\
  reservation_history st' = reservation_history st.
Proof.
  intros H.
  destruct (issue_cases _ _ _ _ _ _ _ H)
    as [[_ ->]|(ph' & cd & _ & _ & _ & _ & ->)]; repeat split.
Qed.

Lemma verify_frame e ph otp purp st b st' :
  exec (verifyOTP e ph otp purp) st = (b, st') ->
  locker_sizes st' = locker_sizes st /\ lockers st' = lockers st /\
  reservations st' = reservations st /\
  reservation_history st' = reservation_history st.
Proof.
  rewrite verify_exec.
  destruct (refused e 0); [intros H; inversion H; subst; repeat split|].
  destruct (select_usable_codes _ _ _ _ _);
    [intros H; inversion H; subst; repeat split|].
  destruct (refused e 1); intros H; inversion H; subst; repeat split.
Qed.

Lemma account_core w q db :
  (core (snd (account w q db)) = core db) \/
  (exists e ph userId purp o,
     exec (generateAndStoreOTP e ph userId purp) (core db)
     = (o, core (snd (account w q db)))) \/
  (exists e ph otp purp b,
     exec (verifyOTP e ph otp purp) (core db)
     = (b, core (snd (account w q db)))).
Proof.
  destruct q; cbn [account].
  - unfold requestPhoneVerification.
    destruct (negb (present ph)); [left; reflexivity|].
    destruct (exec _ (core db)) as [[otp|] st'] eqn:E; [|left; reflexivity].
    right; left. exists (wenv w), ph, None, "SIGNUP", (Some otp). exact E.
  - unfold verifyPhone.
    destruct (negb (present ph) || negb (present otp)); [left; reflexivity|].
    destruct (exec _ (core db)) as [b st'] eqn:E.
    right; right. exists (wenv w), ph, otp, "SIGNUP", b.
    destruct (negb b); exact E.
  - destruct (signup w email ph password fullName db) as [r db'] eqn:E.
    destruct (signup_cases _ _ _ _ _ _ _ _ E)
      as [[_ ->]|(u & em & p & _ & _ & _ & _ & _ & _ & _ & _ & _ & _ & _ & _
                  & _ & ->)]; left; reflexivity.
  - unfold login.
    repeat match goal with
    | |- context [if ?c then _ else _] => destruct c
    | |- context [match users_by_phone ?p ?d with _ => _ end] =>
        destruct (users_by_phone p d)
    end; left; reflexivity.
  - unfold requestLoginOTP.
    destruct (negb (present ph)); [left; reflexivity|].
    destruct (refused (wenv w) 0); [left; reflexivity|].
    destruct (users_by_phone ph db) as [|u us]; [left; reflexivity|].
    destruct (exec _ (core db)) as [[otp|] st'] eqn:E; [|left; reflexivity].
    right; left.
    exists (after_statements 1 (wenv w)), ph, (Some (u_user_id u)), "LOGIN",
           (Some otp). exact E.
  - unfold loginWithOTP.
    destruct (negb (present ph) || negb (present otp)); [left; reflexivity|].
    destruct (exec _ (core db)) as [b st'] eqn:E.
    right; right. exists (wenv w), ph, otp, "LOGIN", b.
    destruct (negb b); [exact E|].
    destruct (refused (wenv w) 2); [exact E|].
    destruct (users_by_phone ph _); exact E.
  - destruct (updateUserProfile w userId fullName email db) as [r db'] eqn:E.
    destruct (profile_cases _ _ _ _ _ _ _ E)
      as [[_ ->]|(us & ret & _ & -> & _)]; left; reflexivity.
  - unfold changePassword.
    repeat match goal with
    | |- context [if ?c then _ else _] => destruct c
    | |- context [match filter ?f ?l with _ => _ end] => destruct (filter f l)
    end; left; reflexivity.
  - unfold updateUserPreferences, insert_preference.
    repeat match goal with
    | |- context [if ?c then _ else _] => destruct c
    | |- context [match filter ?f ?l with _ => _ end] => destruct (filter f l)
    end; left; reflexivity.
  - unfold uploadProfileImage. cbv zeta.
    repeat match goal with
    | |- context [if refused ?e ?i then _ else _] => destruct (refused e i)
    | |- context [match filter ?f ?l with _ => _ end] => destruct (filter f l)
    end; left; reflexivity.
Qed.

(** X19: no request to the routes of authRoutes.ts and userRoutes.ts
    touches the locker tables: after any sequence of them the locker
    sizes, the lockers, the reservations and the reservation history are
    what they were (of the store of lockerController.ts only
    verification_codes changes). *)
Theorem account_requests_leave_lockers_alone qs : forall db,
  same_locker_tables db (serve_accounts qs db).
Proof.
  induction qs as [|[w q] qs IH]; intros db; cbn [serve_accounts].
  - repeat split.
  - destruct (IH (snd (account w q db))) as (A & B & C & D).
    assert (S : same_locker_tables db (snd (account w q db))).
    { destruct (account_core w q db)
        as [E|[(e & ph & u & p & o & E)|(e & ph & otp & p & b & E)]].
      - unfold same_locker_tables. rewrite E. repeat split.
      - exact (issue_frame _ _ _ _ _ _ _ E).
      - exact (verify_frame _ _ _ _ _ _ _ E). }
    destruct S as (A' & B' & C' & D').
    unfold same_locker_tables. rewrite A, B, C, D. repeat split; assumption.
Qed.

Lemma rows_same us :
  Forall2 (fun x x' => u_user_id x' = u_user_id x /\
                       u_phone x' = u_phone x /\
                       u_is_verified x' = u_is_verified x) us us.
Proof.
  induction us; constructor; auto.
Qed.

Lemma rows_kept_refl us : account_rows_kept us us.
Proof.
  exists us, []. split; [symmetry; apply app_nil_r|].
  split; [apply rows_same|constructor].
Qed.

Lemma rows_kept_rowwise us us' :
  Forall2 (fun x x' => u_user_id x' = u_user_id x /\
                       u_phone x' = u_phone x /\
                       u_is_verified x' = u_is_verified x) us us' ->
  account_rows_kept us us'.
Proof.
  intros H. exists us', []. split; [symmetry; apply app_nil_r|].
  split; [exact H|constructor].
Qed.

Lemma rows_kept_map (f : user -> user) us :
  (forall x, u_user_id (f x) = u_user_id x /\ u_phone (f x) = u_phone x /\
             u_is_verified (f x) = u_is_verified x) ->
  account_rows_kept us (map f us).
Proof.
  intros H. apply rows_kept_rowwise.
  induction us; constructor; auto.
Qed.

Lemma rows_kept_trans us1 us2 us3 :
  account_rows_kept us1 us2 -> account_rows_kept us2 us3 ->
  account_rows_kept us1 us3.
Proof.
  intros (k1 & a1 & -> & F1 & N1) (k2 & a2 & -> & F2 & N2).
  apply Forall2_app_inv_l in F2 as (k2a & k2b & Fa & Fb & ->).
  exists k2a, (k2b ++ a2)%list. split; [symmetry; apply app_assoc|]. split.
  - clear -F1 Fa. revert k2a Fa.
    induction F1 as [|x y xs ys Hxy _ IH]; intros k2a Fa.
    + inversion Fa; constructor.
    + inversion Fa as [|y' z ys' zs Hyz Hrest]; subst. constructor.
      * destruct Hxy as (A & B & C), Hyz as (A' & B' & C').
        repeat split; congruence.
      * apply IH. exact Hrest.
  - apply Forall_app. split; [|exact N2].
    clear -N1 Fb. induction Fb as [|x y xs ys Hxy _ IH]; [constructor|].
    inversion N1; subst. constructor; [|apply IH; assumption].
    destruct Hxy as (_ & _ & C). congruence.
Qed.

Lemma account_rows w q db :
  account_rows_kept (users db) (users (snd (account w q db))).
Proof.
  destruct q; cbn [account].
  - unfold requestPhoneVerification.
    destruct (negb (present ph)); [apply rows_kept_refl|].
    destruct (exec _ (core db)) as [[otp|] st']; apply rows_kept_refl.
  - unfold verifyPhone.
    destruct (negb (present ph) || negb (present otp)); [apply rows_kept_refl|].
    destruct (exec _ (core db)) as [b st'].
    destruct (negb b); apply rows_kept_refl.
  - destruct (signup w email ph password fullName db) as [r db'] eqn:E.
    destruct (signup_cases _ _ _ _ _ _ _ _ E)
      as [[_ ->]|(u & em & p & _ & _ & _ & _ & _ & _ & _ & _ & _ & _ & Hv & _
                  & _ & ->)]; [apply rows_kept_refl|].
    cbn [snd users]. exists (users db), [u]. split; [reflexivity|]. split.
    + apply rows_same.
    + constructor; [exact Hv|constructor].
  - unfold login.
    repeat match goal with
    | |- context [if ?c then _ else _] => destruct c
    | |- context [match users_by_phone ?p ?d with _ => _ end] =>
        destruct (users_by_phone p d)
    end; apply rows_kept_refl.
  - unfold requestLoginOTP.
    destruct (negb (present ph)); [apply rows_kept_refl|].
    destruct (refused (wenv w) 0); [apply rows_kept_refl|].
    destruct (users_by_phone ph db) as [|u us]; [apply rows_kept_refl|].
    destruct (exec _ (core db)) as [[otp|] st']; apply rows_kept_refl.
  - unfold loginWithOTP.
    destruct (negb (present ph) || negb (present otp)); [apply rows_kept_refl|].
    destruct (exec _ (core db)) as [b st'].
    destruct (negb b); [apply rows_kept_refl|].
    destruct (refused (wenv w) 2); [apply rows_kept_refl|].
    destruct (users_by_phone ph _); apply rows_kept_refl.
  - destruct (updateUserProfile w userId fullName email db) as [r db'] eqn:E.
    destruct (profile_cases _ _ _ _ _ _ _ E)
      as [[_ ->]|(us & ret & _ & -> & _ & _ & _ & _ & HF)];
      [apply rows_kept_refl|].
    cbn [snd set_users users]. apply rows_kept_rowwise.
    eapply Forall2_impl; [|exact HF]. cbv beta. intros x x' Hx.
    destruct (String.eqb (u_user_id x) userId).
    + destruct Hx as (A & B & _ & _ & C & _). auto.
    + subst x'. auto.
  - unfold changePassword.
    repeat match goal with
    | |- context [if ?c then _ else _] => destruct c
    | |- context [match filter ?f ?l with _ => _ end] => destruct (filter f l)
    end; try apply rows_kept_refl.
    cbn [snd set_users users]. apply rows_kept_map.
    intros x. destruct (String.eqb (u_user_id x) userId); auto.
  - unfold updateUserPreferences, insert_preference.
    repeat match goal with
    | |- context [if ?c then _ else _] => destruct c
    | |- context [match filter ?f ?l with _ => _ end] => destruct (filter f l)
    end; apply rows_kept_refl.
  - unfold uploadProfileImage. cbv zeta.
    repeat match goal with
    | |- context [if refused ?e ?i then _ else _] => destruct (refused e i)
    | |- context [match filter ?f ?l with _ => _ end] => destruct (filter f l)
    end; try apply rows_kept_refl.
    cbn [snd set_users users]. apply rows_kept_map.
    intros x. destruct (String.eqb (u_user_id x) userId); auto.
Qed.

(** X20: no request to the routes of authRoutes.ts and userRoutes.ts
    deletes a user, changes a user's id or phone number, or marks a user
    verified (not even a successful /verify-phone): after any sequence of
    them every row is still there with its id, phone and is_verified
    flag, and the rows added since are not verified. *)
Theorem account_requests_keep_users qs : forall db,
  account_rows_kept (users db) (users (serve_accounts qs db)).
Proof.
  induction qs as [|[w q] qs IH]; intros db; cbn [serve_accounts].
  - apply rows_kept_refl.
  - eapply rows_kept_trans; [apply account_rows|apply IH].
Qed.

(* ------------------------------------------------------------------ *)
(** ** updateUserProfile *)

(** X21: the statement that updateUserProfile assembles binds its
    parameters as meant. On a 200 answer every row of the user has the
    given fields set (a field left out keeps its column, a null name
    clears the name) and updated_at set to NOW(), the other columns and
    all other rows are untouched, and so are the other tables; the answer
    carries no row exactly when the user has none. *)
Theorem profile_update_sets_given_fields w userId fullName email db r db' :
  updateUserProfile w userId fullName email db = (r, db') ->
  status_code r = 200 ->
  core db' = core db /\ user_preferences db' = user_preferences db /\
  Forall2 (fun x x' =>
             if String.eqb (u_user_id x) userId
             then profile_set fullName email (db_now (wenv w)) x x'
             else x' = x) (users db) (users db') /\
  (content r = ProfileRow None <->
   filter (fun u => String.eqb (u_user_id u) userId) (users db) = []).
Proof.
  intros H H200.
  destruct (profile_cases _ _ _ _ _ _ _ H)
    as [[Hne _]|(us & ret & -> & -> & _ & _ & _ & Hret & HF)];
    [contradiction|].
  cbn [set_users core user_preferences users content].
  split; [reflexivity|]. split; [reflexivity|]. split; [exact HF|].
  rewrite <- Hret. destruct ret; cbn [hd_error]; split; intros E;
    try reflexivity; discriminate E.
Qed.

Lemma profile_update_sets_given_fields_witness :
  let out := updateUserProfile Accounts.w0 "U1" Null (Text "a@example.com")
                               Accounts.db1 in
  core (snd out) = core Accounts.db1 /\
  user_preferences (snd out) = user_preferences Accounts.db1 /\
  Forall2 (fun x x' =>
             if String.eqb (u_user_id x) "U1"
             then profile_set Null (Text "a@example.com")
                              (db_now (wenv Accounts.w0)) x x'
             else x' = x) (users Accounts.db1) (users (snd out)) /\
  (content (fst out) = ProfileRow None <->
   filter (fun u => String.eqb (u_user_id u) "U1") (users Accounts.db1) = []).
Proof.
  apply (profile_update_sets_given_fields Accounts.w0 "U1" Null
           (Text "a@example.com") Accounts.db1).
  - vm_compute. reflexivity.
  - reflexivity.
Defined.

Lemma Forall2_In_r {A B} (R : A -> B -> Prop) l l' y :
  Forall2 R l l' -> In y l' -> exists x, In x l /\ R x y.
Proof.
  induction 1 as [|a b l l' Hab _ IH]; intros Hy; [contradiction|].
  destruct Hy as [<-|Hy].
  - exists a. split; [left; reflexivity|exact Hab].
  - destruct (IH Hy) as (x & Hx & HR). exists x. split; [right|]; assumption.
Qed.

Lemma email_conflict_false us :
  email_conflict us = false <->
  (forall x u, In x us -> In u us -> u_email x = u_email u ->
               u_user_id x = u_user_id u).
Proof.
  unfold email_conflict. split.
  - intros H x u Hx Hu He.
    destruct (String.eqb_spec (u_user_id x) (u_user_id u)) as [E|E]; [exact E|].
    exfalso. apply Bool.not_true_iff_false in H. apply H.
    apply existsb_exists. exists u. split; [exact Hu|].
    apply existsb_exists. exists x. split; [exact Hx|].
    rewrite He, String.eqb_refl.
    destruct (String.eqb_spec (u_user_id x) (u_user_id u)); [contradiction|].
    reflexivity.
  - intros H. apply Bool.not_true_iff_false. intros C.
    apply existsb_exists in C as (u & Hu & C).
    apply existsb_exists in C as (x & Hx & C).
    apply andb_prop in C as [Ce Ci]. apply String.eqb_eq in Ce.
    rewrite (H x u Hx Hu Ce), String.eqb_refl in Ci. discriminate.
Qed.

Lemma built_update_total now userId fullName email x :
  fits_255 fullName = true -> fits_255 email = true -> email <> Null ->
  let b0 := mkBuilt [] [] 1 in
  let b1 := if defined fullName
            then push_field FullName (param_of fullName) b0 else b0 in
  let b := if defined email then push_field Email (param_of email) b1 else b1 in
  assign_all now (queryParams b ++ [PText userId])
             (updateFields b ++ [ToNow UpdatedAt]) x <> None.
Proof.
  intros Hf He Hn.
  destruct fullName as [| |fn], email as [| |em]; try congruence;
    cbn [fits_255] in Hf, He;
    repeat match goal with
    | H : (_ <=? _)%nat = true |- _ => apply Nat.leb_le in H
    end;
    cbn [defined push_field param_of updateFields queryParams paramIndex app
         bound nth_error assign_all assign option_map];
    repeat (rewrite varchar_fits by assumption;
            cbn [defined push_field param_of updateFields queryParams
                 paramIndex app bound nth_error assign_all assign option_map]);
    discriminate.
Qed.

Lemma profile_outcomes w userId fullName email db :
  let b0 := mkBuilt [] [] 1 in
  let b1 := if defined fullName
            then push_field FullName (param_of fullName) b0 else b0 in
  let b := if defined email then push_field Email (param_of email) b1 else b1 in
  updateUserProfile w userId fullName email db =
  match (if defined email
         then if refused (wenv w) 0 then Some profile_failed
              else match filter (fun u => email_is email (u_email u)
                                 && negb (String.eqb (u_user_id u) userId))
                                (users db) with
                   | _ :: _ => Some (refuse 400 "Email already in use")
                   | [] => None
                   end
         else None) with
  | Some r => (r, db)
  | None =>
      if negb (defined fullName || defined email)
      then (refuse 400 "No fields to update", db)
      else if refused (wenv w) 1 then (profile_failed, db)
      else
        match update_where (fun u => String.eqb (u_user_id u) userId)
                (assign_all (db_now (wenv w))
                            (queryParams b ++ [PText userId])
                            (updateFields b ++ [ToNow UpdatedAt]))
                (users db) with
        | Some (us, ret) =>
            if email_conflict us then (profile_failed, db)
            else (mkReply 200 true "Profile updated successfully"
                          (ProfileRow (hd_error ret)), set_users us db)
        | None => (profile_failed, db)
        end
  end.
Proof.
  unfold updateUserProfile, run_profile_update.
  destruct fullName as [| |fn], email as [| |em];
    repeat first
      [ progress cbn [defined push_field param_of updateFields queryParams
                      paramIndex app bound nth_error negb orb]
      | match goal with
        | |- context [if refused ?e ?i then _ else _] => destruct (refused e i)
        | |- context [match filter ?f ?l with _ => _ end] =>
            destruct (filter f l)
        | |- context [match update_where ?p ?f ?l with _ => _ end] =>
            destruct (update_where p f l) as [[? ?]|]
        | |- context [if email_conflict ?u then _ else _] =>
            destruct (email_conflict u)
        end ]; reflexivity.
Qed.

(** X22: the look-up that updateUserProfile makes before its UPDATE covers
    the UNIQUE index on email: when no statement is refused, the fields
    fit their columns, the e-mail is not null and no two users share an
    address, the answer is 200 or 400, never 500. *)
Theorem profile_update_is_answered_200_or_400 w userId fullName email db :
  calm (wenv w) ->
  fits_255 fullName = true -> fits_255 email = true -> email <> Null ->
  email_conflict (users db) = false ->
  let r := fst (updateUserProfile w userId fullName email db) in
  status_code r = 200 \/ status_code r = 400.
Proof.
  intros Hcalm Hfn Hem Hnull Hold. cbv zeta.
  pose proof (profile_outcomes w userId fullName email db) as Hout.
  pose proof (fun x =>
                built_update_total (db_now (wenv w)) userId fullName email x
                                   Hfn Hem Hnull) as Htot.
  pose proof (fun x x' =>
                built_update_row (db_now (wenv w)) userId fullName email x x')
    as Hrow.
  cbv zeta in Hout, Htot, Hrow. rewrite Hout. clear Hout. rewrite !Hcalm.
  destruct (filter (fun u => email_is email (u_email u)
                             && negb (String.eqb (u_user_id u) userId))
                   (users db)) as [|c cs] eqn:Hfree.
  2:{ destruct email as [| |s]; [|congruence|right; reflexivity].
      rewrite filter_none in Hfree; [discriminate|reflexivity]. }
  assert (E : (if defined email then @None reply else None) = None)
    by (destruct (defined email); reflexivity).
  rewrite E. clear E.
  destruct (negb (defined fullName || defined email)); [right; reflexivity|].
  destruct (update_where_total
              (fun u => String.eqb (u_user_id u) userId)
              (assign_all (db_now (wenv w))
                 (queryParams
                    (if defined email
                     then push_field Email (param_of email)
                            (if defined fullName
                             then push_field FullName (param_of fullName)
                                    (mkBuilt [] [] 1)
                             else mkBuilt [] [] 1)
                     else if defined fullName
                          then push_field FullName (param_of fullName)
                                 (mkBuilt [] [] 1)
                          else mkBuilt [] [] 1) ++ [PText userId])
                 (updateFields
                    (if defined email
                     then push_field Email (param_of email)
                            (if defined fullName
                             then push_field FullName (param_of fullName)
                                    (mkBuilt [] [] 1)
                             else mkBuilt [] [] 1)
                     else if defined fullName
                          then push_field FullName (param_of fullName)
                                 (mkBuilt [] [] 1)
                          else mkBuilt [] [] 1) ++ [ToNow UpdatedAt]))
              (users db)) as (us & ret & Hu).
  { intros x _ _. apply Htot. }
  rewrite Hu.
  assert (Hc : email_conflict us = false).
  { apply email_conflict_false. intros x' u' Hx' Hu' He.
    pose proof (update_where_Forall2 _ _ _ _ _ Hu) as HF.
    destruct (Forall2_In_r _ _ _ _ HF Hx') as (x & Hx & Rx).
    destruct (Forall2_In_r _ _ _ _ HF Hu') as (u & Hu0 & Ru).
    cbv beta in Rx, Ru.
    assert (Hother : forall a a' b b',
              In a (users db) -> In b (users db) ->
              String.eqb (u_user_id a) userId = true ->
              profile_set fullName email (db_now (wenv w)) a a' ->
              String.eqb (u_user_id b) userId = false -> b' = b ->
              u_email a' = u_email b' -> u_user_id a' = u_user_id b').
    { intros a a' b b' Ha Hb Hia Pa Hib -> Heq.
      destruct Pa as (Ia & _ & _ & _ & _ & _ & _ & Pe).
      destruct email as [| |s].
      - rewrite Ia. apply (proj1 (email_conflict_false _) Hold); congruence.
      - contradiction.
      - exfalso. destruct Pe as (s' & Hv & Pe).
        cbn [fits_255] in Hem. apply Nat.leb_le in Hem.
        rewrite varchar_fits in Hv by exact Hem.
        assert (Es : s' = s) by congruence. rewrite Es in Pe.
        assert (Hin : In b (filter
                     (fun u => email_is (Text s) (u_email u)
                               && negb (String.eqb (u_user_id u) userId))
                     (users db))).
        { apply filter_In. split; [exact Hb|]. cbn [email_is].
          rewrite <- Heq. rewrite Pe. rewrite String.eqb_refl. rewrite Hib.
          reflexivity. }
        rewrite Hfree in Hin. contradiction. }
    destruct (String.eqb (u_user_id x) userId) eqn:Ix,
             (String.eqb (u_user_id u) userId) eqn:Iu.
    - apply Hrow in Rx. apply Hrow in Ru.
      destruct Rx as (Ia & _), Ru as (Ib & _).
      apply String.eqb_eq in Ix, Iu. congruence.
    - apply Hrow in Rx. apply (Hother x x' u u'); assumption.
    - apply Hrow in Ru. symmetry.
      apply (Hother u u' x x'); try assumption. symmetry; exact He.
    - subst x' u'. apply (proj1 (email_conflict_false _) Hold); assumption. }
  rewrite Hc. left. reflexivity.
Qed.

Lemma profile_update_is_answered_200_or_400_witness :
  let r := fst (updateUserProfile Accounts.w0 "U1" (Text "Ann B")
                                  (Text "ann@example.com") Accounts.db1) in
  status_code r = 200 \/ status_code r = 400.
Proof.
  apply (profile_update_is_answered_200_or_400 Accounts.w0 "U1" (Text "Ann B")
           (Text "ann@example.com") Accounts.db1).
  - intros i. reflexivity.
  - reflexivity.
  - reflexivity.
  - discriminate.
  - reflexivity.
Defined.

(* ------------------------------------------------------------------ *)
(** ** changePassword, then login *)

Lemma one_row_by_phone (f : user -> user) u us :
  (forall x, u_phone (f x) = u_phone x) ->
  NoDup (map u_phone us) -> In u us ->
  filter (fun x => String.eqb (u_phone x) (u_phone u)) (map f us) = [f u].
Proof.
  intros Hf. induction us as [|x xs IH]; intros Hnd Hin; [contradiction|].
  cbn [map] in Hnd. inversion Hnd as [|p ps Hnot Hnd']; subst.
  cbn [map filter]. rewrite Hf. destruct Hin as [->|Hin].
  - rewrite String.eqb_refl. f_equal.
    apply filter_none. intros y Hy. apply in_map_iff in Hy as (z & <- & Hz).
    rewrite Hf. destruct (String.eqb_spec (u_phone z) (u_phone u)) as [E|E];
      [|reflexivity].
    exfalso. apply Hnot. rewrite <- E. apply in_map. exact Hz.
  - destruct (String.eqb_spec (u_phone x) (u_phone u)) as [E|E].
    + exfalso. apply Hnot. rewrite E. apply in_map. exact Hin.
    + apply IH; assumption.
Qed.

(** X23: after changePassword has answered 200 the user logs in with the
    new password, and a password that does not match the new hash (the
    old one, say) is answered 401. Phone numbers are unique, as the
    UNIQUE index has them. *)
Theorem changed_password_logs_in
    w userId currentPassword newPassword db r db' w2 u :
  changePassword w userId currentPassword newPassword db = (r, db') ->
  status_code r = 200 ->
  In u (users db) -> u_user_id u = userId ->
  NoDup (map u_phone (users db)) ->
  present (u_phone u) = true ->
  refused (wenv w2) 0 = false ->
  bcrypt_compare w2 newPassword (bcrypt_hash w newPassword) = true ->
  login w2 (u_phone u) newPassword db'
  = (session_of w2 "Login successful" 200
       (with_password (bcrypt_hash w newPassword) (db_now (wenv w)) u), db')
  /\ forall password,
       present password = true ->
       bcrypt_compare w2 password (bcrypt_hash w newPassword) = false ->
       login w2 (u_phone u) password db'
       = (refuse 401 "Invalid credentials", db').
Proof.
  unfold changePassword. intros H H200 Hin Hid Hnd Hph H0 Hcmp.
  destruct (negb (present currentPassword) || negb (present newPassword))
    eqn:Hg; [inversion H; subst; discriminate|].
  apply orb_false_elim in Hg as [_ Hnew]. apply negb_false_iff in Hnew.
  destruct (refused (wenv w) 0); [inversion H; subst; discriminate|].
  destruct (filter _ (users db)) as [|x xs];
    [inversion H; subst; discriminate|].
  destruct (negb (bcrypt_compare w currentPassword (u_password_hash x)));
    [inversion H; subst; discriminate|].
  destruct (refused (wenv w) 1); [inversion H; subst; discriminate|].
  inversion H; subst r db'; clear H.
  assert (Hrows : users_by_phone (u_phone u)
            (set_users
               (map (fun x => if String.eqb (u_user_id x) userId
                              then with_password (bcrypt_hash w newPassword)
                                                 (db_now (wenv w)) x
                              else x) (users db)) db)
          = [with_password (bcrypt_hash w newPassword) (db_now (wenv w)) u]).
  { unfold users_by_phone. cbn [set_users users].
    rewrite (one_row_by_phone
               (fun x => if String.eqb (u_user_id x) userId
                         then with_password (bcrypt_hash w newPassword)
                                            (db_now (wenv w)) x
                         else x) u (users db)); try assumption.
    - rewrite Hid, String.eqb_refl. reflexivity.
    - intros y. destruct (String.eqb (u_user_id y) userId); reflexivity. }
  split.
  - unfold login. rewrite Hph, Hnew, H0, Hrows. cbn [negb orb].
    cbn [with_password u_password_hash]. rewrite Hcmp. reflexivity.
  - intros password Hp Hbad. unfold login.
    rewrite Hph, Hp, H0, Hrows. cbn [negb orb].
    cbn [with_password u_password_hash]. rewrite Hbad. reflexivity.
Qed.

Lemma changed_password_logs_in_witness :
  let db' := snd (changePassword Accounts.w0 "U1" "secret" "fresh"
                                 Accounts.db1) in
  login Accounts.w1 (u_phone Accounts.ann) "fresh" db'
  = (session_of Accounts.w1 "Login successful" 200
       (with_password (bcrypt_hash Accounts.w0 "fresh")
                      (db_now (wenv Accounts.w0)) Accounts.ann), db')
  /\ forall password,
       present password = true ->
       bcrypt_compare Accounts.w1 password (bcrypt_hash Accounts.w0 "fresh")
       = false ->
       login Accounts.w1 (u_phone Accounts.ann) password db'
       = (refuse 401 "Invalid credentials", db').
Proof.
  apply (changed_password_logs_in Accounts.w0 "U1" "secret" "fresh"
           Accounts.db1
           (fst (changePassword Accounts.w0 "U1" "secret" "fresh"
                                Accounts.db1))).
  - vm_compute. reflexivity.
  - reflexivity.
  - left. reflexivity.
  - reflexivity.
  - vm_compute. constructor; [intros []|constructor].
  - reflexivity.
  - reflexivity.
  - reflexivity.
Defined.

(* ------------------------------------------------------------------ *)
(** ** Login by code *)

Lemma usable_rows_after_issue e ph userId purp st o st' now ph' otp purp' :
  exec (generateAndStoreOTP e ph userId purp) st = (o, st') ->
  purp <> purp' ->
  select_usable_codes now ph' otp purp' st = [] ->
  select_usable_codes now ph' otp purp' st' = [].
Proof.
  intros H Hne Hnone.
  destruct (issue_cases _ _ _ _ _ _ _ H)
    as [[_ ->]|(p & cd & _ & _ & _ & _ & ->)]; [exact Hnone|].
  unfold select_usable_codes, delete_expired_otps in *.
  cbn [verification_codes set_codes]. apply filter_none.
  intros c Hc. apply filter_In in Hc as [Hc _].
  apply in_app_or in Hc as [Hc|[<-|[]]].
  - destruct (usable now ph' otp purp' c) eqn:E; [|reflexivity].
    assert (Hin : In c (filter (usable now ph' otp purp')
                               (verification_codes st)))
      by (apply filter_In; split; assumption).
    rewrite Hnone in Hin. contradiction.
  - unfold usable. cbn [phone code purpose expires_at is_used].
    destruct (String.eqb_spec purp purp') as [E|E]; [contradiction|].
    rewrite !andb_false_r. reflexivity.
Qed.

(** X24: a code is bound to its purpose. A code handed out by
    /request-verification (purpose SIGNUP) does not log anybody in: if no
    usable LOGIN code for the phone and code was stored before, a
    /login-with-otp with any code is answered 400 afterwards. *)
Theorem signup_code_does_not_log_in w1 ph db w2 ph' otp :
  select_usable_codes (db_now (wenv w2)) ph' otp "LOGIN" (core db) = [] ->
  let db1 := snd (requestPhoneVerification w1 ph db) in
  loginWithOTP w2 ph' otp db1
  = (refuse 400 (if negb (present ph') || negb (present otp)
                 then "Phone number and OTP are required"
                 else "Invalid or expired OTP"), db1).
Proof.
  intros Hnone. cbv zeta.
  assert (Hnone1 : select_usable_codes (db_now (wenv w2)) ph' otp "LOGIN"
                     (core (snd (requestPhoneVerification w1 ph db))) = []).
  { unfold requestPhoneVerification.
    destruct (negb (present ph)); [exact Hnone|].
    destruct (exec _ (core db)) as [[o|] st'] eqn:E; [|exact Hnone].
    cbn [snd set_core core].
    eapply usable_rows_after_issue; [exact E|discriminate|exact Hnone]. }
  set (db1 := snd (requestPhoneVerification w1 ph db)) in *.
  unfold loginWithOTP.
  destruct (negb (present ph') || negb (present otp)); [reflexivity|].
  rewrite verify_exec, Hnone1.
  destruct (refused (wenv w2) 0); cbn [negb]; destruct db1; reflexivity.
Qed.

Lemma signup_code_does_not_log_in_witness :
  let db1 := snd (requestPhoneVerification Accounts.w0 "5550100"
                                           Accounts.db1) in
  loginWithOTP Accounts.w1 "5550100" "483920" db1
  = (refuse 400 (if negb (present "5550100") || negb (present "483920")
                 then "Phone number and OTP are required"
                 else "Invalid or expired OTP"), db1).
Proof.
  apply (signup_code_does_not_log_in Accounts.w0 "5550100" Accounts.db1
           Accounts.w1 "5550100" "483920").
  reflexivity.
Defined.

(** X25: a code sent by /request-login-otp logs in the user it was sent
    for: within its ten minutes, /login-with-otp with the phone and the
    code answers 200 with the session of the first user of that phone. The
    code itself is in the answer of /request-login-otp only in
    development. *)
Theorem login_code_opens_session w1 ph db r db1 w2 :
  requestLoginOTP w1 ph db = (r, db1) ->
  status_code r = 200 ->
  (String.length ph <= 15)%nat ->
  (String.length (random_code (wenv w1)) <= 6)%nat ->
  present (random_code (wenv w1)) = true ->
  db_now (wenv w1) <= app_clock (wenv w1) 0%nat + otp_lifetime ->
  db_now (wenv w2) < app_clock (wenv w1) 0%nat + otp_lifetime ->
  calm (wenv w2) ->
  exists u rest smsSent db2,
    users_by_phone ph db = u :: rest /\
    content r = CodeSent smsSent (if development w1
                                  then Some (random_code (wenv w1))
                                  else None) /\
    loginWithOTP w2 ph (random_code (wenv w1)) db1
    = (session_of w2 "Login successful" 200 u, db2).
Proof.
  unfold requestLoginOTP. intros H H200 Hlen Hcode Hpc Hn1 Hn2 Hcalm.
  destruct (negb (present ph)) eqn:Hp; [inversion H; subst; discriminate|].
  apply negb_false_iff in Hp.
  destruct (refused (wenv w1) 0); [inversion H; subst; discriminate|].
  destruct (users_by_phone ph db) as [|u rest] eqn:Hrows;
    [inversion H; subst; discriminate|].
  destruct (exec _ (core db)) as [[otp|] st'] eqn:E;
    [|inversion H; subst; discriminate].
  inversion H; subst r db1; clear H.
  destruct (issue_cases _ _ _ _ _ _ _ E)
    as [[Ho _]|(ph' & cd & Hv1 & Hv2 & _ & Ho & Hst)]; [discriminate|].
  cbn [after_statements random_code db_now app_clock uuid] in Hv2, Ho, Hst.
  inversion Ho; subst otp.
  rewrite varchar_fits in Hv1 by exact Hlen.
  rewrite varchar_fits in Hv2 by exact Hcode.
  assert (E1 : ph' = ph) by congruence.
  assert (E2 : cd = random_code (wenv w1)) by congruence.
  rewrite E1, E2 in Hst. clear E1 E2 Hv1 Hv2.
  destruct (verify_finds (wenv w2) ph (random_code (wenv w1)) "LOGIN" st'
              (mkCode (uuid (wenv w1)) (Some (u_user_id u)) ph
                      (random_code (wenv w1)) "LOGIN"
                      (app_clock (wenv w1) 0%nat + otp_lifetime) false)
              Hcalm) as (st2 & Hver).
  { rewrite Hst. unfold delete_expired_otps.
    cbn [verification_codes set_codes]. apply filter_In. split.
    - apply in_or_app. right. left. reflexivity.
    - cbn [expires_at]. apply negb_true_iff. apply Z.ltb_ge. exact Hn1. }
  { unfold usable. cbn [phone code purpose expires_at is_used].
    rewrite !String.eqb_refl. apply Z.ltb_lt in Hn2. rewrite Hn2.
    reflexivity. }
  exists u, rest,
    (sendSMS w1 ph ("Your login code is " ++ random_code (wenv w1)
                    ++ ". Valid for 10 minutes.")),
    (set_core st2 (set_core st' db)).
  split; [reflexivity|]. split; [reflexivity|].
  unfold loginWithOTP. rewrite Hp, Hpc. cbn [negb orb core set_core].
  rewrite Hver. cbn [negb]. rewrite Hcalm.
  unfold users_by_phone in *. cbn [set_core users]. rewrite Hrows.
  reflexivity.
Qed.

Lemma login_code_opens_session_witness :
  exists u rest smsSent db2,
    users_by_phone "5550100" Accounts.db1 = u :: rest /\
    content (fst (requestLoginOTP Accounts.w0 "5550100" Accounts.db1))
    = CodeSent smsSent (if development Accounts.w0
                        then Some (random_code (wenv Accounts.w0))
                        else None) /\
    loginWithOTP Accounts.w1 "5550100" (random_code (wenv Accounts.w0))
                 (snd (requestLoginOTP Accounts.w0 "5550100" Accounts.db1))
    = (session_of Accounts.w1 "Login successful" 200 u, db2).
Proof.
  apply (login_code_opens_session Accounts.w0 "5550100" Accounts.db1
           (fst (requestLoginOTP Accounts.w0 "5550100" Accounts.db1))
           (snd (requestLoginOTP Accounts.w0 "5550100" Accounts.db1))
           Accounts.w1).
  - vm_compute. reflexivity.
  - reflexivity.
  - vm_compute. lia.
  - vm_compute. lia.
  - reflexivity.
  - vm_compute. discriminate.
  - vm_compute. reflexivity.
  - intros i. reflexivity.
Defined.

(* ------------------------------------------------------------------ *)
(** ** updateUserPreferences and uploadProfileImage *)

Lemma coalesce_idem p o : coalesce p (coalesce p o) = coalesce p o.
Proof. destruct p; reflexivity. Qed.

Lemma coalesce_default p d : coalesce p (or_default p d) = or_default p d.
Proof. destruct p; reflexivity. Qed.

Lemma filter_map_same {A} (p : A -> bool) (g : A -> A) l :
  (forall x, p (g x) = p x) -> filter p (map g l) = map g (filter p l).
Proof.
  intros H. induction l as [|x xs IH]; [reflexivity|].
  cbn [map filter]. rewrite H. destruct (p x); cbn [map]; congruence.
Qed.

(** X26: updateUserPreferences can be repeated: a second identical
    request after one answered 200 is answered 200 with the same row and
    leaves the database as the first one left it (the first may have
    inserted the row with its defaults; the second then goes through the
    COALESCE update, which keeps what the first one stored). *)
Theorem preferences_update_is_idempotent
    w1 w2 userId em sms marketing db r1 db1 :
  updateUserPreferences w1 userId em sms marketing db = (r1, db1) ->
  status_code r1 = 200 ->
  refused (wenv w2) 0 = false -> refused (wenv w2) 1 = false ->
  updateUserPreferences w2 userId em sms marketing db1 = (r1, db1).
Proof.
  intros H H200 Hw0 Hw1.
  set (g := fun p =>
              if String.eqb (pref_user_id p) userId
              then mkPreference (preference_id p) (pref_user_id p)
                     (coalesce em (receive_email_notifications p))
                     (coalesce sms (receive_sms_notifications p))
                     (coalesce marketing (marketing_opt_in p))
              else p).
  assert (Hid : forall x, String.eqb (pref_user_id (g x)) userId
                          = String.eqb (pref_user_id x) userId).
  { intros x. unfold g.
    destruct (String.eqb (pref_user_id x) userId) eqn:E;
      [cbn [pref_user_id]|]; exact E. }
  assert (Hgg : forall x, g (g x) = g x).
  { intros x. unfold g at 2.
    destruct (String.eqb (pref_user_id x) userId) eqn:E.
    - unfold g. cbn [pref_user_id preference_id receive_email_notifications
                     receive_sms_notifications marketing_opt_in].
      rewrite E, !coalesce_idem. reflexivity.
    - unfold g. rewrite E. reflexivity. }
  assert (Hsecond : forall ps,
            filter (fun p => String.eqb (pref_user_id p) userId) ps <> [] ->
            map g ps = ps ->
            updateUserPreferences w2 userId em sms marketing
              (set_preferences ps db)
            = (mkReply 200 true "Preferences updated successfully"
                 (PreferenceRow
                    (hd_error (filter (fun p => String.eqb (pref_user_id p)
                                                           userId) ps))),
               set_preferences ps db)).
  { intros ps Hne Hfix. unfold updateUserPreferences.
    rewrite Hw0. cbn [set_preferences user_preferences].
    destruct (filter _ ps) as [|y ys] eqn:Hf; [contradiction|].
    rewrite Hw1. fold g. rewrite Hfix, Hf. reflexivity. }
  unfold updateUserPreferences in H.
  destruct (refused (wenv w1) 0); [inversion H; subst; discriminate|].
  destruct (filter _ (user_preferences db)) as [|y ys] eqn:Hf.
  - destruct (refused (wenv w1) 1); [inversion H; subst; discriminate|].
    unfold insert_preference in H.
    destruct (_ || _); [inversion H; subst; discriminate|].
    inversion H; subst r1 db1; clear H.
    set (row := mkPreference (uuid (wenv w1)) userId (or_default em true)
                             (or_default sms true)
                             (or_default marketing false)).
    assert (Hold : map g (user_preferences db) = user_preferences db).
    { assert (Hall : forall x, In x (user_preferences db) ->
                String.eqb (pref_user_id x) userId = false).
      { intros x Hx.
        destruct (String.eqb (pref_user_id x) userId) eqn:E; [|reflexivity].
        assert (Hin : In x (filter (fun p => String.eqb (pref_user_id p)
                                                        userId)
                                   (user_preferences db)))
          by (apply filter_In; split; assumption).
        rewrite Hf in Hin. contradiction. }
      clear -Hall. induction (user_preferences db) as [|x xs IH];
        [reflexivity|].
      cbn [map]. rewrite IH by (intros z Hz; apply Hall; right; exact Hz).
      unfold g. rewrite (Hall x (or_introl eq_refl)). reflexivity. }
    rewrite (Hsecond (user_preferences db ++ [row])%list).
    + rewrite filter_app, Hf. cbn [app filter row pref_user_id].
      rewrite String.eqb_refl. reflexivity.
    + rewrite filter_app, Hf. cbn [app filter row pref_user_id].
      rewrite String.eqb_refl. discriminate.
    + rewrite map_app, Hold. cbn [map]. unfold g at 1.
      cbn [row pref_user_id preference_id receive_email_notifications
           receive_sms_notifications marketing_opt_in].
      rewrite String.eqb_refl, !coalesce_default. reflexivity.
  - destruct (refused (wenv w1) 1); [inversion H; subst; discriminate|].
    fold g in H. inversion H; subst r1 db1; clear H.
    rewrite (Hsecond (map g (user_preferences db))).
    + reflexivity.
    + rewrite (filter_map_same _ g _ Hid), Hf. discriminate.
    + rewrite map_map. apply map_ext. exact Hgg.
Qed.

Lemma preferences_update_is_idempotent_witness :
  updateUserPreferences Accounts.w1 "U1" NoFlag (Flag false) NullFlag
    (snd (updateUserPreferences Accounts.w0 "U1" NoFlag (Flag false) NullFlag
                                Accounts.db1))
  = updateUserPreferences Accounts.w0 "U1" NoFlag (Flag false) NullFlag
                          Accounts.db1.
Proof.
  apply (preferences_update_is_idempotent Accounts.w0 Accounts.w1 "U1"
           NoFlag (Flag false) NullFlag Accounts.db1).
  - vm_compute. reflexivity.
  - reflexivity.
  - reflexivity.
  - reflexivity.
Defined.

(** X27: uploadProfileImage needs the row of the user: when its UPDATE is
    not refused, the answer is 200 exactly when the user has a row; the
    stored URL is then the one sent, or the default avatar when none is
    sent. Without a row the handler answers 500 (it reads rows[0])
    and the database is unchanged. *)
Theorem upload_image_needs_the_user w userId imageUrl db r db' :
  uploadProfileImage w userId imageUrl db = (r, db') ->
  refused (wenv w) 0 = false ->
  (filter (fun u => String.eqb (u_user_id u) userId) (users db) = [] ->
   r = image_failed /\ db' = db) /\
  (filter (fun u => String.eqb (u_user_id u) userId) (users db) <> [] ->
   r = mkReply 200 true "Profile image updated successfully"
         (ImageRow userId
            (Some (if present imageUrl then imageUrl else default_avatar))) /\
   forall u', In u' (users db') -> u_user_id u' = userId ->
     u_profile_image_url u'
     = Some (if present imageUrl then imageUrl else default_avatar)).
Proof.
  unfold uploadProfileImage. cbv zeta. intros H H0. rewrite H0 in H.
  set (url := if present imageUrl then imageUrl else default_avatar) in *.
  set (g := fun u => if String.eqb (u_user_id u) userId
                     then mkUser (u_user_id u) (u_email u) (u_phone u)
                            (u_full_name u) (Some url) (u_password_hash u)
                            (u_is_verified u) (db_now (wenv w))
                     else u) in *.
  assert (Hid : forall x, String.eqb (u_user_id (g x)) userId
                          = String.eqb (u_user_id x) userId).
  { intros x. unfold g.
    destruct (String.eqb (u_user_id x) userId) eqn:E;
      [cbn [u_user_id]|]; exact E. }
  rewrite (filter_map_same _ g _ Hid) in H.
  split; intros Hf.
  - rewrite Hf in H. cbn [map] in H. inversion H; subst; split; reflexivity.
  - destruct (filter _ (users db)) as [|x xs] eqn:E; [contradiction|].
    cbn [map] in H. inversion H; subst r db'; clear H.
    assert (Hx : String.eqb (u_user_id x) userId = true).
    { assert (Hin : In x (filter (fun u => String.eqb (u_user_id u) userId)
                                 (users db)))
        by (rewrite E; left; reflexivity).
      apply filter_In in Hin. apply Hin. }
    split.
    + unfold g. rewrite Hx. cbn [u_user_id u_profile_image_url].
      apply String.eqb_eq in Hx. rewrite Hx. reflexivity.
    + cbn [set_users users]. intros u' Hu' Hi.
      apply in_map_iff in Hu' as (u & <- & _).
      assert (Hg : String.eqb (u_user_id (g u)) userId = true)
        by (apply String.eqb_eq; exact Hi).
      rewrite Hid in Hg. unfold g. rewrite Hg. reflexivity.
Qed.

Lemma upload_image_needs_the_user_witness :
  (filter (fun u => String.eqb (u_user_id u) "U1") (users Accounts.db1) = [] ->
   fst (uploadProfileImage Accounts.w0 "U1" "" Accounts.db1) = image_failed /\
   snd (uploadProfileImage Accounts.w0 "U1" "" Accounts.db1) = Accounts.db1) /\
  (filter (fun u => String.eqb (u_user_id u) "U1") (users Accounts.db1) <> [] ->
   fst (uploadProfileImage Accounts.w0 "U1" "" Accounts.db1)
   = mkReply 200 true "Profile image updated successfully"
       (ImageRow "U1" (Some (if present "" then "" else default_avatar))) /\
   forall u',
     In u' (users (snd (uploadProfileImage Accounts.w0 "U1" "" Accounts.db1))) ->
     u_user_id u' = "U1" ->
     u_profile_image_url u'
     = Some (if present "" then "" else default_avatar)).
Proof.
  apply (upload_image_needs_the_user Accounts.w0 "U1" "" Accounts.db1).
  - vm_compute. reflexivity.
  - reflexivity.
Defined.
